(** * MinerSentinel data-service: collectors, decoders and alert rules

    A shallow embedding of the two device collectors of the data service
    ([collectors/bitaxe_collector.py], [collectors/avalon_collector.py]), of
    the parts of the schema ([backend/api/models.py]) they write to, of the
    Telegram notifier ([notifications/telegram_notifier.py]) and of the
    hashrate texts of the pool collectors ([collectors/ckpool_collector.py],
    [collectors/publicpool_collector.py]).

    Modelling conventions.
    - Python [float] values are idealised as exact rationals ([Q], kept in
      lowest terms with [Qred]): rounding and the non-finite values
      [inf]/[nan] are not represented.  The literals [inf], [nan] and
      [infinity] are therefore rejected by [float_of_string], where Python
      reads them.  Of overflow, the [OverflowError] of [float] on an integer
      beyond the doubles is represented ([Py.fits_double]).
    - The answer of a device is a JSON object (a [dict]); an answer of
      another JSON type is not represented.
    - A number bound to a BIGINT column is stored as it is, not rounded.
    - Python [str] values are [string]s whose characters are the code points
      below 256; [isspace] and the regex classes [\s], [\d] are given for
      that range.
    - Exceptions are values of [exn]; a computation that may raise returns a
      [res].  Code that talks to PostgreSQL, the devices or Telegram runs in
      the state monad [M] over a [world]. *)

From Stdlib Require Import ZArith QArith Qabs String Ascii List Lia Lqa Bool DecimalString.
From Stdlib Require DecimalPos DecimalZ Qround.
From stdpp Require Import gmap strings.
Import ListNotations.
Open Scope string_scope.

(** ** Exceptions and results *)

Inductive exn_kind :=
| ValueError | TypeError | IndexError | AttributeError | KeyError
| OverflowError
| OperationalError      (* psycopg2.connect failed *)
| NotNullViolation      (* INSERT of NULL into a NOT NULL column *)
| RequestException      (* requests / socket failure after the retries *).

Record exn := Exn { exn_type : exn_kind; exn_msg : string }.

Inductive res (A : Type) :=
| Ok (a : A)
| Raise (e : exn).
Arguments Ok {A} a.
Arguments Raise {A} e.

Definition exn_kind_eqb (a b : exn_kind) : bool :=
  match a, b with
  | ValueError, ValueError | TypeError, TypeError | IndexError, IndexError
  | AttributeError, AttributeError | KeyError, KeyError
  | OverflowError, OverflowError
  | OperationalError, OperationalError | NotNullViolation, NotNullViolation
  | RequestException, RequestException => true
  | _, _ => false
  end.

Definition rbind {A B} (r : res A) (k : A -> res B) : res B :=
  match r with
  | Ok a => k a
  | Raise e => Raise e
  end.

(** [try: body except (kinds): handler]; an exception of another kind
    propagates. *)
Definition try_except {A} (body : res A) (kinds : list exn_kind) (handler : res A) : res A :=
  match body with
  | Ok a => Ok a
  | Raise e =>
      if existsb (exn_kind_eqb (exn_type e)) kinds then handler else Raise e
  end.

(** [try: body except Exception: handler]. *)
Definition try_except_all {A} (body : res A) (handler : exn -> res A) : res A :=
  match body with
  | Ok a => Ok a
  | Raise e => handler e
  end.

Declare Scope res_scope.
Delimit Scope res_scope with res.
Notation "x <- c1 ;; c2" := (rbind c1 (fun x => c2))
  (at level 100, c1 at next level, right associativity) : res_scope.

Definition is_ok {A} (r : res A) : bool :=
  match r with Ok _ => true | Raise _ => false end.

(** ** Python string primitives *)

Module PyStr.

Definition code (c : ascii) : N := N_of_ascii c.

(** [str.isspace] on one character (code points below 256). *)
Definition is_space (c : ascii) : bool :=
  let n := code c in
  ((9 <=? n) && (n <=? 13) || (28 <=? n) && (n <=? 32)
   || (n =? 133) || (n =? 160))%N.

(** [\d] *)
Definition is_digit (c : ascii) : bool :=
  let n := code c in ((48 <=? n) && (n <=? 57))%N.

Definition digit_val (c : ascii) : Z := Z.of_N (code c) - 48.

Definition ascii_eqb (a b : ascii) : bool := Ascii.eqb a b.

(** Longest prefix whose characters satisfy [p], and the remainder. *)
Fixpoint span (p : ascii -> bool) (s : string) : string * string :=
  match s with
  | String c r =>
      if p c then let (g, r') := span p r in (String c g, r') else ("", s)
  | EmptyString => ("", s)
  end.

Fixpoint lstrip (s : string) : string :=
  match s with
  | String c r => if is_space c then lstrip r else s
  | EmptyString => s
  end.

(** [rstrip]: drop the trailing whitespace. *)
Fixpoint rstrip (s : string) : string :=
  match s with
  | String c r =>
      match rstrip r with
      | EmptyString => if is_space c then "" else String c ""
      | r' => String c r'
      end
  | EmptyString => ""
  end.

(** [s.strip()] *)
Definition strip (s : string) : string := rstrip (lstrip s).

(** [s.startswith(p)]: [Some rest] when [s = p ++ rest]. *)
Fixpoint strip_prefix (p s : string) : option string :=
  match p, s with
  | EmptyString, _ => Some s
  | String a p', String b s' => if ascii_eqb a b then strip_prefix p' s' else None
  | String _ _, EmptyString => None
  end.

Definition startswith (s p : string) : bool :=
  match strip_prefix p s with Some _ => true | None => false end.

(** [s.find(sub)]: index of the first occurrence, [None] for -1. *)
Fixpoint find (s sub : string) : option nat :=
  if startswith s sub then Some 0%nat
  else match s with
       | String _ r => option_map S (find r sub)
       | EmptyString => None
       end.

(** [sub in s] *)
Definition contains (s sub : string) : bool :=
  match find s sub with Some _ => true | None => false end.

(** [s[n:]] and [s[:n]] for [0 <= n]. *)
Fixpoint drop (n : nat) (s : string) : string :=
  match n, s with
  | O, _ => s
  | S n', String _ r => drop n' r
  | S _, EmptyString => ""
  end.

Fixpoint take (n : nat) (s : string) : string :=
  match n, s with
  | O, _ => ""
  | S n', String c r => String c (take n' r)
  | S _, EmptyString => ""
  end.

(** [s.split(sep)] for a one-character separator: never empty. *)
Fixpoint split (sep : ascii) (s : string) : list string :=
  match s with
  | EmptyString => [""]
  | String c r =>
      if ascii_eqb c sep then "" :: split sep r
      else match split sep r with
           | w :: ws => String c w :: ws
           | [] => [String c ""]
           end
  end.

(** [s.split(sep, 1)]: at most one cut, at the first separator. *)
Fixpoint split1 (sep : ascii) (s : string) : list string :=
  match s with
  | EmptyString => [""]
  | String c r =>
      if ascii_eqb c sep then [""; r]
      else match split1 sep r with
           | w :: ws => String c w :: ws
           | [] => [String c ""]
           end
  end.

(** [s.split()]: the maximal runs of non-whitespace characters. *)
Fixpoint split_ws_aux (cur : option string) (s : string) : list string :=
  match s with
  | EmptyString => match cur with Some w => [w] | None => [] end
  | String c r =>
      if is_space c then
        match cur with
        | Some w => w :: split_ws_aux None r
        | None => split_ws_aux None r
        end
      else
        match cur with
        | Some w => split_ws_aux (Some (w ++ String c "")) r
        | None => split_ws_aux (Some (String c "")) r
        end
  end.

Definition split_ws (s : string) : list string := split_ws_aux None s.

End PyStr.

(** ** Python numeric conversions *)

Module PyNum.
Import PyStr.
Local Open Scope Z_scope.

Fixpoint Z_of_digits_acc (acc : Z) (ds : list Z) : Z :=
  match ds with
  | [] => acc
  | d :: r => Z_of_digits_acc (10 * acc + d) r
  end.

Definition Z_of_digits (ds : list Z) : Z := Z_of_digits_acc 0 ds.

(** The grammar's [digitpart ::= digit (["_"] digit)*], after its first
    digit: the remaining digits and what follows them. *)
Fixpoint digits_tail (s : string) : list Z * string :=
  match s with
  | String c r =>
      if is_digit c then
        let (ds, r') := digits_tail r in (digit_val c :: ds, r')
      else if ascii_eqb c "_" then
        match r with
        | String c2 r2 =>
            if is_digit c2 then
              let (ds, r') := digits_tail r2 in (digit_val c2 :: ds, r')
            else ([], s)
        | EmptyString => ([], s)
        end
      else ([], s)
  | EmptyString => ([], s)
  end.

(** An optional [digitpart]: no digits when [s] does not start with one. *)
Definition digitpart (s : string) : list Z * string :=
  match s with
  | String c r =>
      if is_digit c then
        let (ds, r') := digits_tail r in (digit_val c :: ds, r')
      else ([], s)
  | EmptyString => ([], s)
  end.

Definition sign_of (s : string) : Z * string :=
  match s with
  | String c r =>
      if ascii_eqb c "+" then (1, r)
      else if ascii_eqb c "-" then (-1, r)
      else (1, s)
  | EmptyString => (1, s)
  end.

(** [exponent ::= ("e" | "E") [sign] digitpart]; [Some (0, s)] when there
    is no exponent at all, [None] when an exponent starts and is broken. *)
Definition exponent (s : string) : option (Z * string) :=
  match s with
  | String c r =>
      if ascii_eqb c "e" || ascii_eqb c "E" then
        let (sg, r1) := sign_of r in
        match digitpart r1 with
        | ([], _) => None
        | (ds, r2) => Some (sg * Z_of_digits ds, r2)
        end
      else Some (0, s)
  | EmptyString => Some (0, s)
  end.

(** [m * 10^e] as a rational in lowest terms. *)
Definition scale10 (m e : Z) : Q :=
  if (0 <=? e)%Z then inject_Z (m * 10 ^ e)
  else Qred (Qmake m (Z.to_pos (10 ^ (- e)))).

Definition value_error (what : string) : exn := Exn ValueError what.

(** [float(s)] for a string: surrounding whitespace is stripped, then
    [[sign] ([digitpart] "." digitpart | digitpart ["."]) [exponent]]
    must cover the whole text. *)
Definition float_of_string (s : string) : res Q :=
  let bad := Raise (value_error "could not convert string to float") in
  let (sg, s1) := sign_of (strip s) in
  let (ip, s2) := digitpart s1 in
  let (fp, s3) :=
    match s2 with
    | String c r => if ascii_eqb c "." then digitpart r else ([], s2)
    | EmptyString => ([], s2)
    end in
  let dot_then_sep :=
    (* a "." directly followed by "_" is no number in either alternative *)
    match s2 with
    | String c (String c2 _) => ascii_eqb c "." && ascii_eqb c2 "_"
    | _ => false
    end in
  match ip, fp with
  | [], [] => bad
  | _, _ =>
      if dot_then_sep then bad
      else
        match exponent s3 with
        | Some (e, EmptyString) =>
            Ok (scale10 (sg * Z_of_digits (ip ++ fp)) (e - Z.of_nat (length fp)))
        | _ => bad
        end
  end.

(** [int(s)] for a string. *)
Definition int_of_string (s : string) : res Z :=
  let bad := Raise (value_error "invalid literal for int()") in
  let (sg, s1) := sign_of (strip s) in
  match digitpart s1 with
  | ([], _) => bad
  | (ds, EmptyString) => Ok (sg * Z_of_digits ds)
  | _ => bad
  end.

(** Float arithmetic, results in lowest terms. *)
Definition fdiv (x y : Q) : Q := Qred (x / y).
Definition fmul (x y : Q) : Q := Qred (x * y).
Definition fsub (x y : Q) : Q := Qred (x - y).
Definition fabs (x : Q) : Q := Qred (Qabs x).
Definition flt (x y : Q) : bool :=
  match Qlt_le_dec x y with left _ => true | right _ => false end.
Definition fle (x y : Q) : bool :=
  match Qlt_le_dec y x with left _ => false | right _ => true end.

End PyNum.

(** ** Python values, dictionaries and conversions *)

Inductive pyval :=
| VNone
| VBool (b : bool)
| VInt (z : Z)
| VFloat (q : Q)
| VStr (s : string).

(** A decoded JSON object / Python [dict] with text keys. *)
Abbreviation dict := (gmap string pyval).

Module Py.
Import PyStr PyNum.

(** [d.get(k)] and [d.get(k, default)] *)
Definition get (d : dict) (k : string) : pyval :=
  match d !! k with Some v => v | None => VNone end.

Definition get_default (d : dict) (k : string) (default : pyval) : pyval :=
  match d !! k with Some v => v | None => default end.

(** Truth value of an object, as tested by [if x] / [not x]. *)
Definition truthy (v : pyval) : bool :=
  match v with
  | VNone => false
  | VBool b => b
  | VInt z => negb (z =? 0)%Z
  | VFloat q => negb (Qeq_bool q 0)
  | VStr s => negb (String.eqb s "")
  end.

Definition str_of_Z (z : Z) : string :=
  DecimalString.NilZero.string_of_int (Z.to_int z).

Definition digit_char (d : Z) : string :=
  String (ascii_of_N (Z.to_N (48 + d))) "".

Fixpoint frac_digits (fuel : nat) (num den : Z) : string :=
  match fuel with
  | O => ""
  | S f =>
      if (num =? 0)%Z then ""
      else digit_char (10 * num / den) ++ frac_digits f ((10 * num) mod den) den
  end.

(** [str(x)] of a float, idealised like the floats: the decimal expansion
    of the rational, cut after 17 fractional digits, never in scientific
    notation. *)
Definition float_repr (q : Q) : string :=
  let q := Qred q in
  let d := Zpos (Qden q) in
  let a := Z.abs (Qnum q) in
  (if (Qnum q <? 0)%Z then "-" else "")
  ++ str_of_Z (a / d) ++ "."
  ++ match frac_digits 17 (a mod d) d with
     | EmptyString => "0"
     | s => s
     end.

(** [str(x)] *)
Definition str (v : pyval) : string :=
  match v with
  | VNone => "None"
  | VBool true => "True"
  | VBool false => "False"
  | VInt z => str_of_Z z
  | VFloat q => float_repr q
  | VStr s => s
  end.

Definition type_error (what : string) : exn := Exn TypeError what.

(** The integers that [float] converts: those that round to a finite
    double, the ones below [2^1024 - 2^970] in absolute value. *)
Definition fits_double (z : Z) : bool := (Z.abs z <? 2 ^ 1024 - 2 ^ 970)%Z.

Definition overflow_error : exn :=
  Exn OverflowError "int too large to convert to float".

(** [float(x)] *)
Definition float (v : pyval) : res Q :=
  match v with
  | VNone => Raise (type_error "float() argument must be a string or a real number")
  | VBool b => Ok (if b then 1 else 0)%Q
  | VInt z => if fits_double z then Ok (inject_Z z) else Raise overflow_error
  | VFloat q => Ok (Qred q)
  | VStr s => float_of_string s
  end.

(** [int(x)]; a float is truncated towards zero. *)
Definition int (v : pyval) : res Z :=
  match v with
  | VNone => Raise (type_error "int() argument must be a string or a real number")
  | VBool b => Ok (if b then 1 else 0)%Z
  | VInt z => Ok z
  | VFloat q => Ok (Z.quot (Qnum q) (Zpos (Qden q)))
  | VStr s => int_of_string s
  end.

(** A number used as an operand of [/], [>] and the like: [bool], [int]
    and [float] qualify, anything else is a [TypeError]. *)
Definition as_number (v : pyval) : res Q :=
  match v with
  | VBool b => Ok (if b then 1 else 0)%Q
  | VInt z => Ok (inject_Z z)
  | VFloat q => Ok (Qred q)
  | VNone | VStr _ => Raise (type_error "unsupported operand type(s)")
  end.

(** [x == 1] *)
Definition eq_one (v : pyval) : bool :=
  match v with
  | VBool b => b
  | VInt z => (z =? 1)%Z
  | VFloat q => Qeq_bool q 1
  | VNone | VStr _ => false
  end.

(** [x == s] for a string [s] *)
Definition eq_str (v : pyval) (s : string) : bool :=
  match v with
  | VStr t => String.eqb t s
  | _ => false
  end.

(** [l[i]] *)
Definition index {A} (l : list A) (i : nat) : res A :=
  match nth_error l i with
  | Some a => Ok a
  | None => Raise (Exn IndexError "list index out of range")
  end.

End Py.

(** ** The regular expressions of the collectors *)

Module Re.
Import PyStr.

(** [key\[(cls+)\]] anchored at the start of [s]: the group.  The class is
    matched greedily; a shorter group can never be followed by "]" when the
    longest one is not, so no backtracking is needed. *)
Definition match_group_at (key : string) (cls : ascii -> bool) (s : string)
  : option string :=
  match strip_prefix (key ++ "[") s with
  | Some r =>
      match span cls r with
      | (EmptyString, _) => None
      | (g, String c _) => if ascii_eqb c "]" then Some g else None
      | (_, EmptyString) => None
      end
  | None => None
  end.

(** [re.search(key\[(cls+)\], s)]: group 1 of the leftmost match. *)
Fixpoint search_group (key : string) (cls : ascii -> bool) (s : string)
  : option string :=
  match match_group_at key cls s with
  | Some g => Some g
  | None =>
      match s with
      | String _ r => search_group key cls r
      | EmptyString => None
      end
  end.

(** The character classes [\d], [[\d.]] and [[^\]]]. *)
Definition cls_digit : ascii -> bool := is_digit.
Definition cls_digit_dot (c : ascii) : bool := is_digit c || ascii_eqb c ".".
Definition cls_not_rbracket (c : ascii) : bool := negb (ascii_eqb c "]").

(** [re.search(pattern, x)] for an arbitrary object: a [TypeError] unless
    [x] is a string. *)
Definition search (key : string) (cls : ascii -> bool) (x : pyval)
  : res (option string) :=
  match x with
  | VStr s => Ok (search_group key cls s)
  | _ => Raise (Py.type_error "expected string or bytes-like object")
  end.

Definition is_unit (c : ascii) : bool :=
  ascii_eqb c "K" || ascii_eqb c "M" || ascii_eqb c "G" || ascii_eqb c "T".

(** [re.match(r'([\d.]+)\s*([KMGT])?', s)]: groups 1 and 2. *)
Definition match_difficulty (s : string) : option (string * option ascii) :=
  match span cls_digit_dot s with
  | (EmptyString, _) => None
  | (g1, r) =>
      match snd (span is_space r) with
      | String c _ => if is_unit c then Some (g1, Some c) else Some (g1, None)
      | EmptyString => Some (g1, None)
      end
  end.

End Re.

(** ** Pure decoders of the Bitaxe (JSON/HTTP) collector *)

Module BitAxeParse.
Import PyStr PyNum.

(** The [multipliers] table with [multipliers.get(unit, 1)]. *)
Definition multiplier (unit : option ascii) : Q :=
  match unit with
  | Some c =>
      if ascii_eqb c "K" then 1000
      else if ascii_eqb c "M" then 1000000
      else if ascii_eqb c "G" then 1000000000
      else if ascii_eqb c "T" then 1000000000000
      else 1
  | None => 1
  end.

(** [BitAxeCollector._parse_difficulty] *)
Definition _parse_difficulty (diff_str : pyval) : res Q :=
  if negb (Py.truthy diff_str) then Ok 0%Q
  else
    match Re.match_difficulty (Py.str diff_str) with
    | None => Ok 0%Q
    | Some (g1, unit) =>
        (value <- float_of_string g1 ;;
         Ok (fmul value (multiplier unit)))%res
    end.

End BitAxeParse.

(** ** Derived metrics *)

Module Metrics.
Import PyNum.

(** Efficiency in J/TH, the expression
    [(power / (hashrate_ghs / 1000.0)) if hashrate_ghs > 0 else 0]
    that both [collect_device_data] methods compute. *)
Definition efficiency (power_w hashrate_ghs : Q) : Q :=
  if flt 0 hashrate_ghs then fdiv power_w (fdiv hashrate_ghs 1000) else 0.

End Metrics.

(** ** Pure decoders of the Avalon (text/socket) collector *)

Module AvalonParse.
Import PyStr PyNum.

(** The loop over the end markers of the [MM ID0] field: the first marker
    (in list order) that occurs cuts the content. *)
Fixpoint cut_at_end_marker (markers : list string) (content : string) : string :=
  match markers with
  | [] => content
  | m :: rest =>
      match find content m with
      | Some end_pos => take end_pos content
      | None => cut_at_end_marker rest content
      end
  end.

(** [key, value = pair.split('=', 1)]: unpacking needs exactly two items. *)
Definition unpack2 (l : list string) : res (string * string) :=
  match l with
  | [k; v] => Ok (k, v)
  | _ => Raise (value_error "not enough values to unpack")
  end.

(** [parsed_data[key.strip()] = value.strip()] for one [pair]. *)
Definition store_pair (pair_ : string) (parsed_data : gmap string string)
  : res (gmap string string) :=
  (kv <- unpack2 (split1 "=" pair_) ;;
   Ok (<[strip (fst kv) := strip (snd kv)]> parsed_data))%res.

(** The loops [for pair in pairs: if '=' in pair (and not ...): ...]. *)
Fixpoint store_pairs (skip_mm : bool) (pairs : list string)
    (parsed_data : gmap string string) : res (gmap string string) :=
  match pairs with
  | [] => Ok parsed_data
  | pair_ :: rest =>
      if contains pair_ "="
         && negb (skip_mm && startswith (strip pair_) "MM ID0=")
      then (d <- store_pair pair_ parsed_data ;; store_pairs skip_mm rest d)%res
      else store_pairs skip_mm rest parsed_data
  end.

(** The body of the loop [for part in parts]. *)
Definition parse_part (part : string) (parsed_data : gmap string string)
  : res (gmap string string) :=
  if contains part "=" then
    if startswith part "STATS=" || contains part "MM ID0=" then
      let parsed_data :=
        match find part "MM ID0=" with
        | Some mm_id0_start =>
            let mm_id0_content := drop (mm_id0_start + 7) part in
            <["MM ID0" :=
               cut_at_end_marker [",MM Count="; ",Nonce Mask="; "|"] mm_id0_content]>
              parsed_data
        | None => parsed_data
        end in
      store_pairs true (split "," part) parsed_data
    else if contains part "," then
      store_pairs false (split "," part) parsed_data
    else store_pair part parsed_data
  else Ok parsed_data.

Fixpoint parse_parts (parts : list string) (parsed_data : gmap string string)
  : res (gmap string string) :=
  match parts with
  | [] => Ok parsed_data
  | part :: rest =>
      (d <- parse_part part parsed_data ;; parse_parts rest d)%res
  end.

(** [AvalonCollector._parse_cgminer_response] *)
Definition _parse_cgminer_response (response_str : string)
  : res (gmap string string) :=
  try_except_all
    (parse_parts (split "|" response_str) ∅)
    (fun _ => Ok ∅).

(** The parsed sections as the [stats_info] dictionary the extractors read. *)
Definition as_dict (parsed_data : gmap string string) : dict :=
  VStr <$> parsed_data.

(** [AvalonCollector._parse_hashrate_mhs] *)
Definition _parse_hashrate_mhs (mhs_str : pyval) : res Q :=
  try_except
    (mhs_value <- Py.float mhs_str ;; Ok (fdiv mhs_value 1000))%res
    [ValueError; TypeError]
    (Ok 0%Q).

(** [AvalonCollector._parse_temperature_from_stats] *)
Definition _parse_temperature_from_stats (stats_info : dict) : res Q :=
  try_except
    (let mm_id0 := Py.get_default stats_info "MM ID0" (VStr "") in
     otemp_match <- Re.search "OTemp" Re.cls_digit mm_id0 ;;
     match otemp_match with
     | Some g => if negb (String.eqb g "-273") then float_of_string g
                 else
                   (tavg_match <- Re.search "TAvg" Re.cls_digit mm_id0 ;;
                    match tavg_match with
                    | Some g' => float_of_string g'
                    | None => Ok 0%Q
                    end)
     | None =>
         (tavg_match <- Re.search "TAvg" Re.cls_digit mm_id0 ;;
          match tavg_match with
          | Some g' => float_of_string g'
          | None => Ok 0%Q
          end)
     end)%res
    [ValueError; TypeError]
    (Ok 0%Q).

(** The two fallbacks of the power extractor, [MPO] then [ATA2]. *)
Definition power_fallbacks (mm_id0 : pyval) : res Q :=
  (mpo_match <- Re.search "MPO" Re.cls_digit mm_id0 ;;
   match mpo_match with
   | Some g => float_of_string g
   | None =>
       ata2_match <- Re.search "ATA2" Re.cls_not_rbracket mm_id0 ;;
       match ata2_match with
       | Some g =>
           let ata2_values := split "-" g in
           if (1 <=? length ata2_values)%nat then
             (v <- Py.index ata2_values 0 ;; float_of_string v)
           else Ok 0%Q
       | None => Ok 0%Q
       end
   end)%res.

(** [AvalonCollector._parse_power_from_stats] *)
Definition _parse_power_from_stats (stats_info : dict) : res Q :=
  try_except
    (let mm_id0 := Py.get_default stats_info "MM ID0" (VStr "") in
     ps_match <- Re.search "PS" Re.cls_not_rbracket mm_id0 ;;
     match ps_match with
     | Some g =>
         let ps_values := split_ws g in
         if (7 <=? length ps_values)%nat then
           (v <- Py.index ps_values 6 ;; float_of_string v)
         else power_fallbacks mm_id0
     | None => power_fallbacks mm_id0
     end)%res
    [ValueError; TypeError; IndexError]
    (Ok 0%Q).

(** [AvalonCollector._parse_fan_speed_from_stats] *)
Definition _parse_fan_speed_from_stats (stats_info : dict) : res Z :=
  try_except
    (let mm_id0 := Py.get_default stats_info "MM ID0" (VStr "") in
     fan_match <- Re.search "Fan1" Re.cls_digit mm_id0 ;;
     match fan_match with
     | Some g => int_of_string g
     | None => Ok 0%Z
     end)%res
    [ValueError; TypeError]
    (Ok 0%Z).

(** [AvalonCollector._parse_frequency_from_stats] *)
Definition _parse_frequency_from_stats (stats_info : dict) : res Q :=
  try_except
    (let mm_id0 := Py.get_default stats_info "MM ID0" (VStr "") in
     freq_match <- Re.search "Freq" Re.cls_digit_dot mm_id0 ;;
     match freq_match with
     | Some g => float_of_string g
     | None => Ok 0%Q
     end)%res
    [ValueError; TypeError]
    (Ok 0%Q).

(** [AvalonCollector._parse_voltage_from_stats] *)
Definition _parse_voltage_from_stats (stats_info : dict) : res Q :=
  try_except
    (let mm_id0 := Py.get_default stats_info "MM ID0" (VStr "") in
     pvt_v0_match <- Re.search "PVT_V0" Re.cls_not_rbracket mm_id0 ;;
     match pvt_v0_match with
     | Some g =>
         let voltage_values := split_ws g in
         match voltage_values with
         | [] => Ok 0%Q
         | _ =>
             voltage_cv <- (v <- Py.index voltage_values 0 ;; float_of_string v) ;;
             Ok (fdiv voltage_cv 100)
         end
     | None => Ok 0%Q
     end)%res
    [ValueError; TypeError; IndexError]
    (Ok 0%Q).

(** [max(0, x)] *)
Definition max0 (x : Q) : Q := if flt 0 x then x else 0.

(** [AvalonCollector._parse_memory_usage_from_stats] *)
Definition _parse_memory_usage_from_stats (stats_info : dict) : res Q :=
  try_except
    (let mm_id0 := Py.get_default stats_info "MM ID0" (VStr "") in
     memfree_match <- Re.search "MEMFREE" Re.cls_digit mm_id0 ;;
     match memfree_match with
     | Some g =>
         free_kb <- float_of_string g ;;
         let estimated_total := inject_Z (128 * 1024) in
         let used_kb := fsub estimated_total free_kb in
         Ok (max0 (fmul (fdiv used_kb estimated_total) 100))
     | None => Ok 0%Q
     end)%res
    [ValueError; TypeError]
    (Ok 0%Q).

End AvalonParse.

(** ** The world of a collector: database, devices, notifier *)

(** Alerts handed to the Telegram notifier.  Times are seconds on the
    [world]'s clock; the text formatting of the messages is not modelled. *)
Inductive AlertEvent :=
| HashrateStagnation (device_id device_name : string) (hashrate : Q) (collections : nat)
| BestDifficulty (device_id device_name : string) (new_best previous_best : Q)
| DeviceOffline (device_id device_name : string) (last_seen : option Z)
                (error_message : string)
| DeviceOnline (device_id device_name : string) (offline_duration : option Z)
| DeviceRestarted (device_id device_name : string).

(** A row of [bitaxe_devices] / [avalon_devices]. *)
Record device_row := {
  d_id : Z;
  d_device_id : string;
  d_device_name : string;
  d_ip_address : string;
  d_is_active : bool;
  d_last_seen_at : option Z;
  d_error_message : option string
}.

(** A row of [bitaxe_mining_stats] / [avalon_mining_stats]: the columns the
    collectors read back.  [m_best_difficulty] is the column [best_difficulty]
    of the first table and [difficulty] of the second; the first is a BIGINT
    column, and the rounding of the value stored in it is not modelled. *)
Record mining_row := {
  m_device_id : Z;
  m_recorded_at : Z;
  m_hashrate_ghs : Q;
  m_best_difficulty : Q
}.

(** What the devices answer during one poll. *)
Record network := {
  (* Bitaxe: GET http://ip/api/system/info, after the retries *)
  http_get : string -> res dict;
  (* Bitaxe: POST http://ip/api/system/restart went through *)
  http_restart : string -> bool;
  (* Avalon: the cgminer command sent to ip:4028, after the retries *)
  socket_request : string -> string -> res dict
}.

Record world := {
  devices : list device_row;
  mining_stats : list mining_row;             (* committed rows, oldest first *)
  hardware_logs : list (list pyval);          (* committed INSERT tuples *)
  system_info : list (list pyval);
  alerts : list AlertEvent;                   (* oldest first *)
  restarts : list string;                     (* restart commands sent, by ip *)
  requests : list string;                     (* telemetry polls made, by ip *)
  now : Z;                                    (* the clock *)
  connects : list bool                        (* outcome of the next
                                                 psycopg2.connect calls; once
                                                 used up, every call succeeds *)
}.

Definition set_devices (ds : list device_row) (w : world) : world :=
  {| devices := ds; mining_stats := mining_stats w; hardware_logs := hardware_logs w;
     system_info := system_info w; alerts := alerts w; restarts := restarts w;
     requests := requests w; now := now w; connects := connects w |}.

Definition set_tables (ms : list mining_row) (hl si : list (list pyval)) (w : world) : world :=
  {| devices := devices w; mining_stats := ms; hardware_logs := hl;
     system_info := si; alerts := alerts w; restarts := restarts w;
     requests := requests w; now := now w; connects := connects w |}.

Definition set_alerts (al : list AlertEvent) (w : world) : world :=
  {| devices := devices w; mining_stats := mining_stats w; hardware_logs := hardware_logs w;
     system_info := system_info w; alerts := al; restarts := restarts w;
     requests := requests w; now := now w; connects := connects w |}.

Definition set_restarts (rs : list string) (w : world) : world :=
  {| devices := devices w; mining_stats := mining_stats w; hardware_logs := hardware_logs w;
     system_info := system_info w; alerts := alerts w; restarts := rs;
     requests := requests w; now := now w; connects := connects w |}.

Definition set_requests (rq : list string) (w : world) : world :=
  {| devices := devices w; mining_stats := mining_stats w; hardware_logs := hardware_logs w;
     system_info := system_info w; alerts := alerts w; restarts := restarts w;
     requests := rq; now := now w; connects := connects w |}.

Definition set_now (t : Z) (w : world) : world :=
  {| devices := devices w; mining_stats := mining_stats w; hardware_logs := hardware_logs w;
     system_info := system_info w; alerts := alerts w; restarts := restarts w;
     requests := requests w; now := t; connects := connects w |}.

Definition set_connects (cs : list bool) (w : world) : world :=
  {| devices := devices w; mining_stats := mining_stats w; hardware_logs := hardware_logs w;
     system_info := system_info w; alerts := alerts w; restarts := restarts w;
     requests := requests w; now := now w; connects := cs |}.

(** *** The monad of the collectors: state and exceptions *)

Definition M (A : Type) : Type := world -> world * res A.

Definition mret {A} (a : A) : M A := fun w => (w, Ok a).
Definition mraise {A} (e : exn) : M A := fun w => (w, Raise e).
Definition mbind {A B} (c : M A) (k : A -> M B) : M B :=
  fun w => match c w with
           | (w', Ok a) => k a w'
           | (w', Raise e) => (w', Raise e)
           end.
Definition lift {A} (r : res A) : M A := fun w => (w, r).

(** [try: body except Exception as e: handler e] *)
Definition mtry {A} (body : M A) (handler : exn -> M A) : M A :=
  fun w => match body w with
           | (w', Ok a) => (w', Ok a)
           | (w', Raise e) => handler e w'
           end.

Definition modify (f : world -> world) : M unit := fun w => (f w, Ok tt).
Definition gets {A} (f : world -> A) : M A := fun w => (w, Ok (f w)).

Declare Scope M_scope.
Delimit Scope M_scope with M.
Notation "x <- c1 ;; c2" := (mbind c1 (fun x => c2))
  (at level 100, c1 at next level, right associativity) : M_scope.
Notation "c1 ;;; c2" := (mbind c1 (fun _ => c2))
  (at level 100, right associativity) : M_scope.

(** [datetime.utcnow()] / SQL [NOW()]: time moves on with every reading. *)
Definition clock : M Z :=
  fun w => (set_now (now w + 1) w, Ok (now w)).

(** [self.get_db_connection()], i.e. [psycopg2.connect]. *)
Definition get_db_connection : M unit :=
  fun w => match connects w with
           | [] => (w, Ok tt)
           | true :: cs => (set_connects cs w, Ok tt)
           | false :: cs =>
               (set_connects cs w,
                Raise (Exn OperationalError "could not connect to server"))
           end.

(** Handing an alert to [self.telegram_notifier]: the [send_*] methods
    catch every failure of the delivery themselves. *)
Definition notify (a : AlertEvent) : M unit :=
  modify (fun w => set_alerts (alerts w ++ [a]) w).

(** *** SQL used by the collectors *)

Module Sql.
Import PyNum.

(** [SELECT ... FROM devices WHERE device_id = %s] then [fetchone()]. *)
Definition select_device (device_id : string) (w : world) : option device_row :=
  List.find (fun d => String.eqb (d_device_id d) device_id) (devices w).

(** One row under
    [UPDATE devices SET last_seen_at = CASE WHEN %s THEN NOW() ELSE
     last_seen_at END, error_message = %s WHERE device_id = %s]. *)
Definition update_status_row (device_id : string) (is_online : bool)
    (error_message : string) (t : Z) (d : device_row) : device_row :=
  if String.eqb (d_device_id d) device_id then
    {| d_id := d_id d; d_device_id := d_device_id d;
       d_device_name := d_device_name d; d_ip_address := d_ip_address d;
       d_is_active := d_is_active d;
       d_last_seen_at := if is_online then Some t else d_last_seen_at d;
       d_error_message := Some error_message |}
  else d.

Definition update_status (device_id : string) (is_online : bool)
    (error_message : string) (t : Z) (w : world) : world :=
  set_devices (map (update_status_row device_id is_online error_message t) (devices w)) w.

(** [ORDER BY recorded_at DESC]; rows with equal times keep their storage
    order (SQL leaves it open). *)
Fixpoint insert_desc (r : mining_row) (l : list mining_row) : list mining_row :=
  match l with
  | [] => [r]
  | x :: l' =>
      if (m_recorded_at x <=? m_recorded_at r)%Z then r :: l
      else x :: insert_desc r l'
  end.

Definition order_by_recorded_at_desc (l : list mining_row) : list mining_row :=
  fold_right insert_desc [] l.

(** [WHERE device_id = %s]: a NULL parameter matches no row. *)
Definition rows_of (device_db_id : option Z) (w : world) : list mining_row :=
  match device_db_id with
  | Some i => List.filter (fun r => (m_device_id r =? i)%Z) (mining_stats w)
  | None => []
  end.

(** [SELECT hashrate_ghs FROM mining_stats WHERE device_id = %s
     ORDER BY recorded_at DESC LIMIT 3] *)
Definition select_recent_hashrates (device_db_id : option Z) (w : world) : list Q :=
  map m_hashrate_ghs (firstn 3 (order_by_recorded_at_desc (rows_of device_db_id w))).

(** [SELECT best_difficulty FROM mining_stats WHERE device_id = %s AND
     best_difficulty > 0 ORDER BY recorded_at DESC LIMIT 1 OFFSET 1]
    then [fetchone()]. *)
Definition select_previous_best (device_db_id : option Z) (w : world) : option Q :=
  match order_by_recorded_at_desc
          (List.filter (fun r => flt 0 (m_best_difficulty r)) (rows_of device_db_id w)) with
  | _ :: r :: _ => Some (m_best_difficulty r)
  | _ => None
  end.

(** An open connection: the rows inserted and not yet committed. *)
Record connection := {
  c_mining : list mining_row;
  c_hardware : list (list pyval);
  c_system_info : list (list pyval)
}.

Definition fresh : connection :=
  {| c_mining := []; c_hardware := []; c_system_info := [] |}.

(** [conn.commit()] *)
Definition commit (conn : connection) : M unit :=
  modify (fun w => set_tables (mining_stats w ++ c_mining conn)
                              (hardware_logs w ++ c_hardware conn)
                              (system_info w ++ c_system_info conn) w).

Definition not_null_violation : exn :=
  Exn NotNullViolation "null value violates not-null constraint".

(** The NOT NULL check of an INSERT on the parameters at [cols]. *)
Fixpoint check_not_null (cols : list nat) (params : list pyval) : res unit :=
  match cols with
  | [] => Ok tt
  | i :: rest =>
      match nth_error params i with
      | Some VNone => Raise not_null_violation
      | _ => check_not_null rest params
      end
  end.

(** A parameter bound to a NOT NULL float column. *)
Definition float_column (v : pyval) : res Q :=
  match v with
  | VNone => Raise not_null_violation
  | _ => Py.float v
  end.

(** A parameter bound to the NOT NULL foreign key [device_id]. *)
Definition key_column (v : option Z) : res Z :=
  match v with
  | Some i => Ok i
  | None => Raise not_null_violation
  end.

Definition opt_int (v : option Z) : pyval :=
  match v with Some i => VInt i | None => VNone end.

(** [INSERT INTO ..._mining_stats]: [others] are the parameters of the
    NOT NULL columns the collectors never read back. *)
Definition insert_mining_stats (conn : connection) (device_db_id : option Z)
    (recorded_at : Z) (hashrate_ghs : pyval) (others : list pyval)
    (best_difficulty : Q) : res connection :=
  (dev <- key_column device_db_id ;;
   hr <- float_column hashrate_ghs ;;
   _ <- check_not_null (seq 0 (length others)) others ;;
   Ok {| c_mining := c_mining conn ++
                     [{| m_device_id := dev; m_recorded_at := recorded_at;
                         m_hashrate_ghs := hr; m_best_difficulty := best_difficulty |}];
         c_hardware := c_hardware conn;
         c_system_info := c_system_info conn |})%res.

Definition insert_hardware_log (conn : connection) (not_null : list nat)
    (params : list pyval) : res connection :=
  (_ <- check_not_null not_null params ;;
   Ok {| c_mining := c_mining conn;
         c_hardware := c_hardware conn ++ [params];
         c_system_info := c_system_info conn |})%res.

Definition insert_system_info (conn : connection) (not_null : list nat)
    (params : list pyval) : res connection :=
  (_ <- check_not_null not_null params ;;
   Ok {| c_mining := c_mining conn;
         c_hardware := c_hardware conn;
         c_system_info := c_system_info conn ++ [params] |})%res.

End Sql.

(** ** The collectors *)

Inductive family := BitAxe | Avalon.

(** The tolerance of the stagnation rule: 0.1 GH/s in
    [BitAxeCollector], 0.01 GH/s in [AvalonCollector]. *)
Definition tolerance (fam : family) : Q :=
  match fam with
  | BitAxe => 1 # 10
  | Avalon => 1 # 100
  end.

Module Collector.
Import PyNum Sql.
Local Open Scope M_scope.

Section Methods.
Variable net : network.
Variable fam : family.

(** [BitAxeCollector._api_request], with its retries: the answer of the
    device, and a note in the log of requests. *)
Definition _api_request (ip endpoint : string) : M dict :=
  modify (fun w => set_requests (requests w ++ [ip]) w) ;;;
  lift (http_get net ip).

(** [AvalonCollector._socket_request], with its retries. *)
Definition _socket_request (ip command : string) : M dict :=
  modify (fun w => set_requests (requests w ++ [ip]) w) ;;;
  lift (socket_request net ip command).

(** [restart_device] of either collector: whatever goes wrong is caught and
    reported as [False]. *)
Definition restart_device (device_ip device_id device_name : string) : M bool :=
  modify (fun w => set_restarts (restarts w ++ [device_ip]) w) ;;;
  match fam with
  | BitAxe =>
      mtry
        (if http_restart net device_ip then
           notify (DeviceRestarted device_id device_name) ;;; mret true
         else mraise (Exn RequestException "restart request failed"))
        (fun _ => mret false)
  | Avalon =>
      mtry
        (response <- _socket_request device_ip "ascset|0,reboot,0" ;;
         if Py.eq_str (Py.get response "STATUS") "S" then
           notify (DeviceRestarted device_id device_name) ;;; mret true
         else mret false)
        (fun _ => mret false)
  end.

(** [all(abs(hr - recent_hashrates[0]) < tol for hr in recent_hashrates)] *)
Definition all_within (tol : Q) (recent_hashrates : list Q) : bool :=
  match recent_hashrates with
  | [] => true
  | first :: _ =>
      forallb (fun hr => flt (fabs (fsub hr first)) tol) recent_hashrates
  end.

(** [check_hashrate_stagnation] of either collector. *)
Definition check_hashrate_stagnation (device_db_id : option Z)
    (device_id device_name : string) (current_hashrate : Q) (device_ip : string)
  : M unit :=
  get_db_connection ;;;
  mtry
    (recent_hashrates <- gets (select_recent_hashrates device_db_id) ;;
     if (3 <=? length recent_hashrates)%nat then
       if all_within (tolerance fam) recent_hashrates then
         notify (HashrateStagnation device_id device_name current_hashrate 3) ;;;
         _ <- restart_device device_ip device_id device_name ;;
         mret tt
       else mret tt
     else mret tt)
    (fun _ => mret tt).

(** [device_name or device_id] *)
Definition name_or_id (device_name device_id : string) : string :=
  if String.eqb device_name "" then device_id else device_name.

(** [update_device_status] of either collector. *)
Definition update_device_status (device_id device_ip : string) (is_online : bool)
    (error_message : string) : M unit :=
  get_db_connection ;;;
  mtry
    (result <- gets (select_device device_id) ;;
     match result with
     | None => mret tt
     | Some row =>
         let current_status := d_is_active row in
         let last_seen := d_last_seen_at row in
         let device_name := d_device_name row in
         t <- clock ;;
         modify (update_status device_id is_online error_message t) ;;;
         if current_status && negb is_online then
           notify (DeviceOffline device_id (name_or_id device_name device_id)
                                 last_seen error_message)
         else if negb current_status && is_online then
           match last_seen with
           | Some seen =>
               current_time <- clock ;;
               notify (DeviceOnline device_id (name_or_id device_name device_id)
                                    (Some (current_time - seen)%Z))
           | None =>
               notify (DeviceOnline device_id (name_or_id device_name device_id) None)
           end
         else mret tt
     end)
    (fun _ => mret tt).

(** [((current - previous) / previous) * 100 >= 5] *)
Definition improved (current_best_diff previous_best : Q) : bool :=
  fle 5 (fmul (fdiv (fsub current_best_diff previous_best) previous_best) 100).

(** [previous_best = result[0] if result else 0] *)
Definition previous_best_of (result : option Q) : Q :=
  match result with Some p => p | None => 0 end.

(** [check_best_difficulty_improvement]: the Avalon method has the
    [elif current_best_diff > 0 and previous_best == 0] branch, the Bitaxe
    method has none. *)
Definition check_best_difficulty_improvement (device_db_id : option Z)
    (device_id device_name : string) (current_best_diff : Q) : M unit :=
  get_db_connection ;;;
  mtry
    (result <- gets (select_previous_best device_db_id) ;;
     let previous_best := previous_best_of result in
     if flt 0 current_best_diff && flt 0 previous_best then
       if improved current_best_diff previous_best then
         notify (BestDifficulty device_id device_name current_best_diff previous_best)
       else mret tt
     else
       match fam with
       | BitAxe => mret tt
       | Avalon =>
           if flt 0 current_best_diff && Qeq_bool previous_best 0 then
             notify (BestDifficulty device_id device_name current_best_diff 0)
           else mret tt
       end)
    (fun _ => mret tt).

End Methods.
End Collector.

(** An entry of [self.devices], as loaded by [load_active_devices]. *)
Record device_entry := {
  e_device_id : string;
  e_device_name : string;
  e_ip_address : string
}.

(** *** [BitAxeCollector] *)

Module BitAxeCollector.
Import PyNum Sql BitAxeParse.
Local Open Scope M_scope.

(** The parameters of [INSERT INTO bitaxe_system_info], in order. *)
Definition system_info_params (device_db_id : option Z) (recorded_at : Z)
    (system_info : dict) : list pyval :=
  let get := Py.get system_info in
  let flag k default := VBool (Py.eq_one (Py.get_default system_info k default)) in
  [ opt_int device_db_id; VInt recorded_at;
    get "ASICModel"; get "boardVersion";
    get "hostname"; get "macAddr";
    get "version"; get "axeOSVersion";
    get "idfVersion"; get "runningPartition";
    get "ssid"; get "wifiStatus"; get "wifiRSSI";
    get "coreVoltage"; get "coreVoltageActual";
    get "expectedHashrate"; get "poolDifficulty";
    get "smallCoreCount";
    get "vrTemp"; get "temptarget"; get "overheat_mode";
    flag "autofanspeed" (VInt 1); get "fanspeed"; get "minFanSpeed";
    get "maxPower"; get "nominalVoltage"; flag "overclockEnabled" (VInt 0);
    get "display"; get "rotation"; flag "invertscreen" (VInt 0);
    get "displayTimeout";
    get "stratumURL"; get "stratumPort"; get "stratumUser";
    get "fallbackStratumURL"; get "fallbackStratumPort";
    flag "isUsingFallbackStratum" (VInt 0);
    get "freeHeap"; flag "isPSRAMAvailable" (VInt 0) ].

(** The positions of the NOT NULL columns of [BitAxeSystemInfo] among these
    parameters: [device_id], [recorded_at], [overheat_mode],
    [auto_fan_speed], [overclock_enabled], [display_rotation],
    [invert_screen], [display_timeout], [is_using_fallback],
    [is_psram_available]. *)
Definition system_info_not_null : list nat :=
  [0; 1; 20; 21; 26; 28; 29; 30; 36; 38]%nat.

(** The parameters of [INSERT INTO bitaxe_hardware_logs]; [device_id],
    [recorded_at], [power_watts] and [temperature_c] are NOT NULL. *)
Definition hardware_not_null : list nat := [0; 1; 2; 4]%nat.

Section Methods.
Variable net : network.

Definition update_device_status := Collector.update_device_status.
Definition check_hashrate_stagnation := Collector.check_hashrate_stagnation net BitAxe.
Definition check_best_difficulty_improvement :=
  Collector.check_best_difficulty_improvement BitAxe.

(** The body of the [try] of [collect_device_data]. *)
Definition collect_body (device_id device_ip : string) : M unit :=
  system_info <- Collector._api_request net device_ip "api/system/info" ;;
  update_device_status device_id device_ip true "" ;;;
  get_db_connection ;;;
  let conn := fresh in
  device_row <- gets (select_device device_id) ;;
  let device_db_id := option_map d_id device_row in
  let device_name :=
    match device_row with Some r => d_device_name r | None => device_id end in
  recorded_at <- clock ;;
  let hashrate_ghs := Py.get_default system_info "hashRate" (VInt 0) in
  let best_diff_str := Py.get_default system_info "bestDiff" (VStr "0") in
  best_difficulty_ever <- lift (_parse_difficulty best_diff_str) ;;
  let best_session_str := Py.get_default system_info "bestSessionDiff" (VStr "0") in
  best_session_difficulty <- lift (_parse_difficulty best_session_str) ;;
  conn <- lift (insert_mining_stats conn device_db_id recorded_at hashrate_ghs
                  [ Py.get_default system_info "sharesAccepted" (VInt 0);
                    Py.get_default system_info "sharesRejected" (VInt 0);
                    VInt 0;
                    Py.get_default system_info "uptimeSeconds" (VInt 0) ]
                  best_difficulty_ever) ;;
  hashrate <- lift (Py.as_number hashrate_ghs) ;;
  efficiency <- lift (if flt 0 hashrate then
                        (power <- Py.as_number (Py.get_default system_info "power" (VInt 0)) ;;
                         Ok (VFloat (Metrics.efficiency power hashrate)))%res
                      else Ok (VInt 0)) ;;
  voltage <- lift (Py.as_number (Py.get_default system_info "voltage" (VInt 0))) ;;
  conn <- lift (insert_hardware_log conn hardware_not_null
                  [ opt_int device_db_id; VInt recorded_at;
                    Py.get_default system_info "power" (VInt 0);
                    efficiency;
                    Py.get_default system_info "temp" (VInt 0);
                    Py.get_default system_info "fanrpm" (VInt 0);
                    VFloat (fdiv voltage 1000);
                    Py.get_default system_info "frequency" (VInt 0) ]) ;;
  conn <- lift (insert_system_info conn system_info_not_null
                  (system_info_params device_db_id recorded_at system_info)) ;;
  commit conn ;;;
  check_hashrate_stagnation device_db_id device_id device_name hashrate device_ip ;;;
  check_best_difficulty_improvement device_db_id device_id device_name
    best_difficulty_ever.

(** [BitAxeCollector.collect_device_data] *)
Definition collect_device_data (device_id device_ip : string) : M unit :=
  mtry (collect_body device_id device_ip)
       (fun e => update_device_status device_id device_ip false (exn_msg e)).

(** The loop of [collect_all_devices]. *)
Fixpoint collect_each (devices : list device_entry) : M unit :=
  match devices with
  | [] => mret tt
  | device :: rest =>
      collect_device_data (e_device_id device) (e_ip_address device) ;;;
      collect_each rest
  end.

(** [BitAxeCollector.collect_all_devices] *)
Definition collect_all_devices (devices : list device_entry) : M unit :=
  match devices with
  | [] => mret tt
  | _ => collect_each devices
  end.

End Methods.
End BitAxeCollector.

(** *** [AvalonCollector] *)

Module AvalonCollector.
Import PyNum Sql AvalonParse.
Local Open Scope M_scope.

Section Methods.
Variable net : network.

Definition update_device_status := Collector.update_device_status.
Definition check_hashrate_stagnation := Collector.check_hashrate_stagnation net Avalon.
Definition check_best_difficulty_improvement :=
  Collector.check_best_difficulty_improvement Avalon.

(** [pools_info.get(k) if pools_info else None] *)
Definition pool_field (pools_info : dict) (k : string) : pyval :=
  if bool_decide (pools_info = ∅) then VNone else Py.get pools_info k.

(** The body of the [try] of [collect_device_data]. *)
Definition collect_body (device_id device_ip : string) : M unit :=
  version_info <- Collector._socket_request net device_ip "version" ;;
  summary_info <- Collector._socket_request net device_ip "summary" ;;
  stats_info <- Collector._socket_request net device_ip "estats" ;;
  pools_info <- Collector._socket_request net device_ip "pools" ;;
  update_device_status device_id device_ip true "" ;;;
  get_db_connection ;;;
  let conn := fresh in
  device_row <- gets (select_device device_id) ;;
  let device_db_id := option_map d_id device_row in
  let device_name :=
    match device_row with Some r => d_device_name r | None => device_id end in
  recorded_at <- clock ;;
  hashrate_ghs <- lift (_parse_hashrate_mhs
                          (Py.get_default summary_info "MHS av" (VStr "0"))) ;;
  uptime_seconds <- lift (Py.int (Py.get_default summary_info "Elapsed" (VInt 0))) ;;
  shares_accepted <- lift (Py.int (Py.get_default summary_info "Accepted" (VInt 0))) ;;
  shares_rejected <- lift (Py.int (Py.get_default summary_info "Rejected" (VInt 0))) ;;
  blocks_found <- lift (Py.int (Py.get_default summary_info "Found Blocks" (VInt 0))) ;;
  best_share <- lift (Py.float (Py.get_default summary_info "Best Share" (VInt 0))) ;;
  let pool_url := pool_field pools_info "URL" in
  let pool_user := pool_field pools_info "User" in
  conn <- lift (insert_mining_stats conn device_db_id recorded_at (VFloat hashrate_ghs)
                  [ VInt shares_accepted; VInt shares_rejected; VInt blocks_found;
                    VInt uptime_seconds ]
                  best_share) ;;
  (if flt 0 best_share then
     check_best_difficulty_improvement device_db_id device_id device_name best_share
   else mret tt) ;;;
  temperature_c <- lift (_parse_temperature_from_stats stats_info) ;;
  power_watts <- lift (_parse_power_from_stats stats_info) ;;
  fan_speed_rpm <- lift (_parse_fan_speed_from_stats stats_info) ;;
  frequency_mhz <- lift (_parse_frequency_from_stats stats_info) ;;
  voltage <- lift (_parse_voltage_from_stats stats_info) ;;
  let efficiency := Metrics.efficiency power_watts hashrate_ghs in
  conn <- lift (insert_hardware_log conn [0; 1]%nat
                  [ opt_int device_db_id; VInt recorded_at;
                    VFloat power_watts; VFloat efficiency; VFloat temperature_c;
                    VInt fan_speed_rpm; VFloat voltage; VFloat frequency_mhz;
                    VInt recorded_at ]) ;;
  memory_usage <- lift (_parse_memory_usage_from_stats stats_info) ;;
  conn <- lift (insert_system_info conn [0; 1]%nat
                  [ opt_int device_db_id; VInt recorded_at;
                    Py.get version_info "MODEL";
                    Py.get version_info "CGMiner";
                    Py.get version_info "HWTYPE";
                    Py.get version_info "DNA";
                    Py.get version_info "MAC";
                    VStr device_ip;
                    VStr device_name;
                    VNone; VNone;
                    pool_url; pool_user;
                    VNone; VNone;
                    pool_url;
                    VInt uptime_seconds;
                    VFloat memory_usage;
                    VFloat 0;
                    VFloat frequency_mhz;
                    VFloat voltage;
                    VBool false;
                    VInt recorded_at ]) ;;
  commit conn ;;;
  check_hashrate_stagnation device_db_id device_id device_name hashrate_ghs device_ip.

(** [AvalonCollector.collect_device_data] *)
Definition collect_device_data (device_id device_ip : string) : M unit :=
  mtry (collect_body device_id device_ip)
       (fun e => update_device_status device_id device_ip false (exn_msg e)).

(** The loop of [collect_all_devices]. *)
Fixpoint collect_each (devices : list device_entry) : M unit :=
  match devices with
  | [] => mret tt
  | device :: rest =>
      collect_device_data (e_device_id device) (e_ip_address device) ;;;
      collect_each rest
  end.

(** [AvalonCollector.collect_all_devices] *)
Definition collect_all_devices (devices : list device_entry) : M unit :=
  match devices with
  | [] => mret tt
  | _ => collect_each devices
  end.

End Methods.
End AvalonCollector.

(** * Specification-side definitions and sample data *)


(** The [estats] blob of the device the repository's parsing tests use
    ([tests/test_parsing.py]). *)
Definition sample_mm_id0 : string :=
  "Ver[Nano3s-25021401_56abae7] LVer[25021401_56abae7] BVer[25021401_56abae7] FW[Release] LED[0-0] LEDUser[0-100-100-5-0-255] LcdOnoff[1] LcdSwitch[2] DNA[02010000bd448216] MEMFREE[63728] PFCnt[0] NETFAIL[0 0 0 0 0 0 0 0] SYSTEMSTATU[Work: In Work, Hash Board: 1] Elapsed[10027] BOOTBY[0x01.00000000] LW[7753951] MH[0] DHW[0] HW[0] DH[2.374%] ITemp[-273] OTemp[65] TMax[95] TAvg[90] TarT[90] Fan1[1520] FanR[33%] PS[0 0 27541 4 0 3756 133] GHSspd[6598.84] DHspd[2.374%] GHSmm[6783.65] GHSavg[6695.18] WU[93530.53] Freq[464.89] MGHS[6695.18] MTmax[95] MTavg[90] TA[12] Core[A3197S] BIN[60] PING[78] SoftOFF[0] ECHU[0] ECMM[0] PLL0[499 254 423 648] SF0[432 450 471 492] PVT_T0[ 85  91  91  91  91  90  85  86  95  95  91  87] PVT_V0[299 303 301 303 300 301 306 301 297 296 303 305] MW0[321 338 337 334 296 338 294 322 309 283 318 321] CRC[0] COMCRC[0] ATA2[133-90-3756-432-20] WORKMODE[2] WORKLEVEL[0] MPO[133] CALIALL[7] ADJ[1]".

Definition sample_stats : dict := {[ "MM ID0" := VStr sample_mm_id0 ]}.

(** [r] returns, or raises an exception of one of [kinds]. *)
Definition raises_only {A} (kinds : list exn_kind) (r : res A) : Prop :=
  match r with
  | Ok _ => True
  | Raise e => existsb (exn_kind_eqb (exn_type e)) kinds = true
  end.

(** A registry with one active device, last seen at time 40. *)
Definition one_device : world :=
  {| devices := [ {| d_id := 1; d_device_id := "bitaxe-1";
                     d_device_name := "Bitaxe One"; d_ip_address := "10.0.0.11";
                     d_is_active := true; d_last_seen_at := Some 40%Z;
                     d_error_message := None |} ];
     mining_stats := []; hardware_logs := []; system_info := [];
     alerts := []; restarts := []; requests := []; now := 100; connects := [] |}.

(** Three polls of a device: their outcomes, in order. *)
Fixpoint polls (device_id device_ip : string) (outcomes : list bool) : M unit :=
  match outcomes with
  | [] => mret tt
  | is_online :: rest =>
      (Collector.update_device_status device_id device_ip is_online
         (if is_online then "" else "timed out") ;;;
       polls device_id device_ip rest)%M
  end.

(** The answer of a Nerdqaxe device used by
    [tests/test_bitaxe_nerdqaxe.py]: no [overheat_mode], no [rotation], no
    [displayTimeout]. *)
Definition nerdqaxe_response : dict :=
  list_to_map
    [ ("hashRate", VFloat 500); ("sharesAccepted", VInt 100);
      ("sharesRejected", VInt 1); ("uptimeSeconds", VInt 3600);
      ("bestDiff", VStr "1.5 M"); ("bestSessionDiff", VStr "500 K");
      ("stratumURL", VStr "stratum+tcp://pool.example.com");
      ("stratumUser", VStr "bc1quser");
      ("power", VFloat (31 # 2)); ("temp", VInt 65); ("fanrpm", VInt 5000);
      ("voltage", VInt 1200); ("frequency", VInt 500);
      ("ASICModel", VStr "BM1368"); ("boardVersion", VStr "nerdqaxe_v1");
      ("hostname", VStr "nerdqaxe-001"); ("macAddr", VStr "00:11:22:33:44:55");
      ("version", VStr "2.1.5"); ("axeOSVersion", VStr "nerdqaxe-2.1.5");
      ("idfVersion", VStr "v5.1"); ("runningPartition", VStr "ota_0");
      ("ssid", VStr "TestNetwork"); ("wifiStatus", VStr "connected");
      ("wifiRSSI", VInt (-45));
      ("coreVoltage", VInt 1200); ("coreVoltageActual", VInt 1195);
      ("expectedHashrate", VFloat 550); ("poolDifficulty", VInt 1024);
      ("smallCoreCount", VInt 115);
      ("vrTemp", VInt 70); ("temptarget", VInt 75);
      ("autofanspeed", VInt 1); ("fanspeed", VInt 80); ("minFanSpeed", VInt 20);
      ("maxPower", VFloat 20); ("nominalVoltage", VFloat 5);
      ("overclockEnabled", VInt 0);
      ("display", VStr "OLED"); ("invertscreen", VInt 0);
      ("stratumPort", VInt 3333); ("fallbackStratumURL", VStr "");
      ("fallbackStratumPort", VNone); ("isUsingFallbackStratum", VInt 0);
      ("freeHeap", VInt 100000); ("isPSRAMAvailable", VInt 1) ].

Definition nerdqaxe_net : network :=
  {| http_get := fun _ => Ok nerdqaxe_response;
     http_restart := fun _ => true;
     socket_request := fun _ _ => Raise (Exn RequestException "connection refused") |}.

(** The first sample of a device, best difficulty 100, already stored. *)
Definition first_sample : world :=
  {| devices := devices one_device;
     mining_stats := [ {| m_device_id := 1; m_recorded_at := 50;
                          m_hashrate_ghs := 500; m_best_difficulty := 100 |} ];
     hardware_logs := []; system_info := [];
     alerts := []; restarts := []; requests := []; now := 100; connects := [] |}.

(** Modelled from the spec's words (section 4.5): "all 3 hashrate values are
    mutually within a small absolute tolerance". *)
Definition mutually_within (tol : Q) (values : list Q) : Prop :=
  forall x y, In x values -> In y values -> (Qabs (x - y) < tol)%Q.

(** What the code tests: three values, the two older ones each within the
    tolerance of the newest. *)
Definition within_of_newest (tol : Q) (recent : list Q) : Prop :=
  exists a b c, recent = [a; b; c] /\
                (Qabs (b - a) < tol)%Q /\ (Qabs (c - a) < tol)%Q.

(** The database answers the next connection. *)
Definition db_reachable (w : world) : Prop := hd true (connects w) = true.

(** Three samples of one device: 0.91, then 1.09, then 1.0 GH/s. *)
Definition drifting : world :=
  {| devices := devices one_device;
     mining_stats :=
       [ {| m_device_id := 1; m_recorded_at := 10;
            m_hashrate_ghs := 91 # 100; m_best_difficulty := 0 |};
         {| m_device_id := 1; m_recorded_at := 20;
            m_hashrate_ghs := 109 # 100; m_best_difficulty := 0 |};
         {| m_device_id := 1; m_recorded_at := 30;
            m_hashrate_ghs := 1; m_best_difficulty := 0 |} ];
     hardware_logs := []; system_info := [];
     alerts := []; restarts := []; requests := []; now := 100; connects := [] |}.

(** Two registered, active devices and the list loaded from them. *)
Definition two_devices : world :=
  {| devices := [ {| d_id := 1; d_device_id := "miner-1";
                     d_device_name := "Miner One"; d_ip_address := "10.0.0.11";
                     d_is_active := true; d_last_seen_at := Some 40%Z;
                     d_error_message := None |};
                  {| d_id := 2; d_device_id := "miner-2";
                     d_device_name := "Miner Two"; d_ip_address := "10.0.0.12";
                     d_is_active := true; d_last_seen_at := Some 40%Z;
                     d_error_message := None |} ];
     mining_stats := []; hardware_logs := []; system_info := [];
     alerts := []; restarts := []; requests := []; now := 100; connects := [] |}.

Definition two_entries : list device_entry :=
  [ {| e_device_id := "miner-1"; e_device_name := "Miner One";
       e_ip_address := "10.0.0.11" |};
    {| e_device_id := "miner-2"; e_device_name := "Miner Two";
       e_ip_address := "10.0.0.12" |} ].

(** Devices that answer every request; the database is what fails. *)
Definition answering_net : network :=
  {| http_get := fun _ => Ok nerdqaxe_response;
     http_restart := fun _ => true;
     socket_request := fun _ _ => Ok ∅ |}.

(** A [summary] answer whose "MHS av" is an integer of 401 digits. *)
Definition huge_summary : dict :=
  {[ "MHS av" := VInt (10 ^ 400); "Elapsed" := VInt 10027;
     "Accepted" := VInt 12; "Rejected" := VInt 0 ]}.

(** A device that answers every command, [summary] with [huge_summary]. *)
Definition huge_hashrate_net : network :=
  {| http_get := fun _ => Ok ∅;
     http_restart := fun _ => true;
     socket_request := fun _ command =>
       if String.eqb command "summary" then Ok huge_summary
       else if String.eqb command "estats" then Ok sample_stats
       else Ok ∅ |}.

(** The log of requests only grows. *)
Definition grows (w w' : world) : Prop :=
  exists l, requests w' = (requests w ++ l)%list.

(** A computation that, started with a reachable database, leaves it
    reachable and only adds to the log of requests. *)
Definition calm {A} (c : M A) : Prop :=
  forall w, connects w = [] ->
            connects (fst (c w)) = [] /\ grows w (fst (c w)).

(** A computation that returns whenever the database can be reached. *)
Definition returns {A} (c : M A) : Prop :=
  forall w, connects w = [] -> exists a, snd (c w) = Ok a.

(** Every character of [s] satisfies [p]. *)
Fixpoint all_chars (p : ascii -> bool) (s : string) : bool :=
  match s with
  | EmptyString => true
  | String c r => p c && all_chars p r
  end.

(** The text of an optional unit. *)
Definition unit_text (unit : option ascii) : string :=
  match unit with
  | Some c => String c ""
  | None => ""
  end.

(** *** Frames and postconditions of the collectors' computations *)

(** Whatever the outcome, [c] relates the world before to the world after
    by [R]. *)
Definition keeps (R : world -> world -> Prop) {A} (c : M A) : Prop :=
  forall w, R w (fst (c w)).

(** [c], started in [w], ends in a world and with a result that satisfy
    [Q]. *)
Definition wp {A} (c : M A) (w : world) (Q : world -> res A -> Prop) : Prop :=
  Q (fst (c w)) (snd (c w)).

(** The stored samples are the same. *)
Definition same_samples (w w' : world) : Prop :=
  mining_stats w' = mining_stats w /\
  hardware_logs w' = hardware_logs w /\
  system_info w' = system_info w.

(** The database is the same: the registry of devices and the samples. *)
Definition same_database (w w' : world) : Prop :=
  devices w' = devices w /\ same_samples w w'.

(** What a status update of [device_id] may do to a row of the registry:
    nothing to the rows of other devices, and to a row of this device
    nothing but to the columns [last_seen_at] and [error_message]. *)
Definition status_touched (device_id : string) (d d' : device_row) : Prop :=
  d_id d' = d_id d /\ d_device_id d' = d_device_id d /\
  d_device_name d' = d_device_name d /\ d_ip_address d' = d_ip_address d /\
  d_is_active d' = d_is_active d /\
  (d_device_id d <> device_id -> d' = d).

(** Some character of [s] satisfies [p]. *)
Fixpoint any_char (p : ascii -> bool) (s : string) : bool :=
  match s with
  | EmptyString => false
  | String c r => p c || any_char p r
  end.

(** The number of characters of [s] that satisfy [p]. *)
Fixpoint count_chars (p : ascii -> bool) (s : string) : nat :=
  match s with
  | EmptyString => O
  | String c r => (if p c then 1 else 0) + count_chars p r
  end.

(** [s] reads as digits, at most one dot among them, and at least one
    digit: the texts of digits and dots that [float] accepts. *)
Definition one_dot_number (s : string) : bool :=
  (count_chars (fun c => PyStr.ascii_eqb c ".") s <=? 1)%nat
  && any_char PyStr.is_digit s.

(** ** Rendering of durations *)

Module Format.

(** [_format_duration] of either collector, from
    [total_seconds = int(duration.total_seconds())] on; [//] and [%] are
    Python's floor division and remainder. *)
Definition _format_duration (total_seconds : Z) : string :=
  let hours := (total_seconds / 3600)%Z in
  let minutes := ((total_seconds mod 3600) / 60)%Z in
  let seconds := (total_seconds mod 60)%Z in
  if (0 <? hours)%Z then
    Py.str_of_Z hours ++ "h " ++ Py.str_of_Z minutes ++ "m "
      ++ Py.str_of_Z seconds ++ "s"
  else if (0 <? minutes)%Z then
    Py.str_of_Z minutes ++ "m " ++ Py.str_of_Z seconds ++ "s"
  else Py.str_of_Z seconds ++ "s".

End Format.

(** What one poll may store: nothing, or exactly one row in each of the
    three tables of samples. *)
Definition one_sample_or_none (w w' : world) : Prop :=
  same_samples w w' \/
  exists (r : mining_row) (h s : list pyval),
    mining_stats w' = (mining_stats w ++ [r])%list /\
    hardware_logs w' = (hardware_logs w ++ [h])%list /\
    system_info w' = (system_info w ++ [s])%list.

(** Nothing of the database, the alerts and the restarts has changed. *)
Definition untouched (w w' : world) : Prop :=
  same_database w w' /\ alerts w' = alerts w /\ restarts w' = restarts w.

(** The same, as long as [device_id] has no row in the registry. *)
Definition untouched_while_unregistered (device_id : string) (w w' : world) : Prop :=
  Sql.select_device device_id w = None -> untouched w w'.

(** The device an alert is about. *)
Definition alert_device (a : AlertEvent) : string :=
  match a with
  | HashrateStagnation device_id _ _ _ => device_id
  | BestDifficulty device_id _ _ _ => device_id
  | DeviceOffline device_id _ _ _ => device_id
  | DeviceOnline device_id _ _ => device_id
  | DeviceRestarted device_id _ => device_id
  end.

(** [l'] is [l] with some items added at its end, all of them in [P]. *)
Definition extended_within {A} (P : A -> Prop) (l l' : list A) : Prop :=
  exists added, l' = (l ++ added)%list /\ Forall P added.

(** From [w] to [w'] the only hosts asked or restarted are those of [ips],
    and the only alerts sent are about the devices of [ids]. *)
Definition only_about (ips ids : list string) (w w' : world) : Prop :=
  extended_within (fun ip => In ip ips) (requests w) (requests w') /\
  extended_within (fun ip => In ip ips) (restarts w) (restarts w') /\
  extended_within (fun a => In (alert_device a) ids) (alerts w) (alerts w').


(** ** Fixed-point formatting *)

Module PyFormat.
Import PyNum.

(** The nearest integer, a tie going to the even one. *)
Definition round_half_even (q : Q) : Z :=
  let f := Qround.Qfloor q in
  match (q - inject_Z f ?= 1 # 2)%Q with
  | Lt => f
  | Gt => (f + 1)%Z
  | Eq => if Z.even f then f else (f + 1)%Z
  end.

(** [f"{x:.2f}"], on the floats idealised as rationals: the sign, the
    integer part, and two fractional digits after rounding. *)
Definition format_2f (x : Q) : string :=
  let n := round_half_even (Qabs x * 100) in
  (if flt x 0 then "-" else "")
  ++ Py.str_of_Z (n / 100) ++ "."
  ++ Py.digit_char ((n mod 100) / 10) ++ Py.digit_char (n mod 10).

End PyFormat.

(** ** The Telegram notifier *)

Module Telegram.
Import PyStr PyNum PyFormat.

(** [bool(x)] of an optional text: [None] and the empty text are false. *)
Definition configured (x : option string) : bool :=
  match x with
  | Some s => negb (String.eqb s "")
  | None => false
  end.

(** [x or y] *)
Definition or_else (x y : option string) : option string :=
  if configured x then x else y.

(** The environment variables [TELEGRAM_BOT_TOKEN] and [TELEGRAM_CHAT_ID],
    as [os.getenv] reads them. *)
Record environment := {
  env_bot_token : option string;
  env_chat_id : option string
}.

Record TelegramNotifier := {
  bot_token : option string;
  chat_id : option string;
  enabled : bool
}.

(** [TelegramNotifier.__init__] *)
Definition __init__ (env : environment) (bot_token chat_id : option string)
  : TelegramNotifier :=
  let bot_token := or_else bot_token (env_bot_token env) in
  let chat_id := or_else chat_id (env_chat_id env) in
  {| bot_token := bot_token;
     chat_id := chat_id;
     enabled := if negb (configured bot_token) || negb (configured chat_id)
                then false else true |}.

(** [BitAxeCollector.update_telegram_settings]: the new notifier of the
    collector. *)
Definition update_telegram_settings (env : environment) (enabled : bool)
    (bot_token chat_id : option string) : TelegramNotifier :=
  if enabled && configured bot_token && configured chat_id then
    __init__ env bot_token chat_id
  else __init__ env None None.

(** The answer of the Bot API to a [requests.post]. *)
Record response := {
  status_code : Z;
  text : string
}.

(** [response.raise_for_status()] raises [HTTPError] for the client and
    server errors. *)
Definition is_http_error (r : response) : bool :=
  ((400 <=? status_code r) && (status_code r <? 600))%Z.

(** A [sendMessage] request: the text and the parse mode of its payload. *)
Definition payload : Type := string * string.

(** [TelegramNotifier.send_message]: the requests posted, oldest first, and
    the result.  [post] is [requests.post] to the Bot API, which answers or
    raises an exception that is no [HTTPError] (no connection, a timeout);
    [fuel] bounds the depth of the recursion, [None] when it is used up. *)
Fixpoint send_message (fuel : nat) (post : payload -> res response)
    (self : TelegramNotifier) (message parse_mode : string)
  : option (list payload * bool) :=
  match fuel with
  | O => None
  | S fuel =>
      if negb (enabled self) then Some ([], false)
      else
        match post (message, parse_mode) with
        | Ok response =>
            if is_http_error response then
              if (status_code response =? 400)%Z
                 && String.eqb parse_mode "HTML"
                 && contains (text response) "parse entities"
              then
                match send_message fuel post self message "" with
                | Some (posted, sent) => Some ((message, parse_mode) :: posted, sent)
                | None => None
                end
              else Some ([(message, parse_mode)], false)
            else Some ([(message, parse_mode)], true)
        | Raise _ => Some ([(message, parse_mode)], false)
        end
  end.

(** [TelegramNotifier._format_difficulty] *)
Definition _format_difficulty (difficulty : Q) : string :=
  if fle 1000000000000 difficulty then
    format_2f (fdiv difficulty 1000000000000) ++ " T"
  else if fle 1000000000 difficulty then
    format_2f (fdiv difficulty 1000000000) ++ " G"
  else if fle 1000000 difficulty then
    format_2f (fdiv difficulty 1000000) ++ " M"
  else if fle 1000 difficulty then
    format_2f (fdiv difficulty 1000) ++ " K"
  else format_2f difficulty.

End Telegram.

(** ** The pool collectors *)

Module CKPool.
Import PyStr PyNum.

(** [[KMGTP]] under [re.IGNORECASE]. *)
Definition is_unit (c : ascii) : bool :=
  existsb (ascii_eqb c) ["K"; "M"; "G"; "T"; "P"; "k"; "m"; "g"; "t"; "p"]%char.

(** [c.upper()] of a letter. *)
Definition upper (c : ascii) : ascii :=
  if ((97 <=? code c) && (code c <=? 122))%N then ascii_of_N (code c - 32) else c.

(** The [multipliers] table with [multipliers.get(unit, 1)]; [None] is the
    empty unit. *)
Definition multiplier (unit : option ascii) : Q :=
  match unit with
  | None => 1 # 1000000000
  | Some c =>
      if ascii_eqb c "K" then 1 # 1000000
      else if ascii_eqb c "M" then 1 # 1000
      else if ascii_eqb c "G" then 1
      else if ascii_eqb c "T" then 1000
      else if ascii_eqb c "P" then 1000000
      else 1
  end.

(** [CKPoolCollector.convert_hashrate_to_ghs], which is also
    [BitAxePoolStats._convert_hashrate_to_ghs] of the backend; the match is
    [re.match(r'([\d.]+)([KMGTP]?)', s, re.IGNORECASE)]. *)
Definition convert_hashrate_to_ghs (hashrate_str : pyval) : res Q :=
  if negb (Py.truthy hashrate_str) then Ok 0%Q
  else
    match hashrate_str with
    | VStr s =>
        let hashrate_str := strip s in
        match span Re.cls_digit_dot hashrate_str with
        | (EmptyString, _) => Ok 0%Q
        | (g1, r) =>
            let unit :=
              match r with
              | String c _ => if is_unit c then Some (upper c) else None
              | EmptyString => None
              end in
            (value <- float_of_string g1 ;;
             Ok (fmul value (multiplier unit)))%res
        end
    | _ => Raise (Exn AttributeError "object has no attribute 'strip'")
    end.

End CKPool.

Module PublicPool.
Import PyNum PyFormat.

(** [PublicPoolCollector.convert_hashrate_to_ghs] *)
Definition convert_hashrate_to_ghs (hashrate_value : pyval) : res Q :=
  if negb (Py.truthy hashrate_value) then Ok 0%Q
  else
    try_except
      (value <- Py.float hashrate_value ;; Ok (fdiv value 1000000000))%res
      [ValueError; TypeError]
      (Ok 0%Q).

(** [PublicPoolCollector.format_hashrate] *)
Definition format_hashrate (hashrate_hs : pyval) : res string :=
  if negb (Py.truthy hashrate_hs) then Ok "0"
  else
    try_except
      (value <- Py.float hashrate_hs ;;
       Ok (if fle 1000000000000000 value then
             format_2f (fdiv value 1000000000000000) ++ "P"
           else if fle 1000000000000 value then
             format_2f (fdiv value 1000000000000) ++ "T"
           else if fle 1000000000 value then
             format_2f (fdiv value 1000000000) ++ "G"
           else if fle 1000000 value then
             format_2f (fdiv value 1000000) ++ "M"
           else if fle 1000 value then
             format_2f (fdiv value 1000) ++ "K"
           else format_2f value))%res
      [ValueError; TypeError]
      (Ok "0").

End PublicPool.

(** The alert is a "device back online" alert. *)
Definition is_back_online (a : AlertEvent) : bool :=
  match a with
  | DeviceOnline _ _ _ => true
  | _ => false
  end.

(** The registry rows of the devices [ids] all have [is_active] set, as the
    rows that [load_active_devices] selects have. *)
Definition listed_rows_active (ids : list string) (w : world) : Prop :=
  forall device_id row,
    In device_id ids -> Sql.select_device device_id w = Some row ->
    d_is_active row = true.

(** As long as the rows of [ids] are active, they stay so and no
    back-online alert is sent. *)
Definition no_back_online (ids : list string) (w w' : world) : Prop :=
  listed_rows_active ids w ->
  listed_rows_active ids w' /\
  extended_within (fun a => is_back_online a = false) (alerts w) (alerts w').

(** The alert is a "new best difficulty" alert. *)
Definition is_best_difficulty (a : AlertEvent) : bool :=
  match a with
  | BestDifficulty _ _ _ _ => true
  | _ => false
  end.

(** The name the collectors give a device in their alerts:
    [device_row[1] if device_row else device_id]. *)
Definition registered_name (device_id : string) (w : world) : string :=
  match Sql.select_device device_id w with
  | Some d => d_device_name d
  | None => device_id
  end.

(** From [w] to [w'] no sample was stored, no device was renamed, the clock
    did not go back, a database that could be reached still can, and no
    best-difficulty alert was sent. *)
Definition before_commit (w w' : world) : Prop :=
  (connects w = [] -> connects w' = []) /\
  same_samples w w' /\
  (forall device_id, registered_name device_id w' = registered_name device_id w) /\
  (now w <= now w')%Z /\
  extended_within (fun a => is_best_difficulty a = false) (alerts w) (alerts w').




(** * Properties *)

(** ** The primitives on examples *)

Example split_pipe : PyStr.split "|" "a|b|" = ["a"; "b"; ""].
Proof. reflexivity. Qed.

Example split_ws_ps : PyStr.split_ws " 85  91 7 " = ["85"; "91"; "7"].
Proof. reflexivity. Qed.

Example split1_eq : PyStr.split1 "=" "k=v=w" = ["k"; "v=w"].
Proof. reflexivity. Qed.

Example strip_both : PyStr.strip "  a b  " = "a b".
Proof. reflexivity. Qed.

Example find_marker : PyStr.find "x,MM Count=1" ",MM Count=" = Some 1%nat.
Proof. reflexivity. Qed.

Example float_plain : PyNum.float_of_string "133" = Ok 133%Q.
Proof. reflexivity. Qed.
Example float_frac : PyNum.float_of_string "464.89" = Ok (46489 # 100)%Q.
Proof. reflexivity. Qed.
Example float_exp : PyNum.float_of_string " -1_0.5e-1 " = Ok (- (21 # 20))%Q.
Proof. reflexivity. Qed.
Example float_lead_dot : PyNum.float_of_string ".5" = Ok (1 # 2)%Q.
Proof. reflexivity. Qed.
Example float_trail_dot : PyNum.float_of_string "5." = Ok 5%Q.
Proof. reflexivity. Qed.
Example float_dot : is_ok (PyNum.float_of_string ".") = false.
Proof. reflexivity. Qed.
Example float_two_dots : is_ok (PyNum.float_of_string "1.2.3") = false.
Proof. reflexivity. Qed.
Example float_empty : is_ok (PyNum.float_of_string "") = false.
Proof. reflexivity. Qed.
Example float_percent : is_ok (PyNum.float_of_string "33%") = false.
Proof. reflexivity. Qed.
Example int_plain : PyNum.int_of_string "1520" = Ok 1520%Z.
Proof. reflexivity. Qed.

Example str_float_int : Py.str (VFloat 1500000) = "1500000.0".
Proof. reflexivity. Qed.
Example str_float_frac : Py.str (VFloat (2223 # 100)) = "22.23".
Proof. reflexivity. Qed.

Example search_otemp :
  Re.search_group "OTemp" Re.cls_digit "ITemp[-273] OTemp[65] TMax[95]" = Some "65".
Proof. reflexivity. Qed.
Example search_sentinel :
  Re.search_group "OTemp" Re.cls_digit "OTemp[-273] TAvg[90]" = None.
Proof. reflexivity. Qed.
Example match_diff : Re.match_difficulty "22.23 M" = Some ("22.23", Some "M"%char).
Proof. reflexivity. Qed.

Example diff_22M : BitAxeParse._parse_difficulty (VStr "22.23 M") = Ok 22230000%Q.
Proof. reflexivity. Qed.
Example diff_nounit : BitAxeParse._parse_difficulty (VStr "512") = Ok 512%Q.
Proof. reflexivity. Qed.
Example diff_text : BitAxeParse._parse_difficulty (VStr "n/a") = Ok 0%Q.
Proof. reflexivity. Qed.
Example diff_none : BitAxeParse._parse_difficulty VNone = Ok 0%Q.
Proof. reflexivity. Qed.

(** ** Float helpers *)

Section FloatFacts.
Import PyNum.

Lemma flt_true (x y : Q) : flt x y = true <-> (x < y)%Q.
Proof.
  unfold flt. destruct (Qlt_le_dec x y) as [H | H]; split; intros; auto; try discriminate.
  exfalso. exact (Qlt_not_le _ _ H0 H).
Qed.

Lemma flt_false (x y : Q) : flt x y = false <-> (y <= x)%Q.
Proof.
  unfold flt. destruct (Qlt_le_dec x y) as [H | H]; split; intros; auto; try discriminate.
  exfalso. exact (Qlt_not_le _ _ H H0).
Qed.

Lemma fle_true (x y : Q) : fle x y = true <-> (x <= y)%Q.
Proof.
  unfold fle. destruct (Qlt_le_dec y x) as [H | H]; split; intros; auto; try discriminate.
  exfalso. exact (Qlt_not_le _ _ H H0).
Qed.

Lemma fdiv_eq (x y : Q) : (fdiv x y == x / y)%Q.
Proof. unfold fdiv. apply Qred_correct. Qed.

Lemma fmul_eq (x y : Q) : (fmul x y == x * y)%Q.
Proof. unfold fmul. apply Qred_correct. Qed.

Lemma fsub_eq (x y : Q) : (fsub x y == x - y)%Q.
Proof. unfold fsub. apply Qred_correct. Qed.

Lemma fabs_eq (x : Q) : (fabs x == Qabs x)%Q.
Proof. unfold fabs. apply Qred_correct. Qed.

End FloatFacts.

(** ** Efficiency *)

(** C8.  The efficiency both collectors store is
    [power_w / (hashrate_ghs / 1000)], that is [power_w * 1000 / hashrate_ghs],
    when [hashrate_ghs > 0], and 0 when [hashrate_ghs <= 0]; scaling the power
    by [k] scales the efficiency by [k]. *)
Theorem efficiency_spec (power_w hashrate_ghs : Q) :
  ((0 < hashrate_ghs)%Q ->
     (Metrics.efficiency power_w hashrate_ghs == power_w / (hashrate_ghs / 1000))%Q /\
     (Metrics.efficiency power_w hashrate_ghs == power_w * 1000 / hashrate_ghs)%Q) /\
  ((hashrate_ghs <= 0)%Q -> Metrics.efficiency power_w hashrate_ghs = 0%Q) /\
  (forall k : Q,
     (Metrics.efficiency (k * power_w) hashrate_ghs
      == k * Metrics.efficiency power_w hashrate_ghs)%Q).
Proof.
  unfold Metrics.efficiency.
  split; [| split].
  - intros Hpos.
    assert (Hne : ~ (hashrate_ghs == 0)%Q).
    { intros E. rewrite E in Hpos. exact (Qlt_irrefl 0 Hpos). }
    apply flt_true in Hpos. rewrite Hpos.
    unfold PyNum.fdiv. repeat setoid_rewrite Qred_correct. split; [reflexivity |].
    field. exact Hne.
  - intros Hle. apply flt_false in Hle. rewrite Hle. reflexivity.
  - intros k. destruct (PyNum.flt 0 hashrate_ghs) eqn:E; cbv beta iota.
    + apply flt_true in E.
      assert (Hne : ~ (hashrate_ghs == 0)%Q).
      { intros E0. rewrite E0 in E. exact (Qlt_irrefl 0 E). }
      unfold PyNum.fdiv. repeat setoid_rewrite Qred_correct. field. exact Hne.
    + ring.
Qed.

Lemma efficiency_spec_witness :
  (Metrics.efficiency (31 # 2) 500 == (31 # 2) * 1000 / 500)%Q /\
  Metrics.efficiency (31 # 2) 0 = 0%Q.
Proof.
  split.
  - apply (proj1 (efficiency_spec (31 # 2) 500)). reflexivity.
  - apply (proj1 (proj2 (efficiency_spec (31 # 2) 0))). discriminate.
Defined.

(** ** The difficulty parser of the Bitaxe collector *)

(** C5.  [_parse_difficulty] does not return for every string: the group
    [[\d.]+] admits texts that [float] rejects, and the [ValueError] is not
    caught in [_parse_difficulty].  Here on "1.2.3", on "." and on "1..5 K". *)
Theorem parse_difficulty_raises_on_dotted_prefix :
  BitAxeParse._parse_difficulty (VStr "1.2.3")
    = Raise (Exn ValueError "could not convert string to float") /\
  BitAxeParse._parse_difficulty (VStr ".")
    = Raise (Exn ValueError "could not convert string to float") /\
  BitAxeParse._parse_difficulty (VStr "1..5 K")
    = Raise (Exn ValueError "could not convert string to float").
Proof. repeat split; reflexivity. Qed.

(** The multipliers grow with the unit: 1 <= K <= M <= G <= T. *)
Lemma multiplier_monotone :
  (BitAxeParse.multiplier None <= BitAxeParse.multiplier (Some "K"%char))%Q /\
  (BitAxeParse.multiplier (Some "K"%char) <= BitAxeParse.multiplier (Some "M"%char))%Q /\
  (BitAxeParse.multiplier (Some "M"%char) <= BitAxeParse.multiplier (Some "G"%char))%Q /\
  (BitAxeParse.multiplier (Some "G"%char) <= BitAxeParse.multiplier (Some "T"%char))%Q.
Proof. repeat split; discriminate. Qed.

(** A text that does not start with a digit or a dot parses to 0.0. *)
Lemma parse_difficulty_no_prefix (c : ascii) (s : string) :
  Re.cls_digit_dot c = false ->
  BitAxeParse._parse_difficulty (VStr (String c s)) = Ok 0%Q.
Proof.
  intros H. unfold BitAxeParse._parse_difficulty, Re.match_difficulty.
  cbn [Py.truthy Py.str String.eqb negb PyStr.span]. rewrite H. reflexivity.
Qed.

(** ** The power extractor of the Avalon collector *)

Example sample_decodes :
  AvalonParse._parse_temperature_from_stats sample_stats = Ok 65%Q /\
  AvalonParse._parse_power_from_stats sample_stats = Ok 133%Q /\
  AvalonParse._parse_fan_speed_from_stats sample_stats = Ok 1520%Z /\
  AvalonParse._parse_frequency_from_stats sample_stats = Ok (46489 # 100)%Q /\
  AvalonParse._parse_voltage_from_stats sample_stats = Ok (299 # 100)%Q.
Proof. repeat split; vm_compute; reflexivity. Qed.



(** ** The text decoder of the Avalon collector never raises *)

Section Catching.
Import PyStr PyNum.

Lemma raises_only_bind {A B} kinds (r : res A) (k : A -> res B) :
  raises_only kinds r -> (forall a, raises_only kinds (k a)) ->
  raises_only kinds (rbind r k).
Proof. destruct r as [a | e]; simpl; auto. Qed.

Lemma raises_only_ok {A} kinds (a : A) : raises_only kinds (Ok a).
Proof. exact I. Qed.

Lemma try_except_returns {A} kinds (body : res A) (d : A) :
  raises_only kinds body -> exists v, try_except body kinds (Ok d) = Ok v.
Proof.
  unfold try_except. destruct body as [a | e]; simpl.
  - intros _. exists a. reflexivity.
  - intros ->. exists d. reflexivity.
Qed.

Lemma float_of_string_value_error (s : string) :
  match float_of_string s with
  | Ok _ => True
  | Raise e => exn_type e = ValueError
  end.
Proof.
  unfold float_of_string.
  destruct (sign_of (strip s)) as [sg s1].
  destruct (digitpart s1) as [ip s2].
  match goal with
  | |- context [let (_, _) := ?x in _] => destruct x as [fp s3]
  end.
  destruct ip, fp; simpl; auto;
    match goal with
    | |- context [if ?b then Raise _ else _] => destruct b
    end; simpl; auto;
    destruct (exponent s3) as [[e r] |]; simpl; auto;
    destruct r; simpl; auto.
Qed.

Lemma int_of_string_value_error (s : string) :
  match int_of_string s with
  | Ok _ => True
  | Raise e => exn_type e = ValueError
  end.
Proof.
  unfold int_of_string.
  destruct (sign_of (strip s)) as [sg s1].
  destruct (digitpart s1) as [ds r].
  destruct ds; simpl; auto. destruct r; simpl; auto.
Qed.

Lemma float_of_string_raises kinds (s : string) :
  existsb (exn_kind_eqb ValueError) kinds = true ->
  raises_only kinds (float_of_string s).
Proof.
  intros H. pose proof (float_of_string_value_error s) as E.
  unfold raises_only. destruct (float_of_string s); auto. rewrite E. exact H.
Qed.

Lemma int_of_string_raises kinds (s : string) :
  existsb (exn_kind_eqb ValueError) kinds = true ->
  raises_only kinds (int_of_string s).
Proof.
  intros H. pose proof (int_of_string_value_error s) as E.
  unfold raises_only. destruct (int_of_string s); auto. rewrite E. exact H.
Qed.

Lemma search_raises kinds key cls (x : pyval) :
  existsb (exn_kind_eqb TypeError) kinds = true ->
  raises_only kinds (Re.search key cls x).
Proof. intros H. destruct x; simpl; auto. Qed.

Lemma index_raises {A} kinds (l : list A) (i : nat) :
  existsb (exn_kind_eqb IndexError) kinds = true ->
  raises_only kinds (Py.index l i).
Proof. intros H. unfold Py.index. destruct (nth_error l i); simpl; auto. Qed.

Lemma py_float_raises kinds (v : pyval) :
  existsb (exn_kind_eqb ValueError) kinds = true ->
  existsb (exn_kind_eqb TypeError) kinds = true ->
  existsb (exn_kind_eqb OverflowError) kinds = true ->
  raises_only kinds (Py.float v).
Proof.
  intros H1 H2 H3. destruct v; simpl; auto.
  - destruct (Py.fits_double z); simpl; auto.
  - apply float_of_string_raises; exact H1.
Qed.

End Catching.

Ltac catch_all :=
  repeat first
    [ apply raises_only_bind; [| intros ? ]
    | apply float_of_string_raises; reflexivity
    | apply int_of_string_raises; reflexivity
    | apply search_raises; reflexivity
    | apply index_raises; reflexivity
    | apply py_float_raises; reflexivity
    | exact I
    | progress cbv zeta
    | match goal with
      | |- raises_only _ (match ?x with _ => _ end) => destruct x
      | |- raises_only _ (if ?b then _ else _) => destruct b
      end ].

Section Decoder.
Import PyStr PyNum AvalonParse.

Lemma power_fallbacks_raises (mm_id0 : pyval) :
  raises_only [ValueError; TypeError; IndexError] (power_fallbacks mm_id0).
Proof. unfold power_fallbacks. catch_all. Qed.

Lemma parse_cgminer_response_returns (response_str : string) :
  exists parsed, _parse_cgminer_response response_str = Ok parsed.
Proof.
  unfold _parse_cgminer_response, try_except_all.
  destruct (parse_parts (split "|" response_str) ∅) as [d | e]; eauto.
Qed.

(** The hashrate extractor returns on every value but an integer that
    [float] cannot convert; on such an integer it raises. *)
Lemma parse_hashrate_mhs_cases (mhs_str : pyval) :
  match mhs_str with
  | VInt z =>
      if Py.fits_double z then exists v, _parse_hashrate_mhs mhs_str = Ok v
      else _parse_hashrate_mhs mhs_str = Raise Py.overflow_error
  | _ => exists v, _parse_hashrate_mhs mhs_str = Ok v
  end.
Proof.
  unfold _parse_hashrate_mhs.
  destruct mhs_str as [| b | z | q | s]; cbn [Py.float rbind try_except];
    try (eexists; reflexivity).
  - destruct (Py.fits_double z); [eexists |]; reflexivity.
  - pose proof (float_of_string_value_error s) as E.
    destruct (float_of_string s) as [v | e]; cbn [rbind try_except].
    + eexists; reflexivity.
    + rewrite E. eexists; reflexivity.
Qed.

Lemma parse_temperature_returns (stats_info : dict) :
  exists v, _parse_temperature_from_stats stats_info = Ok v.
Proof. apply try_except_returns. catch_all. Qed.

Lemma parse_power_returns (stats_info : dict) :
  exists v, _parse_power_from_stats stats_info = Ok v.
Proof.
  apply try_except_returns.
  apply raises_only_bind; [apply search_raises; reflexivity | intros m].
  destruct m as [g |]; [| apply power_fallbacks_raises].
  cbv zeta. destruct (7 <=? length (split_ws g))%nat.
  - catch_all.
  - apply power_fallbacks_raises.
Qed.

Lemma parse_fan_speed_returns (stats_info : dict) :
  exists v, _parse_fan_speed_from_stats stats_info = Ok v.
Proof. apply try_except_returns. catch_all. Qed.

Lemma parse_frequency_returns (stats_info : dict) :
  exists v, _parse_frequency_from_stats stats_info = Ok v.
Proof. apply try_except_returns. catch_all. Qed.

Lemma parse_voltage_returns (stats_info : dict) :
  exists v, _parse_voltage_from_stats stats_info = Ok v.
Proof. apply try_except_returns. catch_all. Qed.

Lemma parse_memory_usage_returns (stats_info : dict) :
  exists v, _parse_memory_usage_from_stats stats_info = Ok v.
Proof. apply try_except_returns. catch_all. Qed.

End Decoder.

Section DecoderRaises.
Import PyStr PyNum AvalonParse.

(** C6.  The decoder does raise.  [_parse_hashrate_mhs] converts with
    [float] and catches [ValueError] and [TypeError] only, so on a summary
    whose "MHS av" is an integer beyond the range of a double the
    [OverflowError] of [float] leaves the extractor, where every other
    value it cannot read gives 0.0.  In the poll the exception ends the
    decoding: nothing of the answers is stored and the device, which
    answered every command, is reported offline. *)
Theorem socket_decoder_raises_on_huge_hashrate :
  _parse_hashrate_mhs (Py.get_default huge_summary "MHS av" (VStr "0"))
  = Raise Py.overflow_error /\
  _parse_hashrate_mhs (VStr "not a number") = Ok 0%Q /\
  _parse_hashrate_mhs VNone = Ok 0%Q /\
  let w' := fst (AvalonCollector.collect_device_data huge_hashrate_net
                   "miner-1" "10.0.0.11" two_devices) in
  requests w' = ["10.0.0.11"; "10.0.0.11"; "10.0.0.11"; "10.0.0.11"] /\
  mining_stats w' = [] /\ hardware_logs w' = [] /\ system_info w' = [] /\
  alerts w'
  = [ DeviceOffline "miner-1" "Miner One" (Some 100%Z)
        "int too large to convert to float" ].
Proof.
  cbv zeta.
  split; [vm_compute; reflexivity |].
  split; [vm_compute; reflexivity |].
  split; [vm_compute; reflexivity |].
  split; [vm_compute; reflexivity |].
  split; [vm_compute; reflexivity |].
  split; [vm_compute; reflexivity |].
  split; [vm_compute; reflexivity |].
  vm_compute; reflexivity.
Qed.

End DecoderRaises.

(** ** Device status *)

Section Status.
Import Sql.

Lemma select_device_none (device_id : string) (w : world) :
  (forall d, In d (devices w) -> d_device_id d <> device_id) ->
  select_device device_id w = None.
Proof.
  unfold select_device. intros H.
  induction (devices w) as [| d ds IH]; [reflexivity |].
  simpl. destruct (String.eqb (d_device_id d) device_id) eqn:E.
  - apply String.eqb_eq in E. exfalso. apply (H d); [left; reflexivity | exact E].
  - apply IH. intros d' Hd'. apply H. right. exact Hd'.
Qed.

Lemma update_status_row_is_active device_id is_online msg t (d : device_row) :
  d_is_active (update_status_row device_id is_online msg t d) = d_is_active d.
Proof.
  unfold update_status_row.
  destruct (String.eqb (d_device_id d) device_id); reflexivity.
Qed.

(** [update_device_status] never writes the column [is_active] it compares
    the outcome of the poll with. *)
Lemma update_device_status_keeps_is_active
    (device_id device_ip : string) (is_online : bool) (msg : string) (w : world) :
  map d_is_active
      (devices (fst (Collector.update_device_status device_id device_ip is_online msg w)))
  = map d_is_active (devices w).
Proof.
  unfold Collector.update_device_status, mbind, mtry, get_db_connection, gets,
    clock, modify, notify, mret.
  assert (Hupd : forall t l,
             map d_is_active (map (update_status_row device_id is_online msg t) l)
             = map d_is_active l).
  { intros t l. rewrite map_map. apply map_ext. intros d.
    apply update_status_row_is_active. }
  destruct (connects w) as [| [|] cs]; simpl; try reflexivity;
    match goal with
    | |- context [select_device device_id ?w0] =>
        change (select_device device_id w0) with (select_device device_id w)
    end;
    destruct (select_device device_id w) as [row |]; simpl; try reflexivity;
    destruct (d_is_active row), is_online; simpl; try apply Hupd;
    destruct (d_last_seen_at row); simpl; apply Hupd.
Qed.

(** C10.  For a [device_id] without a row in the devices table,
    [update_device_status] of either collector writes nothing and alerts
    nobody, whatever the outcome of the poll: the tables, the clock, the
    alerts and the restarts are as before. *)
Theorem update_device_status_unregistered_noop
    (w : world) (device_id device_ip : string) (is_online : bool)
    (error_message : string) :
  (forall d, In d (devices w) -> d_device_id d <> device_id) ->
  forall update,
    update = BitAxeCollector.update_device_status \/
    update = AvalonCollector.update_device_status ->
    let w' := fst (update device_id device_ip is_online error_message w) in
    devices w' = devices w /\ alerts w' = alerts w /\
    mining_stats w' = mining_stats w /\ hardware_logs w' = hardware_logs w /\
    system_info w' = system_info w /\ restarts w' = restarts w /\
    now w' = now w.
Proof.
  intros Hnone update Hupdate.
  assert (E : update = Collector.update_device_status)
    by (destruct Hupdate as [-> | ->]; reflexivity).
  subst update. cbv zeta.
  pose proof (select_device_none device_id w Hnone) as Hsel.
  unfold Collector.update_device_status, mbind, mtry, get_db_connection, gets, mret.
  destruct (connects w) as [| [|] cs]; simpl;
    try (change (select_device device_id (set_connects cs w))
           with (select_device device_id w));
    try rewrite Hsel; simpl; repeat split; reflexivity.
Qed.

End Status.

Lemma update_device_status_unregistered_noop_witness :
  alerts (fst (BitAxeCollector.update_device_status "bitaxe-9" "10.0.0.19" false
                 "timed out" one_device)) = alerts one_device.
Proof.
  refine (proj1 (proj2 (update_device_status_unregistered_noop one_device
                          "bitaxe-9" "10.0.0.19" false "timed out" _
                          BitAxeCollector.update_device_status (or_introl eq_refl)))).
  intros d [<- | []]. discriminate.
Defined.

(** C1.  The transitions are not edge-triggered: the stored status
    [is_active] the outcome is compared with is never updated.  For an active
    device, two failed polls in a row give two offline alerts, and the
    sequence online, offline, online gives one offline alert and no online
    alert. *)
Theorem update_device_status_not_edge_triggered :
  alerts (fst (polls "bitaxe-1" "10.0.0.11" [false; false] one_device))
  = [ DeviceOffline "bitaxe-1" "Bitaxe One" (Some 40%Z) "timed out";
      DeviceOffline "bitaxe-1" "Bitaxe One" (Some 40%Z) "timed out" ] /\
  alerts (fst (polls "bitaxe-1" "10.0.0.11" [true; false; true] one_device))
  = [ DeviceOffline "bitaxe-1" "Bitaxe One" (Some 100%Z) "timed out" ].
Proof. split; vm_compute; reflexivity. Qed.

(** ** Optional fields of the Bitaxe payload *)

(** A payload without the three optional fields sends NULL for each. *)
Lemma absent_optional_fields_are_null
    (device_db_id : option Z) (recorded_at : Z) (system_info : dict) :
  system_info !! "overheat_mode" = None ->
  system_info !! "rotation" = None ->
  system_info !! "displayTimeout" = None ->
  let params :=
    BitAxeCollector.system_info_params device_db_id recorded_at system_info in
  nth_error params 20 = Some VNone /\
  nth_error params 28 = Some VNone /\
  nth_error params 30 = Some VNone /\
  Sql.insert_system_info Sql.fresh BitAxeCollector.system_info_not_null params
  = Raise Sql.not_null_violation.
Proof.
  intros H1 H2 H3. cbv zeta.
  unfold BitAxeCollector.system_info_params, Py.get.
  rewrite H1, H2, H3. cbn [nth_error].
  repeat split.
  unfold Sql.insert_system_info, BitAxeCollector.system_info_not_null.
  cbn [Sql.check_not_null nth_error Sql.opt_int rbind].
  destruct device_db_id; reflexivity.
Qed.

(** C2.  On the Nerdqaxe payload the three parameters of the INSERT are
    NULL, not 0, 0 and -1; the INSERT violates the NOT NULL columns, no
    sample of the poll is stored and the device is reported offline. *)
Theorem missing_optional_fields_forwarded_as_null :
  let params := BitAxeCollector.system_info_params (Some 1%Z) 101 nerdqaxe_response in
  let w' := fst (BitAxeCollector.collect_device_data nerdqaxe_net
                   "bitaxe-1" "10.0.0.11" one_device) in
  nth_error params 20 = Some VNone /\
  nth_error params 28 = Some VNone /\
  nth_error params 30 = Some VNone /\
  system_info w' = [] /\ mining_stats w' = [] /\ hardware_logs w' = [] /\
  map d_error_message (devices w')
  = [Some "null value violates not-null constraint"] /\
  alerts w'
  = [ DeviceOffline "bitaxe-1" "Bitaxe One" (Some 100%Z)
        "null value violates not-null constraint" ].
Proof. cbv zeta. repeat split; vm_compute; reflexivity. Qed.

(** ** Best difficulty *)

Section BestDifficulty.
Import PyNum Sql.

(** The test [((current - previous) / previous) * 100 >= 5] is the test
    [(current - previous) / previous >= 0.05]. *)
Lemma improved_iff (current_best_diff previous_best : Q) :
  Collector.improved current_best_diff previous_best = true <->
  (5 # 100 <= (current_best_diff - previous_best) / previous_best)%Q.
Proof.
  unfold Collector.improved. rewrite fle_true.
  unfold fmul, fdiv, fsub. repeat setoid_rewrite Qred_correct.
  set (x := ((current_best_diff - previous_best) / previous_best)%Q).
  split; intros H; lra.
Qed.


End BestDifficulty.

(** C3.  With no earlier record (previous best 0) and a positive current
    best, the Avalon collector sends the "first best" alert and the Bitaxe
    collector sends nothing: its method has no branch for a previous best
    of 0. *)
Theorem bitaxe_first_best_difficulty_is_silent :
  Sql.select_previous_best (Some 1%Z) first_sample = None /\
  alerts (fst (BitAxeCollector.check_best_difficulty_improvement
                 (Some 1%Z) "bitaxe-1" "Bitaxe One" 100 first_sample)) = [] /\
  alerts (fst (AvalonCollector.check_best_difficulty_improvement
                 (Some 1%Z) "bitaxe-1" "Bitaxe One" 100 first_sample))
  = [ BestDifficulty "bitaxe-1" "Bitaxe One" 100 0 ].
Proof. repeat split; vm_compute; reflexivity. Qed.

(** ** Hashrate stagnation *)

Section Stagnation.
Import PyNum Sql.
Variable net : network.

Lemma tolerance_pos (fam : family) : (0 < tolerance fam)%Q.
Proof. destruct fam; reflexivity. Qed.

Lemma close_iff (tol hr first : Q) :
  flt (fabs (fsub hr first)) tol = true <-> (Qabs (hr - first) < tol)%Q.
Proof.
  rewrite flt_true. unfold fabs, fsub.
  repeat setoid_rewrite Qred_correct. reflexivity.
Qed.

Lemma all_within_three (tol a b c : Q) :
  (0 < tol)%Q ->
  Collector.all_within tol [a; b; c] = true <->
  (Qabs (b - a) < tol)%Q /\ (Qabs (c - a) < tol)%Q.
Proof.
  intros Hpos. unfold Collector.all_within. cbn [forallb].
  rewrite !andb_true_iff, !close_iff.
  assert (Ha : (Qabs (a - a) < tol)%Q).
  { assert (E : (a - a == 0)%Q) by ring. rewrite E. exact Hpos. }
  tauto.
Qed.

Lemma recent_at_most_three (device_db_id : option Z) (w : world) :
  (length (select_recent_hashrates device_db_id w) <= 3)%nat.
Proof.
  unfold select_recent_hashrates. rewrite length_map. apply firstn_le_length.
Qed.

(** The decision of the stagnation check on the list the query returns. *)
Lemma stagnation_decision (fam : family) (recent : list Q) :
  (length recent <= 3)%nat ->
  (3 <=? length recent)%nat && Collector.all_within (tolerance fam) recent = true
  <-> within_of_newest (tolerance fam) recent.
Proof.
  intros Hle. rewrite andb_true_iff, Nat.leb_le. split.
  - intros [Hlen Hall].
    destruct recent as [| a [| b [| c [| d rest]]]]; simpl in Hlen, Hle; try lia.
    exists a, b, c. split; [reflexivity |].
    apply all_within_three; [apply tolerance_pos | exact Hall].
  - intros (a & b & c & -> & Hb & Hc). split; [simpl; lia |].
    apply all_within_three; [apply tolerance_pos | tauto].
Qed.

Lemma get_db_connection_reachable (w : world) :
  db_reachable w ->
  exists w1, get_db_connection w = (w1, Ok tt) /\
             devices w1 = devices w /\ mining_stats w1 = mining_stats w /\
             alerts w1 = alerts w /\ restarts w1 = restarts w.
Proof.
  unfold db_reachable, get_db_connection.
  destruct (connects w) as [| [|] cs]; simpl; intros H; try discriminate;
    eexists; repeat split; reflexivity.
Qed.

(** [restart_device] records one restart command and sends at most the
    restart notice; it never raises. *)
Lemma restart_device_effect (fam : family) (device_ip device_id device_name : string)
    (w : world) :
  exists w' ok,
    Collector.restart_device net fam device_ip device_id device_name w = (w', Ok ok) /\
    restarts w' = (restarts w ++ [device_ip])%list /\
    (alerts w' = alerts w \/
     alerts w' = (alerts w ++ [DeviceRestarted device_id device_name])%list).
Proof.
  unfold Collector.restart_device, Collector._socket_request, mbind, mtry, modify,
    notify, mret, mraise, lift.
  destruct fam; cbn.
  - destruct (http_restart net device_ip); cbn;
      do 2 eexists; repeat split; auto.
  - destruct (socket_request net device_ip "ascset|0,reboot,0") as [response | e]; cbn.
    + destruct (Py.eq_str (Py.get response "STATUS") "S"); cbn;
        do 2 eexists; repeat split; auto.
    + do 2 eexists; repeat split; auto.
Qed.

End Stagnation.

Section StagnationRule.
Import PyNum Sql.
Variable net : network.

Lemma insert_desc_length (r : mining_row) (l : list mining_row) :
  length (insert_desc r l) = S (length l).
Proof.
  induction l as [| x l IH]; simpl; [reflexivity |].
  destruct (m_recorded_at x <=? m_recorded_at r)%Z; simpl; [reflexivity |].
  rewrite IH. reflexivity.
Qed.

Lemma order_by_length (l : list mining_row) :
  length (order_by_recorded_at_desc l) = length l.
Proof.
  induction l as [| x l IH]; simpl; [reflexivity |].
  rewrite insert_desc_length, IH. reflexivity.
Qed.

(** A row newer than all the others comes first. *)
Lemma order_by_newest (l : list mining_row) (r : mining_row) :
  (forall x, In x l -> (m_recorded_at x < m_recorded_at r)%Z) ->
  order_by_recorded_at_desc (l ++ [r]) = r :: order_by_recorded_at_desc l.
Proof.
  unfold order_by_recorded_at_desc.
  induction l as [| x l IH]; intros Hnew; simpl; [reflexivity |].
  rewrite IH by (intros y Hy; apply Hnew; right; exact Hy).
  simpl.
  assert (Hx : (m_recorded_at x < m_recorded_at r)%Z) by (apply Hnew; left; reflexivity).
  destruct (m_recorded_at r <=? m_recorded_at x)%Z eqn:E; [| reflexivity].
  apply Z.leb_le in E. lia.
Qed.

(** The sample just stored leads the three the check reads. *)
Lemma recent_hashrates_start_with_new_sample
    (w : world) (older : list mining_row) (r : mining_row) :
  mining_stats w = (older ++ [r])%list ->
  (forall x, In x older -> (m_recorded_at x < m_recorded_at r)%Z) ->
  hd_error (select_recent_hashrates (Some (m_device_id r)) w) = Some (m_hashrate_ghs r).
Proof.
  intros Hms Hnew. unfold select_recent_hashrates, rows_of.
  rewrite Hms, List.filter_app. simpl. rewrite Z.eqb_refl.
  rewrite order_by_newest; [reflexivity |].
  intros x Hx. apply List.filter_In in Hx. apply Hnew. tauto.
Qed.

Lemma check_hashrate_stagnation_cases (fam : family) (device_db_id : option Z)
    (device_id device_name : string) (current_hashrate : Q) (device_ip : string)
    (w : world) :
  db_reachable w ->
  let recent := select_recent_hashrates device_db_id w in
  let w' := fst (Collector.check_hashrate_stagnation net fam device_db_id device_id
                   device_name current_hashrate device_ip w) in
  if (3 <=? length recent)%nat && Collector.all_within (tolerance fam) recent then
    exists tail,
      alerts w' = (alerts w ++
                   HashrateStagnation device_id device_name current_hashrate 3 :: tail)%list /\
      (tail = [] \/ tail = [DeviceRestarted device_id device_name]) /\
      restarts w' = (restarts w ++ [device_ip])%list
  else alerts w' = alerts w /\ restarts w' = restarts w.
Proof.
  intros Hdb. cbv zeta.
  destruct (get_db_connection_reachable w Hdb) as (w1 & Hget & _ & Hms & Hal & Hrs).
  assert (Hrecent : select_recent_hashrates device_db_id w1
                    = select_recent_hashrates device_db_id w).
  { unfold select_recent_hashrates, rows_of. rewrite Hms. reflexivity. }
  set (w' := fst (Collector.check_hashrate_stagnation net fam device_db_id device_id
                    device_name current_hashrate device_ip w)).
  assert (Hw' : w' = fst (Collector.check_hashrate_stagnation net fam device_db_id
                            device_id device_name current_hashrate device_ip w))
    by reflexivity.
  clearbody w'. revert Hw'.
  unfold Collector.check_hashrate_stagnation, mbind at 1.
  rewrite Hget. unfold mtry, mbind at 1, gets. rewrite Hrecent.
  destruct (3 <=? length (select_recent_hashrates device_db_id w))%nat; cbn [andb];
    [| cbn; intros ->; auto].
  destruct (Collector.all_within (tolerance fam)
              (select_recent_hashrates device_db_id w)); [| cbn; intros ->; auto].
  unfold mbind, notify, modify.
  destruct (restart_device_effect net fam device_ip device_id device_name
              (set_alerts (alerts w1 ++
                 [HashrateStagnation device_id device_name current_hashrate 3]) w1))
    as (w2 & ok & Hrestart & Hrs2 & Hal2).
  rewrite Hrestart. cbn. intros ->.
  cbn [alerts restarts set_alerts] in Hrs2, Hal2.
  rewrite Hal in Hal2. rewrite Hrs in Hrs2.
  destruct Hal2 as [Hal2 | Hal2].
  - exists []. rewrite Hal2. auto.
  - exists [DeviceRestarted device_id device_name].
    rewrite Hal2, <- app_assoc. auto.
Qed.

(** C4, amended.  When the database can be reached, the stagnation check
    reads the three most recent samples of the device, the one just stored
    first, and sends the stagnation alert and one restart command if and
    only if there are three and the two older hashrates are each within the
    tolerance of the newest (0.1 GH/s for Bitaxe, 0.01 GH/s for Avalon);
    with fewer than three stored samples nothing is sent. *)
Theorem stagnation_rule (fam : family) (device_db_id : option Z)
    (device_id device_name : string) (current_hashrate : Q) (device_ip : string)
    (w : world) :
  db_reachable w ->
  let recent := select_recent_hashrates device_db_id w in
  let w' := fst (Collector.check_hashrate_stagnation net fam device_db_id device_id
                   device_name current_hashrate device_ip w) in
  (within_of_newest (tolerance fam) recent ->
     exists tail,
       alerts w' = (alerts w ++
                    HashrateStagnation device_id device_name current_hashrate 3 :: tail)%list /\
       (tail = [] \/ tail = [DeviceRestarted device_id device_name]) /\
       restarts w' = (restarts w ++ [device_ip])%list) /\
  (~ within_of_newest (tolerance fam) recent ->
     alerts w' = alerts w /\ restarts w' = restarts w) /\
  ((length (rows_of device_db_id w) < 3)%nat ->
     alerts w' = alerts w /\ restarts w' = restarts w) /\
  (forall older r,
     mining_stats w = (older ++ [r])%list ->
     device_db_id = Some (m_device_id r) ->
     (forall x, In x older -> (m_recorded_at x < m_recorded_at r)%Z) ->
     hd_error recent = Some (m_hashrate_ghs r)).
Proof.
  intros Hdb. cbv zeta.
  pose proof (check_hashrate_stagnation_cases fam device_db_id device_id device_name
                current_hashrate device_ip w Hdb) as Hcases.
  cbv zeta in Hcases.
  pose proof (stagnation_decision fam (select_recent_hashrates device_db_id w)
                (recent_at_most_three device_db_id w)) as Hdec.
  destruct ((3 <=? length (select_recent_hashrates device_db_id w))%nat
            && Collector.all_within (tolerance fam)
                 (select_recent_hashrates device_db_id w)) eqn:B.
  - assert (Hw : within_of_newest (tolerance fam) (select_recent_hashrates device_db_id w))
      by (apply Hdec; reflexivity).
    split; [| split; [| split]].
    + intros _. exact Hcases.
    + intros Hn. contradiction.
    + intros Hlt. exfalso.
      destruct Hw as (a & b & c & Hw & _).
      assert (Hl : length (select_recent_hashrates device_db_id w) = 3%nat)
        by (rewrite Hw; reflexivity).
      unfold select_recent_hashrates in Hl.
      rewrite length_map, length_firstn, order_by_length in Hl. lia.
    + intros older r Hms -> Hnew.
      apply (recent_hashrates_start_with_new_sample w older r Hms Hnew).
  - assert (Hw : ~ within_of_newest (tolerance fam)
                     (select_recent_hashrates device_db_id w)).
    { intros Hw. apply Hdec in Hw. discriminate Hw. }
    split; [| split; [| split]].
    + intros Hy. contradiction.
    + intros _. exact Hcases.
    + intros _. exact Hcases.
    + intros older r Hms -> Hnew.
      apply (recent_hashrates_start_with_new_sample w older r Hms Hnew).
Qed.

End StagnationRule.

(** C4, as stated, fails: 1.09 and 0.91 GH/s are 0.18 apart, more than the
    Bitaxe tolerance of 0.1, yet each is within 0.1 of the newest value 1.0,
    and the check sends the alert and restarts the device. *)
Lemma stagnation_fires_without_mutual_tolerance :
  Sql.select_recent_hashrates (Some 1%Z) drifting = [1; 109 # 100; 91 # 100]%Q /\
  ~ mutually_within (tolerance BitAxe) (Sql.select_recent_hashrates (Some 1%Z) drifting) /\
  alerts (fst (BitAxeCollector.check_hashrate_stagnation nerdqaxe_net (Some 1%Z)
                 "bitaxe-1" "Bitaxe One" 1 "10.0.0.11" drifting))
  = [ HashrateStagnation "bitaxe-1" "Bitaxe One" 1 3;
      DeviceRestarted "bitaxe-1" "Bitaxe One" ] /\
  restarts (fst (BitAxeCollector.check_hashrate_stagnation nerdqaxe_net (Some 1%Z)
                   "bitaxe-1" "Bitaxe One" 1 "10.0.0.11" drifting))
  = [ "10.0.0.11" ].
Proof.
  assert (E : Sql.select_recent_hashrates (Some 1%Z) drifting
              = [1; 109 # 100; 91 # 100]%Q) by (vm_compute; reflexivity).
  split; [exact E |]. split; [| split; vm_compute; reflexivity].
  rewrite E. intros H.
  specialize (H (109 # 100)%Q (91 # 100)%Q).
  assert (Hlt : (Qabs ((109 # 100) - (91 # 100)) < tolerance BitAxe)%Q)
    by (apply H; simpl; auto).
  vm_compute in Hlt. discriminate Hlt.
Qed.

Lemma stagnation_rule_witness :
  exists tail,
    alerts (fst (Collector.check_hashrate_stagnation nerdqaxe_net BitAxe (Some 1%Z)
                   "bitaxe-1" "Bitaxe One" 1 "10.0.0.11" drifting))
    = (alerts drifting ++ HashrateStagnation "bitaxe-1" "Bitaxe One" 1 3 :: tail)%list /\
    (tail = [] \/ tail = [DeviceRestarted "bitaxe-1" "Bitaxe One"]) /\
    restarts (fst (Collector.check_hashrate_stagnation nerdqaxe_net BitAxe (Some 1%Z)
                     "bitaxe-1" "Bitaxe One" 1 "10.0.0.11" drifting))
    = (restarts drifting ++ ["10.0.0.11"])%list.
Proof.
  refine (proj1 (stagnation_rule nerdqaxe_net BitAxe (Some 1%Z)
                   "bitaxe-1" "Bitaxe One" 1 "10.0.0.11" drifting _) _).
  - reflexivity.
  - exists 1%Q, (109 # 100)%Q, (91 # 100)%Q.
    split; [vm_compute; reflexivity |]. split; reflexivity.
Defined.

(** ** Isolation of the devices in a collection cycle *)

(** C9.  A failure while one device's data is stored can end the cycle:
    when the database refuses two connections in a row, the first when
    [collect_device_data] stores the status of the first device and the
    second when its handler marks the device offline, the handler raises,
    [collect_all_devices] raises, and the second device is not polled.  The
    same holds for both collectors.  When only the first connection is
    refused the loop goes on to the second device. *)
Theorem collect_all_devices_aborts_when_handler_fails :
  let down2 := set_connects [false; false] two_devices in
  let down1 := set_connects [false] two_devices in
  snd (BitAxeCollector.collect_all_devices answering_net two_entries down2)
  = Raise (Exn OperationalError "could not connect to server") /\
  requests (fst (BitAxeCollector.collect_all_devices answering_net two_entries down2))
  = [ "10.0.0.11" ] /\
  snd (AvalonCollector.collect_all_devices answering_net two_entries down2)
  = Raise (Exn OperationalError "could not connect to server") /\
  requests (fst (AvalonCollector.collect_all_devices answering_net two_entries down2))
  = [ "10.0.0.11"; "10.0.0.11"; "10.0.0.11"; "10.0.0.11" ] /\
  map d_error_message
      (devices (fst (BitAxeCollector.collect_all_devices answering_net two_entries down2)))
  = [ None; None ] /\
  snd (BitAxeCollector.collect_all_devices answering_net two_entries down1) = Ok tt /\
  In "10.0.0.12"
     (requests (fst (BitAxeCollector.collect_all_devices answering_net two_entries down1))).
Proof.
  cbv zeta.
  split; [vm_compute; reflexivity |].
  split; [vm_compute; reflexivity |].
  split; [vm_compute; reflexivity |].
  split; [vm_compute; reflexivity |].
  split; [vm_compute; reflexivity |].
  split; [vm_compute; reflexivity |].
  vm_compute. auto.
Qed.

(** *** When the database can be reached, the loop visits every device *)

Section Calm.

Lemma grows_refl (w : world) : grows w w.
Proof. exists []. rewrite app_nil_r. reflexivity. Qed.

Lemma grows_trans (a b c : world) : grows a b -> grows b c -> grows a c.
Proof.
  intros [l1 H1] [l2 H2]. exists (l1 ++ l2)%list.
  rewrite H2, H1, app_assoc. reflexivity.
Qed.

Lemma grows_same (w w' : world) : requests w' = requests w -> grows w w'.
Proof. intros H. exists []. rewrite app_nil_r. exact H. Qed.

Lemma calm_ret {A} (a : A) : calm (mret a).
Proof. intros w H. split; [exact H | apply grows_refl]. Qed.

Lemma calm_raise {A} (e : exn) : calm (@mraise A e).
Proof. intros w H. split; [exact H | apply grows_refl]. Qed.

Lemma calm_lift {A} (r : res A) : calm (lift r).
Proof. intros w H. split; [exact H | apply grows_refl]. Qed.

Lemma calm_gets {A} (f : world -> A) : calm (gets f).
Proof. intros w H. split; [exact H | apply grows_refl]. Qed.

Lemma calm_bind {A B} (c : M A) (k : A -> M B) :
  calm c -> (forall a, calm (k a)) -> calm (mbind c k).
Proof.
  intros Hc Hk w Hw. unfold mbind.
  destruct (Hc w Hw) as [H1 G1]. destruct (c w) as [w1 [a | e]]; cbn [fst] in *.
  - destruct (Hk a w1 H1) as [H2 G2]. split; [exact H2 |].
    exact (grows_trans _ _ _ G1 G2).
  - split; assumption.
Qed.

Lemma calm_mtry {A} (c : M A) (h : exn -> M A) :
  calm c -> (forall e, calm (h e)) -> calm (mtry c h).
Proof.
  intros Hc Hh w Hw. unfold mtry.
  destruct (Hc w Hw) as [H1 G1]. destruct (c w) as [w1 [a | e]]; cbn [fst] in *.
  - split; assumption.
  - destruct (Hh e w1 H1) as [H2 G2]. split; [exact H2 |].
    exact (grows_trans _ _ _ G1 G2).
Qed.

Lemma calm_modify (g : world -> world) :
  (forall w, connects (g w) = connects w) ->
  (forall w, grows w (g w)) ->
  calm (modify g).
Proof. intros H1 H2 w Hw. unfold modify; cbn [fst]. rewrite H1. auto. Qed.

Lemma calm_clock : calm clock.
Proof. intros w H. split; [exact H | apply grows_same; reflexivity]. Qed.

Lemma calm_connection : calm get_db_connection.
Proof.
  intros w H. unfold get_db_connection. rewrite H.
  split; [exact H | apply grows_refl].
Qed.

Lemma calm_notify (a : AlertEvent) : calm (notify a).
Proof.
  apply calm_modify; intros w; [reflexivity | apply grows_same; reflexivity].
Qed.

Lemma calm_commit (conn : Sql.connection) : calm (Sql.commit conn).
Proof.
  apply calm_modify; intros w; [reflexivity | apply grows_same; reflexivity].
Qed.

Lemma calm_request (ip : string) (r : res dict) :
  calm (mbind (modify (fun w => set_requests (requests w ++ [ip]) w))
              (fun _ => lift r)).
Proof.
  apply calm_bind; [| intros; apply calm_lift].
  apply calm_modify; intros w; [reflexivity | exists [ip]; reflexivity].
Qed.

Lemma returns_mtry_ret {A} (c : M A) (d : A) :
  returns (mtry c (fun _ => mret d)).
Proof.
  intros w _. unfold mtry, mret.
  destruct (c w) as [w1 [a | e]]; eauto.
Qed.

End Calm.

Ltac calm_step :=
  first
    [ apply calm_request
    | apply calm_bind; [| intros ? ]
    | apply calm_mtry; [| intros ? ]
    | apply calm_ret | apply calm_raise | apply calm_lift | apply calm_gets
    | apply calm_clock | apply calm_connection | apply calm_notify
    | apply calm_commit
    | apply calm_modify; intros ?; [reflexivity | apply grows_same; reflexivity]
    | progress cbv zeta
    | match goal with
      | |- calm (match ?x with _ => _ end) => destruct x
      | |- calm (if ?b then _ else _) => destruct b
      end ].

Section Isolation.
Variable net : network.

Lemma restart_device_calm (fam : family) (device_ip device_id device_name : string) :
  calm (Collector.restart_device net fam device_ip device_id device_name).
Proof.
  unfold Collector.restart_device, Collector._socket_request. repeat calm_step.
Qed.

Lemma check_hashrate_stagnation_calm (fam : family) (device_db_id : option Z)
    (device_id device_name : string) (current_hashrate : Q) (device_ip : string) :
  calm (Collector.check_hashrate_stagnation net fam device_db_id device_id
          device_name current_hashrate device_ip).
Proof.
  unfold Collector.check_hashrate_stagnation.
  repeat first [ apply restart_device_calm | calm_step ].
Qed.

Lemma check_best_difficulty_improvement_calm (fam : family) (device_db_id : option Z)
    (device_id device_name : string) (current_best_diff : Q) :
  calm (Collector.check_best_difficulty_improvement fam device_db_id device_id
          device_name current_best_diff).
Proof. unfold Collector.check_best_difficulty_improvement. repeat calm_step. Qed.

Lemma update_device_status_calm (device_id device_ip : string) (is_online : bool)
    (error_message : string) :
  calm (Collector.update_device_status device_id device_ip is_online error_message).
Proof. unfold Collector.update_device_status. repeat calm_step. Qed.

Lemma update_device_status_returns (device_id device_ip : string) (is_online : bool)
    (error_message : string) :
  returns (Collector.update_device_status device_id device_ip is_online error_message).
Proof.
  intros w Hw. unfold Collector.update_device_status, mbind at 1, get_db_connection.
  rewrite Hw. apply returns_mtry_ret. exact Hw.
Qed.

End Isolation.

Section Visits.
Variable net : network.

(** A poll that starts with a request to [ip], goes on calmly and whose
    handler returns: it returns, and [ip] is in the log. *)
Lemma poll_runs (ip : string) (r : res dict) (k : dict -> M unit)
    (h : exn -> M unit) :
  (forall a, calm (k a)) -> (forall e, calm (h e)) -> (forall e, returns (h e)) ->
  forall w, connects w = [] ->
    exists w' l,
      mtry (mbind (mbind (modify (fun w => set_requests (requests w ++ [ip]) w))
                         (fun _ => lift r)) k) h w = (w', Ok tt) /\
      connects w' = [] /\
      requests w' = (requests w ++ ip :: l)%list.
Proof.
  intros Hk Hcalm Hret w Hw.
  unfold mtry, mbind, modify, lift.
  set (w1 := set_requests (requests w ++ [ip]) w).
  assert (H1 : connects w1 = []) by exact Hw.
  assert (after_handler : forall e w2 l2,
            connects w2 = [] -> requests w2 = (requests w ++ ip :: l2)%list ->
            exists w' l, h e w2 = (w', Ok tt) /\ connects w' = [] /\
                         requests w' = (requests w ++ ip :: l)%list).
  { intros e w2 l2 H2 R2.
    destruct (Hcalm e w2 H2) as [H3 [l3 G3]].
    destruct (Hret e w2 H2) as [[] Hok].
    destruct (h e w2) as [w3 r3]; cbn [fst snd] in *. subst r3.
    exists w3, (l2 ++ l3)%list. repeat split; [exact H3 |].
    rewrite G3, R2, <- app_assoc. reflexivity. }
  destruct r as [a | e].
  - destruct (Hk a w1 H1) as [H2 [l2 G2]].
    assert (R2 : requests (fst (k a w1)) = (requests w ++ ip :: l2)%list).
    { rewrite G2. cbn [w1 requests set_requests]. rewrite <- app_assoc. reflexivity. }
    destruct (k a w1) as [w2 [[] | e]]; cbn [fst] in *.
    + exists w2, l2. auto.
    + apply (after_handler e w2 l2 H2 R2).
  - apply (after_handler e w1 []); [exact H1 |]. reflexivity.
Qed.

Lemma bitaxe_collect_device_data_runs (device_id device_ip : string) (w : world) :
  connects w = [] ->
  exists w' l,
    BitAxeCollector.collect_device_data net device_id device_ip w = (w', Ok tt) /\
    connects w' = [] /\ requests w' = (requests w ++ device_ip :: l)%list.
Proof.
  unfold BitAxeCollector.collect_device_data, BitAxeCollector.collect_body,
    Collector._api_request.
  apply poll_runs.
  - intros system_info.
    unfold BitAxeCollector.update_device_status,
      BitAxeCollector.check_hashrate_stagnation,
      BitAxeCollector.check_best_difficulty_improvement.
    repeat first [ apply update_device_status_calm
                 | apply check_hashrate_stagnation_calm
                 | apply check_best_difficulty_improvement_calm
                 | calm_step ].
  - intros e. apply update_device_status_calm.
  - intros e. apply update_device_status_returns.
Qed.

Lemma avalon_collect_device_data_runs (device_id device_ip : string) (w : world) :
  connects w = [] ->
  exists w' l,
    AvalonCollector.collect_device_data net device_id device_ip w = (w', Ok tt) /\
    connects w' = [] /\ requests w' = (requests w ++ device_ip :: l)%list.
Proof.
  unfold AvalonCollector.collect_device_data, AvalonCollector.collect_body.
  unfold Collector._socket_request at 1.
  apply poll_runs.
  - intros version_info.
    unfold AvalonCollector.update_device_status,
      AvalonCollector.check_hashrate_stagnation,
      AvalonCollector.check_best_difficulty_improvement, Collector._socket_request.
    repeat first [ apply update_device_status_calm
                 | apply check_hashrate_stagnation_calm
                 | apply check_best_difficulty_improvement_calm
                 | calm_step ].
  - intros e. apply update_device_status_calm.
  - intros e. apply update_device_status_returns.
Qed.

(** A loop over the devices whose every step runs as above. *)
Lemma loop_runs (step : string -> string -> M unit)
    (each : list device_entry -> M unit) :
  (forall ds w, each ds w
                = match ds with
                  | [] => mret tt w
                  | d :: rest =>
                      mbind (step (e_device_id d) (e_ip_address d))
                            (fun _ => each rest) w
                  end) ->
  (forall id ip w, connects w = [] ->
     exists w' l, step id ip w = (w', Ok tt) /\ connects w' = [] /\
                  requests w' = (requests w ++ ip :: l)%list) ->
  forall ds w, connects w = [] ->
    exists w', each ds w = (w', Ok tt) /\ connects w' = [] /\ grows w w' /\
               forall d, In d ds -> In (e_ip_address d) (requests w').
Proof.
  intros Heach Hstep ds.
  induction ds as [| d rest IH]; intros w Hw; rewrite Heach.
  - exists w. repeat split; [exact Hw | apply grows_refl | intros d []].
  - unfold mbind.
    destruct (Hstep (e_device_id d) (e_ip_address d) w Hw) as (w1 & l & E & H1 & R1).
    rewrite E.
    destruct (IH w1 H1) as (w2 & E2 & H2 & [l2 G2] & Hin).
    exists w2. repeat split; [exact E2 | exact H2 | |].
    + exists (e_ip_address d :: l ++ l2)%list.
      rewrite G2, R1, <- app_assoc. reflexivity.
    + intros d' [<- | Hd'].
      * rewrite G2, R1. apply in_or_app. left. apply in_or_app. right. left. reflexivity.
      * apply Hin. exact Hd'.
Qed.

(** With a reachable database, [collect_all_devices] of either collector
    returns, and every device of the list has been polled: whatever fails
    for one device is caught and recorded by [collect_device_data]. *)
Lemma collect_all_devices_visits_every_device
    (entries : list device_entry) (w : world) :
  connects w = [] ->
  (snd (BitAxeCollector.collect_all_devices net entries w) = Ok tt /\
   forall d, In d entries ->
     In (e_ip_address d)
        (requests (fst (BitAxeCollector.collect_all_devices net entries w)))) /\
  (snd (AvalonCollector.collect_all_devices net entries w) = Ok tt /\
   forall d, In d entries ->
     In (e_ip_address d)
        (requests (fst (AvalonCollector.collect_all_devices net entries w)))).
Proof.
  intros Hw. split.
  - destruct (loop_runs (BitAxeCollector.collect_device_data net)
                (BitAxeCollector.collect_each net)
                (fun ds w0 => match ds with [] => eq_refl | _ :: _ => eq_refl end)
                bitaxe_collect_device_data_runs entries w Hw)
      as (w' & E & _ & _ & Hin).
    assert (E' : BitAxeCollector.collect_all_devices net entries w = (w', Ok tt)).
    { destruct entries; exact E. }
    rewrite E'. split; [reflexivity | exact Hin].
  - destruct (loop_runs (AvalonCollector.collect_device_data net)
                (AvalonCollector.collect_each net)
                (fun ds w0 => match ds with [] => eq_refl | _ :: _ => eq_refl end)
                avalon_collect_device_data_runs entries w Hw)
      as (w' & E & _ & _ & Hin).
    assert (E' : AvalonCollector.collect_all_devices net entries w = (w', Ok tt)).
    { destruct entries; exact E. }
    rewrite E'. split; [reflexivity | exact Hin].
Qed.

End Visits.

(** ** More on the status transitions and the difficulty parser *)

Section MoreStatus.
Import Sql.

(** Every failed poll of a registered device with [is_active] set sends an
    offline alert, whether or not the poll before it failed as well. *)
Lemma failed_poll_of_active_device_alerts
    (w : world) (device_id device_ip error_message : string) (row : device_row) :
  connects w = [] ->
  select_device device_id w = Some row ->
  d_is_active row = true ->
  alerts (fst (Collector.update_device_status device_id device_ip false error_message w))
  = (alerts w ++
     [DeviceOffline device_id (Collector.name_or_id (d_device_name row) device_id)
                    (d_last_seen_at row) error_message])%list.
Proof.
  intros Hc Hsel Hact.
  unfold Collector.update_device_status, mbind, mtry, get_db_connection, gets,
    clock, modify, notify, mret.
  rewrite Hc, Hsel, Hact. reflexivity.
Qed.

End MoreStatus.

Section Difficulty.
Import PyStr PyNum BitAxeParse.

Lemma span_all (p : ascii -> bool) (g r : string) :
  all_chars p g = true ->
  match r with String c _ => p c = false | EmptyString => True end ->
  span p (g ++ r) = (g, r).
Proof.
  intros Hg Hr. induction g as [| c g IH]; simpl in *.
  - destruct r as [| c r]; [reflexivity |]. simpl. rewrite Hr. reflexivity.
  - apply andb_true_iff in Hg. destruct Hg as [Hc Hg].
    rewrite Hc, (IH Hg). reflexivity.
Qed.

Lemma unit_is_no_digit (c : ascii) :
  Re.is_unit c = true -> Re.cls_digit_dot c = false /\ is_space c = false.
Proof.
  unfold Re.is_unit, ascii_eqb. rewrite !orb_true_iff, !Ascii.eqb_eq.
  intros [[[-> | ->] | ->] | ->]; split; reflexivity.
Qed.

(** A numeric prefix that [float] accepts, followed by nothing or by one of
    K, M, G, T, parses to the value times the multiplier of the unit. *)
Lemma parse_difficulty_value_times_multiplier
    (prefix : string) (unit : option ascii) (value : Q) :
  prefix <> "" ->
  all_chars Re.cls_digit_dot prefix = true ->
  float_of_string prefix = Ok value ->
  (forall c, unit = Some c -> Re.is_unit c = true) ->
  _parse_difficulty (VStr (prefix ++ unit_text unit))
  = Ok (fmul value (multiplier unit)).
Proof.
  intros Hne Hall Hval Hunit.
  unfold _parse_difficulty.
  assert (Htruthy : Py.truthy (VStr (prefix ++ unit_text unit)) = true).
  { destruct prefix; [contradiction | reflexivity]. }
  rewrite Htruthy. cbn [negb Py.str].
  unfold Re.match_difficulty.
  assert (Hspan : span Re.cls_digit_dot (prefix ++ unit_text unit)
                  = (prefix, unit_text unit)).
  { apply span_all; [exact Hall |].
    destruct unit as [c |]; simpl; [| exact I].
    apply (unit_is_no_digit c). apply Hunit. reflexivity. }
  rewrite Hspan.
  destruct prefix as [| p0 prefix]; [contradiction |].
  destruct unit as [c |]; simpl.
  - pose proof (Hunit c eq_refl) as Hu.
    destruct (unit_is_no_digit c Hu) as [_ Hsp].
    rewrite Hsp. simpl. rewrite Hu.
    cbn [rbind]. simpl in Hval. rewrite Hval. reflexivity.
  - simpl in Hval. rewrite Hval. reflexivity.
Qed.

(** For a fixed non-negative value the result grows with the multiplier. *)
Lemma parse_difficulty_monotone (value m1 m2 : Q) :
  (0 <= value)%Q -> (m1 <= m2)%Q -> (fmul value m1 <= fmul value m2)%Q.
Proof.
  intros Hv Hm. unfold fmul. rewrite !Qred_correct.
  rewrite (Qmult_comm value m1), (Qmult_comm value m2).
  apply Qmult_le_compat_r; assumption.
Qed.

End Difficulty.

(** * Further properties of the collectors *)

(** ** Frames, composition *)

Section Keeps.
Context (R : world -> world -> Prop) `{!PreOrder R}.

Lemma keeps_ret {A} (a : A) : keeps R (mret a).
Proof. intros w. reflexivity. Qed.

Lemma keeps_raise {A} (e : exn) : keeps R (@mraise A e).
Proof. intros w. reflexivity. Qed.

Lemma keeps_lift {A} (r : res A) : keeps R (lift r).
Proof. intros w. reflexivity. Qed.

Lemma keeps_gets {A} (f : world -> A) : keeps R (gets f).
Proof. intros w. reflexivity. Qed.

Lemma keeps_bind {A B} (c : M A) (k : A -> M B) :
  keeps R c -> (forall a, keeps R (k a)) -> keeps R (mbind c k).
Proof.
  intros Hc Hk w. unfold mbind. specialize (Hc w).
  destruct (c w) as [w1 [a | e]]; cbn [fst] in *; [| exact Hc].
  transitivity w1; [exact Hc | apply Hk].
Qed.

Lemma keeps_mtry {A} (c : M A) (h : exn -> M A) :
  keeps R c -> (forall e, keeps R (h e)) -> keeps R (mtry c h).
Proof.
  intros Hc Hh w. unfold mtry. specialize (Hc w).
  destruct (c w) as [w1 [a | e]]; cbn [fst] in *; [exact Hc |].
  transitivity w1; [exact Hc | apply Hh].
Qed.

Lemma keeps_modify (g : world -> world) :
  (forall w, R w (g w)) -> keeps R (modify g).
Proof. intros H w. apply H. Qed.

Lemma keeps_clock : (forall w t, R w (set_now t w)) -> keeps R clock.
Proof. intros H w. apply H. Qed.

Lemma keeps_connection :
  (forall w cs, R w (set_connects cs w)) -> keeps R get_db_connection.
Proof.
  intros H w. unfold get_db_connection.
  destruct (connects w) as [| [|] cs]; cbn [fst]; [reflexivity | apply H | apply H].
Qed.

End Keeps.

Section Post.


Lemma wp_mtry {A} (c : M A) (h : exn -> M A) (w : world) Q :
  wp c w (fun w1 r => match r with
                      | Ok a => Q w1 (Ok a)
                      | Raise e => wp (h e) w1 Q
                      end) ->
  wp (mtry c h) w Q.
Proof. unfold wp, mtry. destruct (c w) as [w1 [a | e]]; auto. Qed.

Lemma wp_weaken {A} (c : M A) (w : world) (Q Q' : world -> res A -> Prop) :
  wp c w Q -> (forall w1 r, Q w1 r -> Q' w1 r) -> wp c w Q'.
Proof. unfold wp. auto. Qed.

Lemma wp_keeps {A} (R : world -> world -> Prop) (c : M A) (w : world)
    (Q : world -> res A -> Prop) :
  keeps R c -> (forall w1 r, R w w1 -> Q w1 r) -> wp c w Q.
Proof. unfold wp, keeps. auto. Qed.

End Post.

#[local] Instance same_samples_preorder : PreOrder same_samples.
Proof.
  split.
  - intros w. repeat split.
  - intros a b c (H1 & H2 & H3) (H4 & H5 & H6).
    repeat split; congruence.
Qed.

#[local] Instance same_database_preorder : PreOrder same_database.
Proof.
  split.
  - intros w. repeat split.
  - intros a b c (H0 & H1 & H2 & H3) (H0' & H4 & H5 & H6).
    repeat split; congruence.
Qed.

(** One step of a proof that a computation keeps [R]; [leaf] proves [R] for
    the primitive changes of the world. *)
Ltac keeps_step leaf :=
  match goal with
  | |- keeps ?R _ =>
      first
        [ apply (keeps_ret R) | apply (keeps_raise R) | apply (keeps_lift R)
        | apply (keeps_gets R)
        | apply (keeps_bind R); [| intros ? ]
        | apply (keeps_mtry R); [| intros ? ]
        | apply (keeps_clock R); intros ? ?; leaf
        | apply (keeps_connection R); intros ? ?; leaf
        | apply (keeps_modify R); intros ?; leaf
        | progress cbv zeta
        | match goal with
          | |- keeps _ (match ?x with _ => _ end) => destruct x
          | |- keeps _ (if ?b then _ else _) => destruct b
          end ]
  end.

Ltac same_leaf := repeat split; reflexivity.

(** ** What a status update changes *)

Section StatusFrame.
Import Sql.

Lemma update_status_row_touched device_id is_online msg t (d : device_row) :
  status_touched device_id d (update_status_row device_id is_online msg t d).
Proof.
  unfold status_touched, update_status_row.
  destruct (String.eqb (d_device_id d) device_id) eqn:E; cbn.
  - apply String.eqb_eq in E. repeat split; try reflexivity.
    intros H. contradiction.
  - repeat split; reflexivity.
Qed.

Lemma status_touched_refl device_id (d : device_row) : status_touched device_id d d.
Proof. repeat split; reflexivity. Qed.

Lemma Forall2_map_self {A} (P : A -> A -> Prop) (f : A -> A) (l : list A) :
  (forall a, P a (f a)) -> Forall2 P l (map f l).
Proof. intros H. induction l; simpl; constructor; auto. Qed.

(** X1.  A status update, whatever the outcome of the poll and whether or
    not the database answers, changes nothing but the columns
    [last_seen_at] and [error_message] of the rows of that device: the rows
    of the other devices, the identity and the [is_active] flag of every
    row, the stored samples and the logs of requests and restarts stay as
    they were. *)
Theorem update_device_status_touches_only_status_columns
    (device_id device_ip : string) (is_online : bool) (error_message : string)
    (w : world) :
  let w' := fst (Collector.update_device_status device_id device_ip is_online
                   error_message w) in
  Forall2 (status_touched device_id) (devices w) (devices w') /\
  same_samples w w' /\ restarts w' = restarts w /\ requests w' = requests w.
Proof.
  cbv zeta.
  assert (Hsame : Forall2 (status_touched device_id) (devices w) (devices w)).
  { rewrite <- (map_id (devices w)) at 2.
    apply Forall2_map_self. apply status_touched_refl. }
  assert (Hupd : forall t,
             Forall2 (status_touched device_id) (devices w)
               (map (update_status_row device_id is_online error_message t) (devices w))).
  { intros t. apply Forall2_map_self. intros d. apply update_status_row_touched. }
  unfold Collector.update_device_status, mbind, mtry, get_db_connection, gets,
    clock, modify, notify, mret, same_samples.
  destruct (connects w) as [| [|] cs]; simpl; try (repeat split; auto; fail);
    match goal with
    | |- context [select_device device_id ?w0] =>
        change (select_device device_id w0) with (select_device device_id w)
    end;
    destruct (select_device device_id w) as [row |]; simpl;
      try (repeat split; auto; fail);
    destruct (d_is_active row), is_online; simpl;
      try (repeat split; auto; fail);
    destruct (d_last_seen_at row); simpl; repeat split; auto.
Qed.

Lemma find_map_same {A} (p : A -> bool) (f : A -> A) (l : list A) :
  (forall a, p (f a) = p a) ->
  List.find p (map f l) = option_map f (List.find p l).
Proof.
  intros H. induction l as [| a l IH]; simpl; [reflexivity |].
  rewrite H. destruct (p a); [reflexivity | exact IH].
Qed.

Lemma update_status_row_same_id device_id is_online msg t (d : device_row) :
  String.eqb (d_device_id (update_status_row device_id is_online msg t d)) device_id
  = String.eqb (d_device_id d) device_id.
Proof.
  unfold update_status_row.
  destruct (String.eqb (d_device_id d) device_id) eqn:E; cbn; exact E.
Qed.

Lemma select_device_after_update device_id is_online msg t (w : world) :
  select_device device_id (update_status device_id is_online msg t w)
  = option_map (update_status_row device_id is_online msg t)
               (select_device device_id w).
Proof.
  unfold select_device, update_status. cbn [devices set_devices].
  apply find_map_same. intros d. apply update_status_row_same_id.
Qed.

Lemma select_device_matches device_id (w : world) (row : device_row) :
  select_device device_id w = Some row -> d_device_id row = device_id.
Proof.
  unfold select_device. intros H. apply List.find_some in H.
  apply String.eqb_eq. tauto.
Qed.

(** X2.  For a registered device, when the database answers, the status
    update returns and the registry then holds the outcome of the poll: the
    error message of the call, and as [last_seen_at] the time of the update
    after a successful poll, the earlier value after a failed one. *)
Theorem update_device_status_records_outcome
    (device_id device_ip : string) (is_online : bool) (error_message : string)
    (w : world) (row : device_row) :
  db_reachable w ->
  select_device device_id w = Some row ->
  exists w' row',
    Collector.update_device_status device_id device_ip is_online error_message w
    = (w', Ok tt) /\
    select_device device_id w' = Some row' /\
    d_error_message row' = Some error_message /\
    d_last_seen_at row'
    = (if is_online then Some (now w) else d_last_seen_at row).
Proof.
  intros Hdb Hsel.
  pose proof (select_device_matches _ _ _ Hsel) as Hid.
  assert (Hrow : exists row',
             option_map (update_status_row device_id is_online error_message (now w))
                        (Some row) = Some row' /\
             d_error_message row' = Some error_message /\
             d_last_seen_at row'
             = (if is_online then Some (now w) else d_last_seen_at row)).
  { eexists. split; [reflexivity |]. unfold update_status_row.
    rewrite Hid, String.eqb_refl. cbn. split; reflexivity. }
  destruct Hrow as (row' & Hrow' & Herr & Hseen).
  unfold db_reachable in Hdb.
  unfold Collector.update_device_status, mbind, mtry, get_db_connection, gets,
    clock, modify, notify, mret.
  destruct (connects w) as [| [|] cs]; simpl in Hdb; try discriminate; simpl;
    match goal with
    | |- context [select_device device_id ?w0] =>
        change (select_device device_id w0) with (select_device device_id w)
    end;
    rewrite Hsel; simpl;
    destruct (d_is_active row), is_online; simpl;
      try destruct (d_last_seen_at row) eqn:Els; simpl;
      eexists; exists row'; (split; [reflexivity |]);
      (split; [| split; [exact Herr | exact Hseen]]);
      unfold select_device; cbn [devices set_devices set_now set_alerts set_connects
                                   update_status];
      (rewrite find_map_same by (intros d; apply update_status_row_same_id));
      fold (select_device device_id w); rewrite Hsel; exact Hrow'.
Qed.

End StatusFrame.

Lemma update_device_status_records_outcome_witness :
  exists w' row',
    Collector.update_device_status "bitaxe-1" "10.0.0.11" false "timed out" one_device
    = (w', Ok tt) /\
    Sql.select_device "bitaxe-1" w' = Some row' /\
    d_error_message row' = Some "timed out" /\
    d_last_seen_at row' = Some 40%Z.
Proof.
  refine (update_device_status_records_outcome "bitaxe-1" "10.0.0.11" false
            "timed out" one_device
            {| d_id := 1; d_device_id := "bitaxe-1"; d_device_name := "Bitaxe One";
               d_ip_address := "10.0.0.11"; d_is_active := true;
               d_last_seen_at := Some 40%Z; d_error_message := None |} _ _).
  - reflexivity.
  - reflexivity.
Defined.

(** ** The anomaly checks and the restart are read-only *)

Section ReadOnly.
Variable net : network.

Lemma restart_device_keeps_database (fam : family)
    (device_ip device_id device_name : string) :
  keeps same_database
        (Collector.restart_device net fam device_ip device_id device_name).
Proof.
  unfold Collector.restart_device, Collector._socket_request, notify.
  repeat keeps_step ltac:(same_leaf).
Qed.

Lemma check_hashrate_stagnation_keeps_database (fam : family)
    (device_db_id : option Z) (device_id device_name : string)
    (current_hashrate : Q) (device_ip : string) :
  keeps same_database
        (Collector.check_hashrate_stagnation net fam device_db_id device_id
           device_name current_hashrate device_ip).
Proof.
  unfold Collector.check_hashrate_stagnation, notify.
  repeat first [ apply restart_device_keeps_database | keeps_step ltac:(same_leaf) ].
Qed.

Lemma check_best_difficulty_improvement_keeps_database (fam : family)
    (device_db_id : option Z) (device_id device_name : string)
    (current_best_diff : Q) :
  keeps same_database
        (Collector.check_best_difficulty_improvement fam device_db_id device_id
           device_name current_best_diff).
Proof.
  unfold Collector.check_best_difficulty_improvement, notify.
  repeat keeps_step ltac:(same_leaf).
Qed.

Lemma mtry_ret_returns {A} (c : M A) (d : A) (w : world) :
  exists a, snd (mtry c (fun _ => mret d) w) = Ok a.
Proof. unfold mtry, mret. destruct (c w) as [w1 [a | e]]; eauto. Qed.

Lemma after_connection_returns (c : M unit) (w : world) :
  db_reachable w ->
  snd (mbind get_db_connection (fun _ => mtry c (fun _ => mret tt)) w) = Ok tt.
Proof.
  intros Hdb.
  destruct (get_db_connection_reachable w Hdb) as (w1 & Hget & _).
  unfold mbind at 1. rewrite Hget.
  destruct (mtry_ret_returns c tt w1) as [[] H]. exact H.
Qed.

(** X3.  The stagnation check, the best-difficulty check and the restart of
    a device never change the database, neither the registry of devices nor
    the stored samples; the restart never raises, and the two checks return
    whenever the database answers their connection. *)
Theorem anomaly_checks_are_read_only (fam : family) (device_db_id : option Z)
    (device_id device_name device_ip : string) (hashrate best_diff : Q)
    (w : world) :
  same_database w
    (fst (Collector.check_hashrate_stagnation net fam device_db_id device_id
            device_name hashrate device_ip w)) /\
  same_database w
    (fst (Collector.check_best_difficulty_improvement fam device_db_id device_id
            device_name best_diff w)) /\
  same_database w
    (fst (Collector.restart_device net fam device_ip device_id device_name w)) /\
  (exists ok,
     snd (Collector.restart_device net fam device_ip device_id device_name w) = Ok ok) /\
  (db_reachable w ->
   snd (Collector.check_hashrate_stagnation net fam device_db_id device_id
          device_name hashrate device_ip w) = Ok tt /\
   snd (Collector.check_best_difficulty_improvement fam device_db_id device_id
          device_name best_diff w) = Ok tt).
Proof.
  split; [apply check_hashrate_stagnation_keeps_database |].
  split; [apply check_best_difficulty_improvement_keeps_database |].
  split; [apply restart_device_keeps_database |].
  split.
  - destruct (restart_device_effect net fam device_ip device_id device_name w)
      as (w' & ok & E & _).
    exists ok. rewrite E. reflexivity.
  - intros Hdb. split; apply after_connection_returns; exact Hdb.
Qed.

End ReadOnly.

Lemma anomaly_checks_are_read_only_witness :
  snd (Collector.check_hashrate_stagnation nerdqaxe_net BitAxe (Some 1%Z) "bitaxe-1"
         "Bitaxe One" 1 "10.0.0.11" drifting) = Ok tt.
Proof.
  refine (proj1 (proj2 (proj2 (proj2 (proj2
            (anomaly_checks_are_read_only nerdqaxe_net BitAxe (Some 1%Z) "bitaxe-1"
               "Bitaxe One" "10.0.0.11" 1 0 drifting)))) _)).
  reflexivity.
Defined.

(** ** Numbers read from digits are not negative *)

Section Digits.
Import PyStr PyNum.

Lemma is_digit_range (c : ascii) :
  is_digit c = true -> (48 <= code c <= 57)%N.
Proof.
  unfold is_digit. rewrite andb_true_iff, !N.leb_le. tauto.
Qed.

Lemma digit_is_plain (c : ascii) :
  is_digit c = true ->
  is_space c = false /\ ascii_eqb c "+" = false /\ ascii_eqb c "-" = false /\
  ascii_eqb c "." = false /\ ascii_eqb c "_" = false.
Proof.
  intros H. apply is_digit_range in H.
  assert (Hne : forall d : ascii, (code d < 48 \/ 57 < code d)%N -> ascii_eqb c d = false).
  { intros d Hd. unfold ascii_eqb. apply Ascii.eqb_neq. intros ->. lia. }
  repeat split; try (apply Hne; vm_compute; auto; fail).
  unfold is_space.
  repeat match goal with
         | |- context [(?a <=? ?b)%N] =>
             let E := fresh in destruct (N.leb_spec a b) as [E | E]
         | |- context [(?a =? ?b)%N] =>
             let E := fresh in destruct (N.eqb_spec a b) as [E | E]
         end; cbn; try reflexivity; lia.
Qed.

Lemma dot_is_plain (c : ascii) :
  ascii_eqb c "." = true ->
  is_space c = false /\ ascii_eqb c "+" = false /\ ascii_eqb c "-" = false /\
  is_digit c = false /\ ascii_eqb c "_" = false.
Proof.
  unfold ascii_eqb. rewrite Ascii.eqb_eq. intros ->. repeat split; reflexivity.
Qed.

Lemma digit_dot_is_plain (c : ascii) :
  Re.cls_digit_dot c = true ->
  is_space c = false /\ ascii_eqb c "+" = false /\ ascii_eqb c "-" = false /\
  ascii_eqb c "_" = false.
Proof.
  unfold Re.cls_digit_dot. rewrite orb_true_iff. intros [H | H].
  - destruct (digit_is_plain c H) as (? & ? & ? & ? & ?). auto.
  - destruct (dot_is_plain c H) as (? & ? & ? & ? & ?). auto.
Qed.

Lemma digit_val_nonneg (c : ascii) : is_digit c = true -> (0 <= digit_val c <= 9)%Z.
Proof. intros H. apply is_digit_range in H. unfold digit_val. lia. Qed.

Lemma digits_tail_nonneg (s : string) :
  Forall (fun d => 0 <= d <= 9)%Z (fst (digits_tail s)).
Proof.
  revert s.
  apply (well_founded_induction (well_founded_ltof _ String.length)).
  intros s H.
  destruct s as [| c r]; [constructor |].
  cbn [digits_tail].
  destruct (is_digit c) eqn:Ec.
  - specialize (H r). destruct (digits_tail r) as [ds r'].
    cbn [fst] in *. constructor; [apply digit_val_nonneg; exact Ec |].
    apply H. unfold ltof. simpl. lia.
  - destruct (ascii_eqb c "_"); [| constructor].
    destruct r as [| c2 r2]; [constructor |].
    destruct (is_digit c2) eqn:Ec2; [| constructor].
    specialize (H r2). destruct (digits_tail r2) as [ds r'].
    cbn [fst] in *. constructor; [apply digit_val_nonneg; exact Ec2 |].
    apply H. unfold ltof. simpl. lia.
Qed.

Lemma digitpart_nonneg (s : string) :
  Forall (fun d => 0 <= d <= 9)%Z (fst (digitpart s)).
Proof.
  unfold digitpart. destruct s as [| c r]; [constructor |].
  destruct (is_digit c) eqn:Ec; [| constructor].
  pose proof (digits_tail_nonneg r) as H.
  destruct (digits_tail r) as [ds r']. cbn [fst] in *.
  constructor; [apply digit_val_nonneg; exact Ec | exact H].
Qed.

Lemma Z_of_digits_acc_nonneg (ds : list Z) (acc : Z) :
  (0 <= acc)%Z -> Forall (fun d => 0 <= d <= 9)%Z ds ->
  (0 <= Z_of_digits_acc acc ds)%Z.
Proof.
  revert acc. induction ds as [| d ds IH]; intros acc Hacc Hds; simpl; [exact Hacc |].
  inversion Hds; subst. apply IH; [lia | assumption].
Qed.

Lemma Z_of_digits_nonneg (ds : list Z) :
  Forall (fun d => 0 <= d <= 9)%Z ds -> (0 <= Z_of_digits ds)%Z.
Proof. apply Z_of_digits_acc_nonneg. lia. Qed.

Lemma scale10_nonneg (m e : Z) : (0 <= m)%Z -> (0 <= scale10 m e)%Q.
Proof.
  intros Hm. unfold scale10. destruct (0 <=? e)%Z eqn:E.
  - apply Z.leb_le in E. unfold Qle; simpl.
    assert (0 <= 10 ^ e)%Z by (apply Z.pow_nonneg; lia). nia.
  - rewrite Qred_correct. unfold Qle; simpl. lia.
Qed.

(** [float] of a text without a minus sign in front is not negative. *)
Lemma float_of_string_nonneg (s : string) (v : Q) :
  fst (sign_of (strip s)) = 1%Z ->
  float_of_string s = Ok v -> (0 <= v)%Q.
Proof.
  unfold float_of_string.
  destruct (sign_of (strip s)) as [sg s1]. cbn [fst]. intros ->.
  pose proof (digitpart_nonneg s1) as Hip.
  destruct (digitpart s1) as [ip s2]. cbn [fst] in Hip.
  assert (Hfp : Forall (fun d => 0 <= d <= 9)%Z
                  (fst match s2 with
                       | String c r => if ascii_eqb c "." then digitpart r else ([], s2)
                       | EmptyString => ([], s2)
                       end)).
  { destruct s2 as [| c r]; [constructor |].
    destruct (ascii_eqb c "."); [apply digitpart_nonneg | constructor]. }
  match goal with
  | |- context [let (_, _) := ?x in _] => destruct x as [fp s3]
  end.
  cbn [fst] in Hfp.
  assert (Hval : forall e, (0 <= scale10 (1 * Z_of_digits (ip ++ fp))
                                   (e - Z.of_nat (length fp)))%Q).
  { intros e. apply scale10_nonneg. rewrite Z.mul_1_l.
    apply Z_of_digits_nonneg. apply Forall_app. split; assumption. }
  destruct ip, fp; simpl; try discriminate;
    match goal with
    | |- context [if ?b then Raise _ else _] => destruct b
    end; try discriminate;
    destruct (exponent s3) as [[e r] |]; try discriminate;
    destruct r; try discriminate;
    intros E; injection E as <-; apply Hval.
Qed.

Lemma lstrip_plain (c : ascii) (s : string) :
  is_space c = false -> lstrip (String c s) = String c s.
Proof. intros H. simpl. rewrite H. reflexivity. Qed.

Lemma rstrip_plain (s : string) :
  all_chars (fun c => negb (is_space c)) s = true -> rstrip s = s.
Proof.
  induction s as [| c r IH]; simpl; [reflexivity |].
  rewrite andb_true_iff, negb_true_iff. intros [Hc Hr].
  rewrite (IH Hr). destruct r; [rewrite Hc |]; reflexivity.
Qed.

Lemma all_chars_impl (p q : ascii -> bool) (s : string) :
  (forall c, p c = true -> q c = true) ->
  all_chars p s = true -> all_chars q s = true.
Proof.
  intros H. induction s as [| c r IH]; simpl; [reflexivity |].
  rewrite !andb_true_iff. intros [Hc Hr]. split; [apply H; exact Hc | apply IH; exact Hr].
Qed.

(** A run of digits and dots is its own [strip], and carries no sign. *)
Lemma digit_dot_run_plain (g : string) :
  all_chars Re.cls_digit_dot g = true ->
  strip g = g /\ fst (sign_of g) = 1%Z.
Proof.
  intros Hall.
  assert (Hns : all_chars (fun c => negb (is_space c)) g = true).
  { apply (all_chars_impl Re.cls_digit_dot); [| exact Hall].
    intros c Hc. destruct (digit_dot_is_plain c Hc) as [-> _]. reflexivity. }
  destruct g as [| c r]; [split; reflexivity |].
  simpl in Hall. apply andb_true_iff in Hall. destruct Hall as [Hc _].
  destruct (digit_dot_is_plain c Hc) as (Hsp & Hplus & Hminus & _).
  split.
  - unfold strip. rewrite (lstrip_plain c r Hsp). apply rstrip_plain. exact Hns.
  - simpl. rewrite Hplus, Hminus. reflexivity.
Qed.

Lemma float_of_digit_dot_run_nonneg (g : string) (v : Q) :
  all_chars Re.cls_digit_dot g = true ->
  float_of_string g = Ok v -> (0 <= v)%Q.
Proof.
  intros Hall. destruct (digit_dot_run_plain g Hall) as [Hstrip Hsign].
  apply float_of_string_nonneg. rewrite Hstrip. exact Hsign.
Qed.

Lemma span_all_chars (p : ascii -> bool) (s : string) :
  all_chars p (fst (span p s)) = true.
Proof.
  induction s as [| c r IH]; simpl; [reflexivity |].
  destruct (p c) eqn:E; [| reflexivity].
  destruct (span p r) as [g r']. simpl in *. rewrite E, IH. reflexivity.
Qed.

(** The group of a match consists of characters of the class. *)
Lemma search_group_all_chars (key : string) (cls : ascii -> bool) (s g : string) :
  Re.search_group key cls s = Some g -> all_chars cls g = true /\ g <> "".
Proof.
  induction s as [| c r IH]; simpl.
  - unfold Re.match_group_at.
    destruct (strip_prefix (key ++ "[") "") as [r0 |]; [| discriminate].
    pose proof (span_all_chars cls r0) as Hall.
    destruct (span cls r0) as [g0 rest]. simpl in Hall.
    destruct g0; [discriminate |].
    destruct rest as [| c0 rest]; [discriminate |].
    destruct (ascii_eqb c0 "]"); [| discriminate].
    intros E; injection E as <-. split; [exact Hall | discriminate].
  - unfold Re.match_group_at at 1.
    destruct (strip_prefix (key ++ "[") (String c r)) as [r0 |]; [| exact IH].
    pose proof (span_all_chars cls r0) as Hall.
    destruct (span cls r0) as [g0 rest]. simpl in Hall.
    destruct g0; [exact IH |].
    destruct rest as [| c0 rest]; [exact IH |].
    destruct (ascii_eqb c0 "]"); [| exact IH].
    intros E; injection E as <-. split; [exact Hall | discriminate].
Qed.

End Digits.

(** ** Bounds of the decoded hardware metrics *)

Section MetricBounds.
Import PyStr PyNum AvalonParse.

Lemma int_of_digit_run_nonneg (g : string) (v : Z) :
  all_chars Re.cls_digit_dot g = true ->
  int_of_string g = Ok v -> (0 <= v)%Z.
Proof.
  intros Hall. destruct (digit_dot_run_plain g Hall) as [Hstrip Hsign].
  unfold int_of_string. rewrite Hstrip.
  destruct (sign_of g) as [sg s1]. cbn [fst] in Hsign. subst sg.
  pose proof (digitpart_nonneg s1) as Hds.
  destruct (digitpart s1) as [ds r]. cbn [fst] in Hds.
  destruct ds as [| d ds]; [discriminate |].
  destruct r; [| discriminate].
  intros E; injection E as <-. rewrite Z.mul_1_l.
  apply Z_of_digits_nonneg. exact Hds.
Qed.

Lemma digit_run_is_digit_dot_run (g : string) :
  all_chars Re.cls_digit g = true -> all_chars Re.cls_digit_dot g = true.
Proof.
  apply all_chars_impl. intros c Hc. unfold Re.cls_digit_dot.
  unfold Re.cls_digit in Hc. rewrite Hc. reflexivity.
Qed.

(** The value of a group of digits (and dots), or the 0.0 of the handler. *)
Lemma caught_float_nonneg (g : string) (kinds : list exn_kind) :
  all_chars Re.cls_digit_dot g = true ->
  existsb (exn_kind_eqb ValueError) kinds = true ->
  exists v, try_except (float_of_string g) kinds (Ok 0%Q) = Ok v /\ (0 <= v)%Q.
Proof.
  intros Hall Hk.
  pose proof (float_of_digit_dot_run_nonneg g) as Hpos.
  pose proof (float_of_string_value_error g) as Herr.
  destruct (float_of_string g) as [v | e]; unfold try_except.
  - exists v. split; [reflexivity | apply Hpos; auto].
  - rewrite Herr, Hk. exists 0%Q. split; [reflexivity | apply Qle_refl].
Qed.

Lemma zero_in_range : exists v : Q, Ok 0%Q = Ok v /\ (0 <= v)%Q.
Proof. exists 0%Q. split; [reflexivity | apply Qle_refl]. Qed.

Lemma memory_percent_range (free_kb : Q) :
  (0 <= free_kb)%Q ->
  let used := max0 (fmul (fdiv (fsub (inject_Z (128 * 1024)) free_kb)
                               (inject_Z (128 * 1024))) 100) in
  (0 <= used)%Q /\ (used <= 100)%Q.
Proof.
  intros Hfree. cbv zeta. unfold max0.
  destruct (flt 0 _) eqn:E.
  - apply flt_true in E. split; [apply Qlt_le_weak; exact E |].
    unfold fmul, fdiv, fsub. repeat setoid_rewrite Qred_correct.
    change (inject_Z (128 * 1024)) with 131072%Q.
    assert (H : ((131072 - free_kb) / 131072 * 100 == 100 - free_kb * (100 / 131072))%Q)
      by field.
    rewrite H.
    assert (0 <= free_kb * (100 / 131072))%Q.
    { apply Qmult_le_0_compat; [exact Hfree | discriminate]. }
    lra.
  - split; [apply Qle_refl | discriminate].
Qed.

(** X4.  Whatever the dictionary holds, the decoded temperature, fan speed
    and frequency are never negative (so the sentinel -273 of an absent
    sensor never becomes the temperature), and the decoded memory usage is
    a percentage between 0 and 100. *)
Theorem decoded_metrics_are_in_range (stats_info : dict) :
  (exists v, _parse_temperature_from_stats stats_info = Ok v /\ (0 <= v)%Q) /\
  (exists v, _parse_fan_speed_from_stats stats_info = Ok v /\ (0 <= v)%Z) /\
  (exists v, _parse_frequency_from_stats stats_info = Ok v /\ (0 <= v)%Q) /\
  (exists v, _parse_memory_usage_from_stats stats_info = Ok v /\
             (0 <= v)%Q /\ (v <= 100)%Q).
Proof.
  split; [| split; [| split]].
  - unfold _parse_temperature_from_stats.
    destruct (Py.get_default stats_info "MM ID0" (VStr "")) as [| b | z | q | mm];
      try apply zero_in_range.
    cbn [Re.search rbind].
    assert (Htavg :
              exists v,
                try_except
                  match Re.search_group "TAvg" Re.cls_digit mm with
                  | Some g' => float_of_string g'
                  | None => Ok 0%Q
                  end [ValueError; TypeError] (Ok 0%Q) = Ok v /\ (0 <= v)%Q).
    { destruct (Re.search_group "TAvg" Re.cls_digit mm) as [g' |] eqn:E2;
        [| apply zero_in_range].
      apply caught_float_nonneg; [| reflexivity].
      apply digit_run_is_digit_dot_run.
      apply (search_group_all_chars _ _ _ _ E2). }
    destruct (Re.search_group "OTemp" Re.cls_digit mm) as [g |] eqn:E1;
      [| exact Htavg].
    destruct (negb (String.eqb g "-273")); [| exact Htavg].
    apply caught_float_nonneg; [| reflexivity].
    apply digit_run_is_digit_dot_run.
    apply (search_group_all_chars _ _ _ _ E1).
  - unfold _parse_fan_speed_from_stats.
    destruct (Py.get_default stats_info "MM ID0" (VStr "")) as [| b | z | q | mm];
      try (exists 0%Z; split; [reflexivity | lia]).
    cbn [Re.search rbind].
    destruct (Re.search_group "Fan1" Re.cls_digit mm) as [g |] eqn:E1;
      [| exists 0%Z; split; [reflexivity | lia]].
    pose proof (int_of_digit_run_nonneg g) as Hpos.
    pose proof (int_of_string_value_error g) as Herr.
    destruct (int_of_string g) as [v | e]; unfold try_except.
    + exists v. split; [reflexivity |]. apply Hpos; [| reflexivity].
      apply digit_run_is_digit_dot_run.
      apply (search_group_all_chars _ _ _ _ E1).
    + rewrite Herr. exists 0%Z. split; [reflexivity | lia].
  - unfold _parse_frequency_from_stats.
    destruct (Py.get_default stats_info "MM ID0" (VStr "")) as [| b | z | q | mm];
      try apply zero_in_range.
    cbn [Re.search rbind].
    destruct (Re.search_group "Freq" Re.cls_digit_dot mm) as [g |] eqn:E1;
      [| apply zero_in_range].
    apply caught_float_nonneg; [| reflexivity].
    apply (search_group_all_chars _ _ _ _ E1).
  - unfold _parse_memory_usage_from_stats.
    assert (Hzero : exists v : Q, Ok 0%Q = Ok v /\ (0 <= v)%Q /\ (v <= 100)%Q).
    { exists 0%Q. split; [reflexivity |]. split; discriminate. }
    destruct (Py.get_default stats_info "MM ID0" (VStr "")) as [| b | z | q | mm];
      try exact Hzero.
    cbn [Re.search rbind].
    destruct (Re.search_group "MEMFREE" Re.cls_digit mm) as [g |] eqn:E1;
      [| exact Hzero].
    pose proof (float_of_digit_dot_run_nonneg g) as Hpos.
    pose proof (float_of_string_value_error g) as Herr.
    destruct (float_of_string g) as [free_kb | e]; unfold try_except; cbn [rbind].
    + eexists. split; [reflexivity |].
      apply memory_percent_range. apply Hpos; [| reflexivity].
      apply digit_run_is_digit_dot_run.
      apply (search_group_all_chars _ _ _ _ E1).
    + rewrite Herr. exact Hzero.
Qed.

End MetricBounds.

(** ** When the difficulty parser raises *)

Section DifficultyRaises.
Import PyStr PyNum BitAxeParse.

Lemma span_append (p : ascii -> bool) (s : string) :
  s = (fst (span p s) ++ snd (span p s))%string.
Proof.
  induction s as [| c r IH]; simpl; [reflexivity |].
  destruct (p c); [| reflexivity].
  destruct (span p r) as [g r']. cbn [fst snd] in *.
  change (String c r = String c (g ++ r')%string). f_equal. exact IH.
Qed.

Lemma span_rest (p : ascii -> bool) (s : string) :
  match snd (span p s) with
  | String c _ => p c = false
  | EmptyString => True
  end.
Proof.
  induction s as [| c r IH]; simpl; [exact I |].
  destruct (p c) eqn:E; [| simpl; exact E].
  destruct (span p r) as [g r']. simpl in *. exact IH.
Qed.

Lemma all_chars_app (p : ascii -> bool) (a b : string) :
  all_chars p (a ++ b) = all_chars p a && all_chars p b.
Proof.
  induction a as [| c a IH]; simpl; [reflexivity |].
  rewrite IH, andb_assoc. reflexivity.
Qed.

Lemma count_chars_app (p : ascii -> bool) (a b : string) :
  count_chars p (a ++ b) = (count_chars p a + count_chars p b)%nat.
Proof.
  induction a as [| c a IH]; simpl; [reflexivity |]. rewrite IH. lia.
Qed.

Lemma any_char_app (p : ascii -> bool) (a b : string) :
  any_char p (a ++ b) = any_char p a || any_char p b.
Proof.
  induction a as [| c a IH]; simpl; [reflexivity |].
  rewrite IH, orb_assoc. reflexivity.
Qed.

Lemma digit_run_no_dot (a : string) :
  all_chars is_digit a = true ->
  count_chars (fun c => ascii_eqb c ".") a = 0%nat /\
  any_char is_digit a = negb (String.eqb a "").
Proof.
  induction a as [| c a IH]; simpl; [split; reflexivity |].
  rewrite andb_true_iff. intros [Hc Ha].
  destruct (digit_is_plain c Hc) as (_ & _ & _ & Hdot & _).
  rewrite Hdot, Hc. split; [apply IH; exact Ha | reflexivity].
Qed.

(** On a run of digits and dots the digits are read up to the first dot. *)
Lemma digits_tail_of_run (s : string) :
  all_chars Re.cls_digit_dot s = true ->
  snd (digits_tail s) = snd (span is_digit s).
Proof.
  induction s as [| c r IH]; simpl; [reflexivity |].
  rewrite andb_true_iff. intros [Hc Hr].
  destruct (is_digit c) eqn:Ed.
  - specialize (IH Hr).
    destruct (digits_tail r) as [ds r1]. destruct (span is_digit r) as [g r2].
    simpl in *. exact IH.
  - destruct (digit_dot_is_plain c Hc) as (_ & _ & _ & Hus).
    rewrite Hus. reflexivity.
Qed.

Lemma digitpart_of_run (s : string) :
  all_chars Re.cls_digit_dot s = true ->
  snd (digitpart s) = snd (span is_digit s) /\
  (fst (digitpart s) = [] <-> fst (span is_digit s) = "").
Proof.
  destruct s as [| c r]; simpl; [intros _; split; [reflexivity | tauto] |].
  rewrite andb_true_iff. intros [Hc Hr].
  destruct (is_digit c) eqn:Ed.
  - pose proof (digits_tail_of_run r Hr) as Ht.
    destruct (digits_tail r) as [ds r1]. destruct (span is_digit r) as [g r2].
    simpl in *. split; [exact Ht |]. split; discriminate.
  - simpl. split; [reflexivity | tauto].
Qed.

(** The rest of a run of digits and dots after its leading digits: nothing,
    or a dot and a run of digits and dots. *)
Lemma run_after_digits (s : string) :
  all_chars Re.cls_digit_dot s = true ->
  match snd (span is_digit s) with
  | EmptyString => True
  | String c r => ascii_eqb c "." = true /\ all_chars Re.cls_digit_dot r = true
  end.
Proof.
  intros Hall.
  pose proof (span_rest is_digit s) as Hrest.
  pose proof (span_append is_digit s) as Happ.
  rewrite Happ, all_chars_app in Hall. apply andb_true_iff in Hall.
  destruct Hall as [_ Hall].
  destruct (snd (span is_digit s)) as [| c r]; [exact I |].
  simpl in Hall. apply andb_true_iff in Hall. destruct Hall as [Hc Hr].
  unfold Re.cls_digit_dot in Hc. rewrite Hrest in Hc. simpl in Hc. auto.
Qed.

Lemma exponent_of_run (s : string) :
  all_chars Re.cls_digit_dot s = true -> exponent s = Some (0%Z, s).
Proof.
  destruct s as [| c r]; simpl; [reflexivity |].
  rewrite andb_true_iff. intros [Hc _].
  assert (He : ascii_eqb c "e" || ascii_eqb c "E" = false).
  { unfold Re.cls_digit_dot in Hc. apply orb_true_iff in Hc.
    destruct Hc as [Hc | Hc].
    - apply is_digit_range in Hc. apply orb_false_iff.
      split; unfold ascii_eqb; apply Ascii.eqb_neq; intros ->;
        destruct Hc as [_ Hc]; revert Hc; apply N.lt_nge; reflexivity.
    - unfold ascii_eqb in Hc. apply Ascii.eqb_eq in Hc. subst c. reflexivity. }
  rewrite He. reflexivity.
Qed.

(** On a text of digits and dots, [float] returns exactly when there is at
    most one dot and at least one digit. *)
Lemma float_of_run_ok (g : string) :
  all_chars Re.cls_digit_dot g = true ->
  is_ok (float_of_string g) = one_dot_number g.
Proof.
  intros Hall.
  destruct (digit_dot_run_plain g Hall) as [Hstrip Hsign].
  assert (Hsg : sign_of g = (1%Z, g)).
  { destruct g as [| c r]; [reflexivity |].
    simpl in Hall. apply andb_true_iff in Hall. destruct Hall as [Hc _].
    destruct (digit_dot_is_plain c Hc) as (_ & Hp & Hm & _).
    simpl. rewrite Hp, Hm. reflexivity. }
  unfold float_of_string. rewrite Hstrip, Hsg.
  destruct (digitpart_of_run g Hall) as [Hs2 Hip].
  pose proof (run_after_digits g Hall) as Hrest.
  pose proof (span_append is_digit g) as Happ.
  pose proof (span_all_chars is_digit g) as Ha.
  destruct (digitpart g) as [ip s2]. cbn [fst snd] in Hs2, Hip. subst s2.
  destruct (span is_digit g) as [a r1]. cbn [fst snd] in *.
  destruct (digit_run_no_dot a Ha) as [Hca Haa].
  unfold one_dot_number. rewrite Happ, count_chars_app, any_char_app, Hca, Haa.
  destruct r1 as [| c r].
  - (* no dot at all *)
    cbn [count_chars any_char Nat.add Nat.leb andb orb exponent].
    rewrite orb_false_r.
    destruct ip as [| d ip].
    + assert (a = "") by (apply Hip; reflexivity). subst a. reflexivity.
    + destruct a; [| reflexivity].
      assert (d :: ip = []) by (apply Hip; reflexivity). discriminate.
  - destruct Hrest as [Hc Hr].
    assert (Hsep : match r with
                   | String c2 _ => ascii_eqb c "." && ascii_eqb c2 "_"
                   | EmptyString => false
                   end = false).
    { destruct r as [| c2 r']; [reflexivity |].
      simpl in Hr. apply andb_true_iff in Hr. destruct Hr as [Hc2 _].
      destruct (digit_dot_is_plain c2 Hc2) as (_ & _ & _ & Hus).
      rewrite Hus. apply andb_false_r. }
    assert (Hdig : is_digit c = false).
    { destruct (dot_is_plain c Hc) as (_ & _ & _ & Hd & _). exact Hd. }
    cbn [count_chars any_char]. rewrite Hsep, Hc, Hdig. cbn [orb].
    destruct (digitpart_of_run r Hr) as [Hs3 Hfp].
    pose proof (run_after_digits r Hr) as Hrest2.
    pose proof (span_append is_digit r) as Happ2.
    pose proof (span_all_chars is_digit r) as Hb.
    destruct (digitpart r) as [fp s3]. cbn [fst snd] in Hs3, Hfp. subst s3.
    destruct (span is_digit r) as [b r2]. cbn [fst snd] in *.
    destruct (digit_run_no_dot b Hb) as [Hcb Hbb].
    rewrite Happ2, count_chars_app, any_char_app, Hcb, Hbb.
    destruct r2 as [| c3 r3].
    + (* digits, dot, digits *)
      cbn [count_chars any_char Nat.add Nat.leb andb exponent].
      rewrite orb_false_r.
      destruct ip as [| d ip], fp as [| f fp].
      * assert (a = "") by (apply Hip; reflexivity).
        assert (b = "") by (apply Hfp; reflexivity). subst a b. reflexivity.
      * destruct b; [assert (f :: fp = []) by (apply Hfp; reflexivity); discriminate |].
        cbn. rewrite orb_true_r. reflexivity.
      * destruct a; [assert (d :: ip = []) by (apply Hip; reflexivity); discriminate |].
        reflexivity.
      * destruct a; [assert (d :: ip = []) by (apply Hip; reflexivity); discriminate |].
        reflexivity.
    + (* a second dot *)
      destruct Hrest2 as [Hc3 Hr3].
      rewrite (exponent_of_run (String c3 r3))
        by (simpl; unfold Re.cls_digit_dot at 1; rewrite Hc3, orb_true_r; exact Hr3).
      cbn [count_chars]. rewrite Hc3.
      assert (Hcount : (0 + (1 + (0 + (1 + count_chars (fun c => ascii_eqb c ".") r3)))
                        <=? 1)%nat = false) by (apply Nat.leb_gt; lia).
      rewrite Hcount. cbn [andb].
      destruct ip, fp; reflexivity.
Qed.

End DifficultyRaises.

Section DifficultyBehaviour.
Import PyStr PyNum BitAxeParse.

Lemma multiplier_pos (unit : option ascii) : (0 < multiplier unit)%Q.
Proof.
  unfold multiplier. destruct unit as [c |]; [| reflexivity].
  repeat match goal with |- context [if ?b then _ else _] => destruct b end;
    reflexivity.
Qed.

(** X5. [_parse_difficulty] looks only at the leading run of digits and
    dots of a text.  With an empty run, or a run that has at most one dot
    and at least one digit, it returns a value that is not negative; with
    any other run (two dots or more, or dots alone) it raises
    [ValueError], whatever follows the run. *)
Theorem parse_difficulty_returns_or_raises (s : string) :
  let g := fst (span Re.cls_digit_dot s) in
  if String.eqb g "" || one_dot_number g
  then exists v, _parse_difficulty (VStr s) = Ok v /\ (0 <= v)%Q
  else exists e, _parse_difficulty (VStr s) = Raise e /\ exn_type e = ValueError.
Proof.
  cbv zeta. unfold _parse_difficulty. cbn [Py.truthy Py.str].
  destruct s as [| c0 s0].
  { cbn. exists 0%Q. split; [reflexivity | apply Qle_refl]. }
  cbn [String.eqb negb]. unfold Re.match_difficulty.
  pose proof (span_all_chars Re.cls_digit_dot (String c0 s0)) as Hall.
  destruct (span Re.cls_digit_dot (String c0 s0)) as [g r]. cbn [fst] in *.
  destruct g as [| c g].
  { cbn. exists 0%Q. split; [reflexivity | apply Qle_refl]. }
  cbn [String.eqb orb].
  rewrite <- (float_of_run_ok _ Hall).
  pose proof (float_of_digit_dot_run_nonneg (String c g)) as Hpos.
  pose proof (float_of_string_value_error (String c g)) as Herr.
  set (unit := match snd (span is_space r) with
               | String u _ => if Re.is_unit u then Some u else None
               | EmptyString => None
               end).
  assert (Hm : match snd (span is_space r) with
               | String u _ =>
                   if Re.is_unit u then Some (String c g, Some u)
                   else Some (String c g, None)
               | EmptyString => Some (String c g, None)
               end = Some (String c g, unit)).
  { unfold unit. destruct (snd (span is_space r)) as [| u ?]; [reflexivity |].
    destruct (Re.is_unit u); reflexivity. }
  rewrite Hm.
  destruct (float_of_string (String c g)) as [v | e]; cbn [is_ok rbind].
  - exists (fmul v (multiplier unit)). split; [reflexivity |].
    unfold fmul. rewrite Qred_correct.
    apply Qmult_le_0_compat; [apply Hpos; [exact Hall | reflexivity] |].
    apply Qlt_le_weak, multiplier_pos.
  - exists e. split; [reflexivity | exact Herr].
Qed.

End DifficultyBehaviour.

(** ** Durations in the back-online alert *)

Section Durations.
Import PyStr Format.

Lemma string_of_uint_digits (d : Decimal.uint) :
  all_chars is_digit (DecimalString.NilEmpty.string_of_uint d) = true.
Proof. induction d; simpl; try rewrite IHd; reflexivity. Qed.

Lemma str_of_Z_digits (z : Z) :
  (0 <= z)%Z -> all_chars is_digit (Py.str_of_Z z) = true.
Proof.
  intros Hz. unfold Py.str_of_Z.
  destruct z as [| p | p]; [reflexivity | | lia].
  simpl. unfold DecimalString.NilZero.string_of_uint.
  pose proof (string_of_uint_digits (Pos.to_uint p)) as H.
  destruct (Pos.to_uint p); [reflexivity | exact H ..].
Qed.

Lemma str_of_Z_inj (a b : Z) : Py.str_of_Z a = Py.str_of_Z b -> a = b.
Proof.
  unfold Py.str_of_Z. intros H.
  assert (Hnorm : forall z, Z.to_int z <> Decimal.Pos Decimal.Nil /\
                            Z.to_int z <> Decimal.Neg Decimal.Nil).
  { intros [| p | p]; simpl; split; try discriminate;
      intros E; injection E as E; exact (DecimalPos.Unsigned.to_uint_nonnil p E). }
  apply DecimalZ.to_int_inj.
  assert (E : Some (Z.to_int a) = Some (Z.to_int b)).
  { rewrite <- (DecimalString.NilZero.isi (Z.to_int a)) by apply Hnorm.
    rewrite <- (DecimalString.NilZero.isi (Z.to_int b)) by apply Hnorm.
    rewrite H. reflexivity. }
  injection E as E. exact E.
Qed.

Lemma append_cons (c : ascii) (x y : string) :
  (String c x ++ y)%string = String c (x ++ y)%string.
Proof. reflexivity. Qed.

Lemma append_empty (y : string) : ("" ++ y)%string = y.
Proof. reflexivity. Qed.

(** Two runs of digits, each followed by a character that is no digit,
    are read apart in one way only. *)
Lemma digits_then_mark (a b : string) (c d : ascii) (x y : string) :
  all_chars is_digit a = true -> all_chars is_digit b = true ->
  is_digit c = false -> is_digit d = false ->
  (a ++ String c x)%string = (b ++ String d y)%string ->
  a = b /\ c = d /\ x = y.
Proof.
  intros Ha Hb Hc Hd. revert b Hb.
  induction a as [| a0 a IH]; intros [| b0 b] Hb E; simpl in *.
  - injection E as -> ->. auto.
  - injection E as -> _. apply andb_true_iff in Hb. destruct Hb as [Hb _].
    rewrite Hb in Hc. discriminate.
  - injection E as -> _. apply andb_true_iff in Ha. destruct Ha as [Ha _].
    rewrite Ha in Hd. discriminate.
  - injection E as -> E.
    apply andb_true_iff in Ha. destruct Ha as [_ Ha].
    apply andb_true_iff in Hb. destruct Hb as [_ Hb].
    destruct (IH Ha b Hb E) as (-> & -> & ->). auto.
Qed.

(** X6. For durations that are not negative, [_format_duration] loses
    nothing: two durations with the same text are the same number of
    seconds. *)
Theorem format_duration_injective (a b : Z) :
  (0 <= a)%Z -> (0 <= b)%Z ->
  _format_duration a = _format_duration b -> a = b.
Proof.
  intros Ha Hb. unfold _format_duration. cbv zeta.
  pose proof (Z.div_pos a 3600 Ha ltac:(lia)) as Hah.
  pose proof (Z.div_pos b 3600 Hb ltac:(lia)) as Hbh.
  pose proof (Z.mod_pos_bound a 3600 ltac:(lia)) as Har.
  pose proof (Z.mod_pos_bound b 3600 ltac:(lia)) as Hbr.
  pose proof (Z.div_pos (a mod 3600) 60 ltac:(lia) ltac:(lia)) as Ham.
  pose proof (Z.div_pos (b mod 3600) 60 ltac:(lia) ltac:(lia)) as Hbm.
  pose proof (Z.mod_pos_bound a 60 ltac:(lia)) as Has.
  pose proof (Z.mod_pos_bound b 60 ltac:(lia)) as Hbs.
  pose proof (str_of_Z_digits _ Hah) as Dah.
  pose proof (str_of_Z_digits _ Hbh) as Dbh.
  pose proof (str_of_Z_digits _ Ham) as Dam.
  pose proof (str_of_Z_digits _ Hbm) as Dbm.
  pose proof (str_of_Z_digits (a mod 60) ltac:(lia)) as Das.
  pose proof (str_of_Z_digits (b mod 60) ltac:(lia)) as Dbs.
  assert (Hparts : forall t : Z,
             t = (3600 * (t / 3600) + 60 * ((t mod 3600) / 60) + t mod 60)%Z).
  { intros t.
    pose proof (Z.div_mod t 3600 ltac:(lia)).
    pose proof (Z.div_mod (t mod 3600) 60 ltac:(lia)).
    assert ((t mod 3600) mod 60 = t mod 60)%Z.
    { symmetry. rewrite (Z.div_mod t 3600) at 1 by lia.
      rewrite Z.add_comm, Z.mul_comm.
      replace (t / 3600 * 3600)%Z with ((t / 3600 * 60) * 60)%Z by lia.
      apply Z.mod_add. lia. }
    lia. }
  assert (Hmark : forall c, In c ["h"; "m"; "s"]%char -> is_digit c = false).
  { intros c [<- | [<- | [<- | []]]]; reflexivity. }
  pose proof (Hparts a) as Pa. pose proof (Hparts b) as Pb.
  destruct (0 <? a / 3600)%Z eqn:Eah, (0 <? b / 3600)%Z eqn:Ebh,
           (0 <? (a mod 3600) / 60)%Z eqn:Eam,
           (0 <? (b mod 3600) / 60)%Z eqn:Ebm;
    intros E; rewrite ?append_cons, ?append_empty in E;
    repeat match goal with
      | H : (?x ++ String ?c ?r)%string = (?y ++ String ?d ?r')%string |- _ =>
          apply digits_then_mark in H;
            [ destruct H as (? & ? & ?)
            | assumption | assumption | reflexivity | reflexivity ]
      | H : String ?c ?x = String ?c ?y |- _ =>
          let H' := fresh in
          assert (H' : x = y) by (injection H; intros; assumption); clear H
      | H : Py.str_of_Z _ = Py.str_of_Z _ |- _ => apply str_of_Z_inj in H
      | H : (_ <? _)%Z = false |- _ => apply Z.ltb_ge in H
      end;
    try discriminate; lia.
Qed.

Lemma format_duration_injective_witness :
  (0 <= 3725)%Z /\ (0 <= 3725)%Z /\
  _format_duration 3725 = "1h 2m 5s" /\ 3725%Z = 3725%Z.
Proof.
  split; [lia |]. split; [lia |]. split; [reflexivity |].
  apply (format_duration_injective 3725 3725); [lia | lia | reflexivity].
Defined.

(** X7. A negative duration (a last contact later than the current time)
    never shows hours: it is rendered like its remainder modulo one hour,
    so one second before the last contact reads as 59 minutes 59 seconds. *)
Theorem format_duration_negative_wraps (t : Z) :
  (t < 0)%Z ->
  _format_duration t = _format_duration (t mod 3600) /\
  (0 <= t mod 3600 < 3600)%Z.
Proof.
  intros Ht.
  pose proof (Z.mod_pos_bound t 3600 ltac:(lia)) as Hr.
  split; [| exact Hr].
  unfold _format_duration. cbv zeta.
  assert (Hh : (0 <? t / 3600)%Z = false).
  { apply Z.ltb_ge. pose proof (Z.div_lt_upper_bound t 3600 0 ltac:(lia) ltac:(lia)). lia. }
  assert (Hh' : (0 <? (t mod 3600) / 3600)%Z = false).
  { rewrite Z.div_small by exact Hr. reflexivity. }
  rewrite Hh, Hh'.
  rewrite (Z.mod_small (t mod 3600) 3600) by exact Hr.
  assert (Es : ((t mod 3600) mod 60 = t mod 60)%Z).
  { symmetry. rewrite (Z.div_mod t 3600) at 1 by lia.
    rewrite Z.add_comm, Z.mul_comm.
    replace (t / 3600 * 3600)%Z with ((t / 3600 * 60) * 60)%Z by lia.
    apply Z.mod_add. lia. }
  rewrite Es. reflexivity.
Qed.

Lemma format_duration_negative_wraps_witness :
  _format_duration (-1) = "59m 59s" /\
  _format_duration (-1) = _format_duration ((-1) mod 3600).
Proof.
  split; [reflexivity |].
  apply (format_duration_negative_wraps (-1)). lia.
Defined.

End Durations.

(** ** One poll is one transaction *)

Section Transaction.
Variable net : network.
Import Sql.
Local Open Scope M_scope.

Lemma keeps_weaken (R R' : world -> world -> Prop) {A} (c : M A) :
  (forall a b, R a b -> R' a b) -> keeps R c -> keeps R' c.
Proof. intros H Hc w. apply H, Hc. Qed.

Lemma same_database_same_samples (w w' : world) :
  same_database w w' -> same_samples w w'.
Proof. intros [_ H]. exact H. Qed.

Lemma update_device_status_keeps_samples
    (device_id device_ip : string) (is_online : bool) (error_message : string) :
  keeps same_samples
        (Collector.update_device_status device_id device_ip is_online error_message).
Proof.
  unfold Collector.update_device_status, notify.
  repeat keeps_step ltac:(same_leaf).
Qed.

Lemma request_keeps_samples (ip what : string) :
  keeps same_samples (Collector._api_request net ip what) /\
  keeps same_samples (Collector._socket_request net ip what).
Proof.
  unfold Collector._api_request, Collector._socket_request.
  split; repeat keeps_step ltac:(same_leaf).
Qed.

Lemma same_then_one (a b c : world) :
  same_samples a b -> one_sample_or_none b c -> one_sample_or_none a c.
Proof.
  intros (E1 & E2 & E3) [H | (r & h & s & H1 & H2 & H3)].
  - left. transitivity b; [repeat split; assumption | exact H].
  - right. exists r, h, s. rewrite H1, H2, H3, E1, E2, E3. auto.
Qed.

Lemma one_then_same (a b c : world) :
  one_sample_or_none a b -> same_samples b c -> one_sample_or_none a c.
Proof.
  intros [H | (r & h & s & H1 & H2 & H3)] (E1 & E2 & E3).
  - left. transitivity b; [exact H | repeat split; assumption].
  - right. exists r, h, s. rewrite E1, E2, E3. auto.
Qed.

Lemma one_sample_or_none_refl (w : world) : one_sample_or_none w w.
Proof. left. reflexivity. Qed.

(** A step that stores nothing, before a computation that is one
    transaction. *)
Lemma transaction_after {A B} (c : M A) (k : A -> M B) :
  keeps same_samples c -> (forall a, keeps one_sample_or_none (k a)) ->
  keeps one_sample_or_none (mbind c k).
Proof.
  intros Hc Hk w. unfold mbind. specialize (Hc w).
  destruct (c w) as [w1 [a | e]]; cbn [fst] in *.
  - apply (same_then_one _ w1); [exact Hc | apply Hk].
  - left. exact Hc.
Qed.

(** A pure step: the rest runs only when it returns. *)
Lemma transaction_after_lift {A B} (r : res A) (k : A -> M B) :
  (forall a, r = Ok a -> keeps one_sample_or_none (k a)) ->
  keeps one_sample_or_none (mbind (lift r) k).
Proof.
  intros Hk w. unfold mbind, lift.
  destruct r as [a | e]; [apply (Hk a eq_refl) | apply one_sample_or_none_refl].
Qed.

Lemma transaction_handled {A} (c : M A) (h : exn -> M A) :
  keeps one_sample_or_none c -> (forall e, keeps same_samples (h e)) ->
  keeps one_sample_or_none (mtry c h).
Proof.
  intros Hc Hh w. unfold mtry. specialize (Hc w).
  destruct (c w) as [w1 [a | e]]; cbn [fst] in *; [exact Hc |].
  apply (one_then_same _ w1); [exact Hc | apply Hh].
Qed.

(** The commit of a connection that holds one row for each table. *)
Lemma transaction_commit (conn : connection) (post : M unit)
    (r : mining_row) (h s : list pyval) :
  c_mining conn = [r] -> c_hardware conn = [h] -> c_system_info conn = [s] ->
  keeps same_samples post ->
  keeps one_sample_or_none (commit conn ;;; post).
Proof.
  intros Hr Hh Hs Hpost w. unfold mbind, commit, modify.
  apply (one_then_same _ (set_tables (mining_stats w ++ c_mining conn)
                                     (hardware_logs w ++ c_hardware conn)
                                     (system_info w ++ c_system_info conn) w));
    [| apply Hpost].
  right. exists r, h, s. rewrite Hr, Hh, Hs. repeat split.
Qed.

Lemma insert_mining_stats_adds conn device_db_id recorded_at hashrate others best conn' :
  insert_mining_stats conn device_db_id recorded_at hashrate others best = Ok conn' ->
  (exists r, c_mining conn' = (c_mining conn ++ [r])%list) /\
  c_hardware conn' = c_hardware conn /\ c_system_info conn' = c_system_info conn.
Proof.
  unfold insert_mining_stats.
  destruct (key_column device_db_id) as [dev |]; [| discriminate].
  destruct (float_column hashrate) as [hr |]; [| discriminate].
  destruct (check_not_null _ others) as [[] |]; [| discriminate].
  cbn. intros [= <-]. cbn. eauto.
Qed.

Lemma insert_hardware_log_adds conn not_null params conn' :
  insert_hardware_log conn not_null params = Ok conn' ->
  c_mining conn' = c_mining conn /\
  c_hardware conn' = (c_hardware conn ++ [params])%list /\
  c_system_info conn' = c_system_info conn.
Proof.
  unfold insert_hardware_log.
  destruct (check_not_null not_null params) as [[] |]; [| discriminate].
  cbn. intros [= <-]. cbn. auto.
Qed.

Lemma insert_system_info_adds conn not_null params conn' :
  insert_system_info conn not_null params = Ok conn' ->
  c_mining conn' = c_mining conn /\
  c_hardware conn' = c_hardware conn /\
  c_system_info conn' = (c_system_info conn ++ [params])%list.
Proof.
  unfold insert_system_info.
  destruct (check_not_null not_null params) as [[] |]; [| discriminate].
  cbn. intros [= <-]. cbn. auto.
Qed.

Ltac stores_nothing :=
  first [ apply update_device_status_keeps_samples
        | apply (proj1 (request_keeps_samples _ _))
        | apply (proj2 (request_keeps_samples _ _))
        | apply (keeps_weaken same_database);
            [ exact same_database_same_samples
            | first [ apply check_hashrate_stagnation_keeps_database
                    | apply check_best_difficulty_improvement_keeps_database ] ]
        | solve [ repeat keeps_step ltac:(same_leaf) ] ].

Ltac committed_row :=
  repeat match goal with
         | H : c_mining _ = _ |- _ => rewrite H
         | H : c_hardware _ = _ |- _ => rewrite H
         | H : c_system_info _ = _ |- _ => rewrite H
         end;
  reflexivity.

Ltac transaction_step :=
  first [ apply transaction_after_lift; intros ? ?
        | apply transaction_after; [ stores_nothing | intros ? ]
        | progress cbv zeta ].

(** X8. One poll is one transaction: whatever the device answers and
    whatever fails, [collect_device_data] of either collector leaves the
    three tables of samples as they were, or adds exactly one row to each
    of them; a poll never stores a part of a sample. *)
Theorem collect_device_data_stores_all_or_nothing
    (device_id device_ip : string) (w : world) :
  one_sample_or_none w (fst (BitAxeCollector.collect_device_data net device_id device_ip w)) /\
  one_sample_or_none w (fst (AvalonCollector.collect_device_data net device_id device_ip w)).
Proof.
  split.
  - revert w. change (keeps one_sample_or_none
                        (BitAxeCollector.collect_device_data net device_id device_ip)).
    unfold BitAxeCollector.collect_device_data.
    apply transaction_handled; [| intros e; stores_nothing].
    unfold BitAxeCollector.collect_body, BitAxeCollector.update_device_status,
      BitAxeCollector.check_hashrate_stagnation,
      BitAxeCollector.check_best_difficulty_improvement.
    repeat transaction_step.
    repeat match goal with
           | H : insert_mining_stats _ _ _ _ _ _ = Ok _ |- _ =>
               apply insert_mining_stats_adds in H; destruct H as ((? & ?) & ? & ?)
           | H : insert_hardware_log _ _ _ = Ok _ |- _ =>
               apply insert_hardware_log_adds in H; destruct H as (? & ? & ?)
           | H : insert_system_info _ _ _ = Ok _ |- _ =>
               apply insert_system_info_adds in H; destruct H as (? & ? & ?)
           end.
    cbn [fresh c_mining c_hardware c_system_info app] in *.
    eapply transaction_commit; [committed_row | committed_row | committed_row |].
    + apply (keeps_bind same_samples); [| intros ?]; stores_nothing.
  - revert w. change (keeps one_sample_or_none
                        (AvalonCollector.collect_device_data net device_id device_ip)).
    unfold AvalonCollector.collect_device_data.
    apply transaction_handled; [| intros e; stores_nothing].
    unfold AvalonCollector.collect_body, AvalonCollector.update_device_status,
      AvalonCollector.check_hashrate_stagnation,
      AvalonCollector.check_best_difficulty_improvement.
    repeat transaction_step.
    repeat match goal with
           | H : insert_mining_stats _ _ _ _ _ _ = Ok _ |- _ =>
               apply insert_mining_stats_adds in H; destruct H as ((? & ?) & ? & ?)
           | H : insert_hardware_log _ _ _ = Ok _ |- _ =>
               apply insert_hardware_log_adds in H; destruct H as (? & ? & ?)
           | H : insert_system_info _ _ _ = Ok _ |- _ =>
               apply insert_system_info_adds in H; destruct H as (? & ? & ?)
           end.
    cbn [fresh c_mining c_hardware c_system_info app] in *.
    eapply transaction_commit; [committed_row | committed_row | committed_row |].
    + stores_nothing.
Qed.

End Transaction.

(** ** Polling a device that is not in the registry *)

Section Unregistered.
Variable net : network.
Variable device_id : string.
Import Sql.
Local Open Scope M_scope.

#[local] Instance untouched_while_unregistered_preorder :
  PreOrder (untouched_while_unregistered device_id).
Proof.
  split.
  - intros w _. repeat split.
  - intros a b c Hab Hbc Ha.
    destruct (Hab Ha) as ((Hd & H1 & H2 & H3) & H4 & H5).
    assert (Hb : select_device device_id b = None).
    { unfold select_device in *. rewrite Hd. exact Ha. }
    destruct (Hbc Hb) as ((Hd' & H1' & H2' & H3') & H4' & H5').
    repeat split; congruence.
Qed.

Ltac untouched_leaf := intros _; repeat split; reflexivity.

Lemma update_device_status_unregistered
    (device_ip : string) (is_online : bool) (error_message : string) :
  keeps (untouched_while_unregistered device_id)
        (Collector.update_device_status device_id device_ip is_online error_message).
Proof.
  intros w Hsel.
  unfold Collector.update_device_status, mbind, mtry, get_db_connection, gets, mret.
  destruct (connects w) as [| [|] cs]; simpl;
    try (change (select_device device_id (set_connects cs w))
           with (select_device device_id w));
    try rewrite Hsel; simpl; repeat split; reflexivity.
Qed.

(** Reading the registry row of the device finds none. *)
Lemma keeps_select_unregistered {B} (k : option device_row -> M B) :
  keeps (untouched_while_unregistered device_id) (k None) ->
  keeps (untouched_while_unregistered device_id)
        (mbind (gets (select_device device_id)) k).
Proof.
  intros Hk w Hsel. unfold mbind, gets. rewrite Hsel. apply Hk. exact Hsel.
Qed.

Lemma keeps_raised {A B} (R : world -> world -> Prop) `{!PreOrder R}
    (e : exn) (k : A -> M B) :
  keeps R (mbind (lift (Raise e)) k).
Proof. intros w. reflexivity. Qed.

Ltac unregistered_step :=
  first [ apply update_device_status_unregistered
        | apply keeps_select_unregistered
        | apply (keeps_raised (untouched_while_unregistered device_id))
        | keeps_step ltac:(untouched_leaf) ].

(** X9. Polling a device that has no row in the registry leaves no trace:
    the device is asked, but the insert of the sample is refused for its
    NULL [device_id], the status update finds no row, and so the registry,
    the three tables of samples, the alerts and the restarts are all as
    before, with either collector and whatever the device answers. *)
Theorem unregistered_device_poll_leaves_no_trace (device_ip : string) (w : world) :
  select_device device_id w = None ->
  untouched w (fst (BitAxeCollector.collect_device_data net device_id device_ip w)) /\
  untouched w (fst (AvalonCollector.collect_device_data net device_id device_ip w)).
Proof.
  intros Hsel. split.
  - revert w Hsel.
    change (keeps (untouched_while_unregistered device_id)
                  (BitAxeCollector.collect_device_data net device_id device_ip)).
    unfold BitAxeCollector.collect_device_data, BitAxeCollector.collect_body,
      BitAxeCollector.update_device_status, Collector._api_request.
    repeat unregistered_step.
  - revert w Hsel.
    change (keeps (untouched_while_unregistered device_id)
                  (AvalonCollector.collect_device_data net device_id device_ip)).
    unfold AvalonCollector.collect_device_data, AvalonCollector.collect_body,
      AvalonCollector.update_device_status, Collector._socket_request.
    repeat unregistered_step.
Qed.

End Unregistered.

Lemma unregistered_device_poll_leaves_no_trace_witness :
  Sql.select_device "ghost" one_device = None /\
  untouched one_device
    (fst (BitAxeCollector.collect_device_data answering_net "ghost" "10.0.0.99"
            one_device)).
Proof.
  split; [reflexivity |].
  apply (unregistered_device_poll_leaves_no_trace answering_net "ghost" "10.0.0.99"
           one_device).
  reflexivity.
Defined.

(** ** A collector keeps to the devices of its list *)

Section OnlyAbout.
Variable net : network.
Local Open Scope M_scope.

Lemma extended_within_refl {A} (P : A -> Prop) (l : list A) : extended_within P l l.
Proof. exists []. split; [symmetry; apply app_nil_r | constructor]. Qed.

Lemma extended_within_trans {A} (P : A -> Prop) (a b c : list A) :
  extended_within P a b -> extended_within P b c -> extended_within P a c.
Proof.
  intros (l1 & -> & H1) (l2 & -> & H2). exists (l1 ++ l2)%list.
  split; [symmetry; apply app_assoc | apply Forall_app; auto].
Qed.

Lemma extended_within_one {A} (P : A -> Prop) (l : list A) (x : A) :
  P x -> extended_within P l (l ++ [x])%list.
Proof. intros H. exists [x]. split; [reflexivity | repeat constructor; exact H]. Qed.

Lemma extended_within_weaken {A} (P P' : A -> Prop) (l l' : list A) :
  (forall x, P x -> P' x) -> extended_within P l l' -> extended_within P' l l'.
Proof.
  intros H (added & -> & Hall). exists added. split; [reflexivity |].
  induction Hall; constructor; auto.
Qed.

#[local] Instance only_about_preorder (ips ids : list string) :
  PreOrder (only_about ips ids).
Proof.
  split.
  - intros w. repeat split; apply extended_within_refl.
  - intros a b c (H1 & H2 & H3) (H1' & H2' & H3').
    repeat split; eapply extended_within_trans; eassumption.
Qed.

Lemma only_about_weaken (ips ids ips' ids' : list string) (w w' : world) :
  (forall ip, In ip ips -> In ip ips') -> (forall id, In id ids -> In id ids') ->
  only_about ips ids w w' -> only_about ips' ids' w w'.
Proof.
  intros Hips Hids (H1 & H2 & H3).
  split; [| split].
  - apply (extended_within_weaken _ _ _ _ Hips H1).
  - apply (extended_within_weaken _ _ _ _ Hips H2).
  - apply (extended_within_weaken (fun a => In (alert_device a) ids)); [| exact H3].
    intros a. apply Hids.
Qed.

Ltac about_leaf :=
  split; [| split]; cbn;
  first [ apply extended_within_refl
        | apply extended_within_one; cbn; left; reflexivity ].

Lemma update_device_status_only_about
    (device_id device_ip : string) (is_online : bool) (error_message : string) :
  keeps (only_about [device_ip] [device_id])
        (Collector.update_device_status device_id device_ip is_online error_message).
Proof.
  unfold Collector.update_device_status, notify.
  repeat keeps_step ltac:(about_leaf).
Qed.

Lemma collect_device_data_only_about (device_id device_ip : string) :
  keeps (only_about [device_ip] [device_id])
        (BitAxeCollector.collect_device_data net device_id device_ip) /\
  keeps (only_about [device_ip] [device_id])
        (AvalonCollector.collect_device_data net device_id device_ip).
Proof.
  split.
  - unfold BitAxeCollector.collect_device_data, BitAxeCollector.collect_body,
      BitAxeCollector.update_device_status,
      BitAxeCollector.check_hashrate_stagnation,
      BitAxeCollector.check_best_difficulty_improvement,
      Collector.check_hashrate_stagnation,
      Collector.check_best_difficulty_improvement, Collector.restart_device,
      Collector._api_request, Collector._socket_request, Sql.commit, notify.
    repeat first [ apply update_device_status_only_about
                 | keeps_step ltac:(about_leaf) ].
  - unfold AvalonCollector.collect_device_data, AvalonCollector.collect_body,
      AvalonCollector.update_device_status,
      AvalonCollector.check_hashrate_stagnation,
      AvalonCollector.check_best_difficulty_improvement,
      Collector.check_hashrate_stagnation,
      Collector.check_best_difficulty_improvement, Collector.restart_device,
      Collector._api_request, Collector._socket_request, Sql.commit, notify.
    repeat first [ apply update_device_status_only_about
                 | keeps_step ltac:(about_leaf) ].
Qed.

Lemma loop_only_about (step : string -> string -> M unit)
    (each : list device_entry -> M unit) :
  (forall ds w, each ds w
                = match ds with
                  | [] => mret tt w
                  | d :: rest =>
                      mbind (step (e_device_id d) (e_ip_address d))
                            (fun _ => each rest) w
                  end) ->
  (forall id ip, keeps (only_about [ip] [id]) (step id ip)) ->
  forall ds,
    keeps (only_about (map e_ip_address ds) (map e_device_id ds)) (each ds).
Proof.
  intros Heach Hstep ds.
  induction ds as [| d rest IH]; intros w; rewrite Heach.
  - reflexivity.
  - unfold mbind. pose proof (Hstep (e_device_id d) (e_ip_address d) w) as H1.
    assert (H1' : only_about (map e_ip_address (d :: rest))
                             (map e_device_id (d :: rest)) w
                             (fst (step (e_device_id d) (e_ip_address d) w))).
    { revert H1. apply only_about_weaken; cbn; intros ? [<- | []]; auto. }
    destruct (step (e_device_id d) (e_ip_address d) w) as [w1 [[] | e]];
      cbn [fst] in *; [| exact H1'].
    transitivity w1; [exact H1' |].
    generalize (IH w1). apply only_about_weaken; cbn; auto.
Qed.

(** X10. A collector keeps to the devices of its list: during
    [collect_all_devices] of either collector, every host that is asked
    for telemetry or sent a restart is the address of a listed device, and
    every alert is about a listed device, whatever the devices answer and
    whatever is stored. *)
Theorem collect_all_devices_keeps_to_its_list
    (entries : list device_entry) (w : world) :
  only_about (map e_ip_address entries) (map e_device_id entries) w
             (fst (BitAxeCollector.collect_all_devices net entries w)) /\
  only_about (map e_ip_address entries) (map e_device_id entries) w
             (fst (AvalonCollector.collect_all_devices net entries w)).
Proof.
  split.
  - assert (E : BitAxeCollector.collect_all_devices net entries w
                = BitAxeCollector.collect_each net entries w)
      by (destruct entries; reflexivity).
    rewrite E.
    apply (loop_only_about (BitAxeCollector.collect_device_data net)
             (BitAxeCollector.collect_each net)
             (fun ds w0 => match ds with [] => eq_refl | _ :: _ => eq_refl end)).
    intros id ip. apply collect_device_data_only_about.
  - assert (E : AvalonCollector.collect_all_devices net entries w
                = AvalonCollector.collect_each net entries w)
      by (destruct entries; reflexivity).
    rewrite E.
    apply (loop_only_about (AvalonCollector.collect_device_data net)
             (AvalonCollector.collect_each net)
             (fun ds w0 => match ds with [] => eq_refl | _ :: _ => eq_refl end)).
    intros id ip. apply collect_device_data_only_about.
Qed.

End OnlyAbout.

(** ** The sections of a cgminer answer always parse *)

Section Sections.
Import PyStr PyNum AvalonParse.

(** A text with the separator in it is cut in two by [split(sep, 1)]. *)
Lemma split1_of_contains (c : ascii) (s : string) :
  contains s (String c "") = true ->
  exists k v, split1 c s = [k; v].
Proof.
  unfold contains.
  induction s as [| a r IH]; [discriminate |].
  cbn [find split1].
  assert (Hs : startswith (String a r) (String c "") = ascii_eqb a c).
  { unfold startswith. cbn [strip_prefix]. unfold ascii_eqb.
    rewrite (Ascii.eqb_sym c a). destruct (Ascii.eqb a c); reflexivity. }
  rewrite Hs.
  destruct (ascii_eqb a c); [intros _; eauto |].
  destruct (find r (String c "")) as [n |]; [| discriminate].
  intros _. destruct (IH eq_refl) as (k & v & ->). eauto.
Qed.

Lemma store_pair_returns (pair_ : string) (parsed_data : gmap string string) :
  contains pair_ "=" = true -> is_ok (store_pair pair_ parsed_data) = true.
Proof.
  intros H. unfold store_pair.
  destruct (split1_of_contains "=" pair_ H) as (k & v & ->). reflexivity.
Qed.

Lemma store_pairs_returns (skip_mm : bool) (pairs : list string)
    (parsed_data : gmap string string) :
  is_ok (store_pairs skip_mm pairs parsed_data) = true.
Proof.
  revert parsed_data.
  induction pairs as [| p rest IH]; intros parsed_data; [reflexivity |].
  cbn [store_pairs].
  destruct (contains p "=") eqn:E; cbn [andb]; [| apply IH].
  destruct (negb (skip_mm && startswith (strip p) "MM ID0=")); [| apply IH].
  pose proof (store_pair_returns p parsed_data E) as H.
  destruct (store_pair p parsed_data) as [d |]; [apply IH | discriminate].
Qed.

Lemma parse_part_returns (part : string) (parsed_data : gmap string string) :
  is_ok (parse_part part parsed_data) = true.
Proof.
  unfold parse_part.
  destruct (contains part "=") eqn:E; [| reflexivity].
  destruct (startswith part "STATS=" || contains part "MM ID0=").
  - cbv zeta. apply store_pairs_returns.
  - destruct (contains part ","); [apply store_pairs_returns |].
    apply store_pair_returns. exact E.
Qed.

Lemma parse_parts_returns (parts : list string) (parsed_data : gmap string string) :
  is_ok (parse_parts parts parsed_data) = true.
Proof.
  revert parsed_data.
  induction parts as [| p rest IH]; intros parsed_data; [reflexivity |].
  cbn [parse_parts].
  pose proof (parse_part_returns p parsed_data) as H.
  destruct (parse_part p parsed_data) as [d |]; [apply IH | discriminate].
Qed.

(** X11. On a text, the sections of a cgminer answer always parse: every
    unpacking [key, value = pair.split('=', 1)] is guarded by ['=' in
    pair], so the loop never raises, the [except] branch of
    [_parse_cgminer_response] is never taken, and the result is the
    dictionary the loop has built. *)
Theorem cgminer_sections_always_parse (response_str : string) :
  exists parsed_data,
    parse_parts (split "|" response_str) ∅ = Ok parsed_data /\
    _parse_cgminer_response response_str = Ok parsed_data.
Proof.
  unfold _parse_cgminer_response, try_except_all.
  pose proof (parse_parts_returns (split "|" response_str) ∅) as H.
  destruct (parse_parts (split "|" response_str) ∅) as [d |]; [| discriminate].
  exists d. split; reflexivity.
Qed.

End Sections.

(** ** The Telegram notifier *)

Section Notifier.
Import Telegram.

Lemma configured_or_else (x y : option string) :
  configured (or_else x y) = configured x || configured y.
Proof. unfold or_else. destruct (configured x) eqn:E; [rewrite E |]; reflexivity. Qed.

Lemma init_enabled (env : environment) (token chat : option string) :
  enabled (__init__ env token chat)
  = (configured token || configured (env_bot_token env))
    && (configured chat || configured (env_chat_id env)).
Proof.
  unfold __init__. cbn [enabled]. rewrite !configured_or_else.
  destruct (configured token || configured (env_bot_token env)),
           (configured chat || configured (env_chat_id env)); reflexivity.
Qed.

(** X13. After [update_telegram_settings] the notifier is enabled exactly
    when the settings enable it with a token and a chat id, or the
    environment holds a token and a chat id: the notifier built for
    disabled settings still falls back on the environment variables. *)
Theorem update_telegram_settings_enabled
    (env : environment) (on : bool) (token chat : option string) :
  enabled (update_telegram_settings env on token chat)
  = (on && configured token && configured chat)
    || (configured (env_bot_token env) && configured (env_chat_id env)).
Proof.
  unfold update_telegram_settings.
  destruct (on && configured token && configured chat) eqn:E;
    rewrite init_enabled.
  - apply andb_true_iff in E. destruct E as [E Hc].
    apply andb_true_iff in E. destruct E as [_ Ht].
    rewrite Ht, Hc. reflexivity.
  - reflexivity.
Qed.

(** One more unit of fuel does not change a result. *)
Lemma send_message_fuel (fuel : nat) post self message parse_mode r :
  send_message fuel post self message parse_mode = Some r ->
  send_message (S fuel) post self message parse_mode = Some r.
Proof.
  revert parse_mode r.
  induction fuel as [| fuel IH]; intros parse_mode r; [discriminate |].
  intros H. cbn [send_message] in *.
  destruct (negb (enabled self)); [exact H |].
  destruct (post (message, parse_mode)) as [resp | e]; [| exact H].
  destruct (is_http_error resp); [| exact H].
  destruct ((status_code resp =? 400)%Z && String.eqb parse_mode "HTML"
            && PyStr.contains (text resp) "parse entities"); [| exact H].
  destruct (send_message fuel post self message "") as [[posted sent] |] eqn:E;
    [| discriminate].
  rewrite (IH _ _ E). exact H.
Qed.

(** X14. [send_message] ends after at most two requests, whatever the Bot
    API answers.  Disabled, it posts nothing and returns [False].
    Enabled, it posts the message once with the given parse mode; it posts
    it a second time, with the empty parse mode, exactly when the first
    answer is a 400 whose text holds "parse entities" and the parse mode
    was "HTML"; and it returns [True] exactly when the last request is
    answered without an HTTP error. *)
Theorem send_message_posts_at_most_twice
    (fuel : nat) (post : payload -> res response) (self : TelegramNotifier)
    (message parse_mode : string) :
  (2 <= fuel)%nat ->
  exists posted sent,
    send_message fuel post self message parse_mode = Some (posted, sent) /\
    (enabled self = false -> posted = [] /\ sent = false) /\
    (enabled self = true ->
       let retried :=
         match post (message, parse_mode) with
         | Ok response =>
             (status_code response =? 400)%Z && String.eqb parse_mode "HTML"
             && PyStr.contains (text response) "parse entities"
         | Raise _ => false
         end in
       posted = (if retried then [(message, parse_mode); (message, "")]
                 else [(message, parse_mode)]) /\
       sent = match post (List.last posted (message, parse_mode)) with
              | Ok response => negb (is_http_error response)
              | Raise _ => false
              end).
Proof.
  intros Hfuel.
  assert (H2 : exists posted sent,
             send_message 2 post self message parse_mode = Some (posted, sent) /\
             (enabled self = false -> posted = [] /\ sent = false) /\
             (enabled self = true ->
                let retried :=
                  match post (message, parse_mode) with
                  | Ok response =>
                      (status_code response =? 400)%Z && String.eqb parse_mode "HTML"
                      && PyStr.contains (text response) "parse entities"
                  | Raise _ => false
                  end in
                posted = (if retried then [(message, parse_mode); (message, "")]
                          else [(message, parse_mode)]) /\
                sent = match post (List.last posted (message, parse_mode)) with
                       | Ok response => negb (is_http_error response)
                       | Raise _ => false
                       end)).
  { cbn [send_message]. cbv zeta.
    destruct (enabled self) eqn:En; cbn [negb].
    2:{ exists [], false. split; [reflexivity |]. split; [auto | discriminate]. }
    destruct (post (message, parse_mode)) as [resp | e] eqn:E1.
    2:{ exists [(message, parse_mode)], false.
        split; [reflexivity |]. split; [discriminate |]. intros _.
        split; [reflexivity |]. cbn [List.last]. rewrite E1. reflexivity. }
    destruct (is_http_error resp) eqn:Eh.
    2:{ assert (E400 : (status_code resp =? 400)%Z = false).
        { unfold is_http_error in Eh. apply Z.eqb_neq. intros E400.
          rewrite E400 in Eh. discriminate. }
        rewrite E400. cbn [andb].
        exists [(message, parse_mode)], true.
        split; [reflexivity |]. split; [discriminate |]. intros _.
        split; [reflexivity |]. cbn [List.last]. rewrite E1, Eh. reflexivity. }
    destruct ((status_code resp =? 400)%Z && String.eqb parse_mode "HTML"
              && PyStr.contains (text resp) "parse entities") eqn:Er.
    2:{ exists [(message, parse_mode)], false.
        split; [reflexivity |]. split; [discriminate |]. intros _.
        split; [reflexivity |]. cbn [List.last]. rewrite E1, Eh. reflexivity. }
    (* the retry as plain text: its parse mode is not "HTML" *)
    destruct (post (message, "")) as [resp2 | e2] eqn:E2.
    2:{ exists [(message, parse_mode); (message, "")], false.
        split; [reflexivity |]. split; [discriminate |]. intros _.
        split; [reflexivity |]. cbn [List.last]. rewrite E2. reflexivity. }
    destruct (is_http_error resp2) eqn:Eh2.
    - replace ((status_code resp2 =? 400)%Z && String.eqb "" "HTML"
               && PyStr.contains (text resp2) "parse entities") with false
        by (cbn [String.eqb]; rewrite andb_false_r; reflexivity).
      exists [(message, parse_mode); (message, "")], false.
      split; [reflexivity |]. split; [discriminate |]. intros _.
      split; [reflexivity |]. cbn [List.last]. rewrite E2, Eh2. reflexivity.
    - exists [(message, parse_mode); (message, "")], true.
      split; [reflexivity |]. split; [discriminate |]. intros _.
      split; [reflexivity |]. cbn [List.last]. rewrite E2, Eh2. reflexivity. }
  destruct H2 as (posted & sent & Hrun & Hrest).
  exists posted, sent. split; [| exact Hrest].
  clear Hrest. induction Hfuel as [| fuel Hfuel IH]; [exact Hrun |].
  apply send_message_fuel. exact IH.
Qed.

End Notifier.

Lemma send_message_posts_at_most_twice_witness :
  let post := fun p : Telegram.payload =>
    if String.eqb (snd p) "HTML"
    then Ok {| Telegram.status_code := 400;
               Telegram.text := "Bad Request: can't parse entities" |}
    else Ok {| Telegram.status_code := 200; Telegram.text := "ok" |} in
  let self := {| Telegram.bot_token := Some "t"; Telegram.chat_id := Some "c";
                 Telegram.enabled := true |} in
  (2 <= 5)%nat /\
  Telegram.send_message 5 post self "<b>hi" "HTML"
  = Some ([("<b>hi", "HTML"); ("<b>hi", "")], true) /\
  exists posted sent,
    Telegram.send_message 5 post self "<b>hi" "HTML" = Some (posted, sent).
Proof.
  cbv zeta. split; [lia |]. split; [reflexivity |].
  destruct (send_message_posts_at_most_twice 5
              (fun p : Telegram.payload =>
                 if String.eqb (snd p) "HTML"
                 then Ok {| Telegram.status_code := 400;
                            Telegram.text := "Bad Request: can't parse entities" |}
                 else Ok {| Telegram.status_code := 200; Telegram.text := "ok" |})
              {| Telegram.bot_token := Some "t"; Telegram.chat_id := Some "c";
                 Telegram.enabled := true |}
              "<b>hi" "HTML" ltac:(lia)) as (posted & sent & H & _).
  exists posted, sent. exact H.
Defined.

(** ** Printed numbers read back *)

Section Printed.
Import PyStr PyNum PyFormat.

Lemma digits_tail_digit (c : ascii) (r : string) :
  is_digit c = true ->
  digits_tail (String c r)
  = (digit_val c :: fst (digits_tail r), snd (digits_tail r)).
Proof.
  intros H. cbn [digits_tail]. rewrite H.
  destruct (digits_tail r). reflexivity.
Qed.

Lemma digitpart_digit (c : ascii) (r : string) :
  is_digit c = true -> digitpart (String c r) = digits_tail (String c r).
Proof. intros H. cbn [digitpart digits_tail]. rewrite H. reflexivity. Qed.

Lemma Z_of_digits_acc_app (acc : Z) (ds ds' : list Z) :
  Z_of_digits_acc acc (ds ++ ds') = Z_of_digits_acc (Z_of_digits_acc acc ds) ds'.
Proof.
  revert acc. induction ds as [| d ds IH]; intros acc; [reflexivity |].
  cbn [app Z_of_digits_acc]. apply IH.
Qed.

Ltac printed_digit k u IH :=
  destruct IH as (ds & E & Hacc & H0);
  exists (k :: ds); split; [| split];
  [ cbn [DecimalString.NilEmpty.string_of_uint];
    rewrite append_cons, digits_tail_digit by reflexivity;
    rewrite E; reflexivity
  | intros acc; cbn [Z_of_digits_acc Pos.of_uint_acc];
    rewrite <- Hacc; f_equal; lia
  | change (Z_of_digits_acc 0 (k :: ds)) with (Z_of_digits_acc k ds);
    cbn [Pos.of_uint]; first [ exact H0 | apply Hacc ] ].

(** The digits the parser reads from a printed natural number, and their
    value. *)
Lemma digits_of_printed_uint (u : Decimal.uint) (rest : string) :
  digits_tail rest = ([], rest) ->
  exists ds,
    digits_tail (DecimalString.NilEmpty.string_of_uint u ++ rest) = (ds, rest) /\
    (forall acc : positive,
        Z_of_digits_acc (Z.pos acc) ds = Z.pos (Pos.of_uint_acc u acc)) /\
    Z_of_digits_acc 0 ds = Z.of_N (Pos.of_uint u).
Proof.
  intros Hrest.
  induction u as [| u IH | u IH | u IH | u IH | u IH | u IH | u IH | u IH | u IH | u IH].
  - exists []. split; [exact Hrest |]. split; [intros acc |]; reflexivity.
  - printed_digit 0%Z u IH.
  - printed_digit 1%Z u IH.
  - printed_digit 2%Z u IH.
  - printed_digit 3%Z u IH.
  - printed_digit 4%Z u IH.
  - printed_digit 5%Z u IH.
  - printed_digit 6%Z u IH.
  - printed_digit 7%Z u IH.
  - printed_digit 8%Z u IH.
  - printed_digit 9%Z u IH.
Qed.

Lemma printed_uint_starts_with_digit (u : Decimal.uint) (rest : string) :
  u <> Decimal.Nil ->
  exists c r, (DecimalString.NilEmpty.string_of_uint u ++ rest)%string = String c r /\
              is_digit c = true.
Proof.
  intros Hu. destruct u; [contradiction | ..];
    cbn [DecimalString.NilEmpty.string_of_uint]; rewrite append_cons;
    eexists _, _; (split; [reflexivity | reflexivity]).
Qed.

Lemma str_of_Z_printed (z : Z) :
  (0 <= z)%Z ->
  exists u, u <> Decimal.Nil /\
            Py.str_of_Z z = DecimalString.NilEmpty.string_of_uint u /\
            Z.of_N (Pos.of_uint u) = z.
Proof.
  intros Hz. destruct z as [| p | p]; [| | lia].
  - exists (Decimal.D0 Decimal.Nil). split; [discriminate |]. split; reflexivity.
  - exists (Pos.to_uint p).
    pose proof (DecimalPos.Unsigned.to_uint_nonnil p) as Hn.
    split; [exact Hn |]. split.
    + unfold Py.str_of_Z. cbn [Z.to_int DecimalString.NilZero.string_of_int].
      unfold DecimalString.NilZero.string_of_uint.
      destruct (Pos.to_uint p); [contradiction | reflexivity ..].
    + rewrite DecimalPos.Unsigned.of_to. reflexivity.
Qed.

(** A printed natural number, followed by something that is no digit and
    no underscore, is read back digit by digit. *)
Lemma digitpart_of_printed (z : Z) (rest : string) :
  (0 <= z)%Z -> digits_tail rest = ([], rest) ->
  exists ds,
    digitpart (Py.str_of_Z z ++ rest) = (ds, rest) /\ ds <> [] /\
    Z_of_digits_acc 0 ds = z.
Proof.
  intros Hz Hrest.
  destruct (str_of_Z_printed z Hz) as (u & Hu & -> & Hval).
  destruct (digits_of_printed_uint u rest Hrest) as (ds & E & _ & H0).
  destruct (printed_uint_starts_with_digit u rest Hu) as (c & r & Es & Hc).
  exists ds. rewrite Es in *. rewrite (digitpart_digit c r Hc).
  split; [exact E |]. split; [| rewrite H0; exact Hval].
  rewrite (digits_tail_digit c r Hc) in E. intros ->. discriminate.
Qed.

Lemma digit_char_digit (d : Z) :
  (0 <= d <= 9)%Z ->
  exists c, Py.digit_char d = String c "" /\ is_digit c = true /\ digit_val c = d.
Proof.
  intros Hd.
  assert (H : (d = 0 \/ d = 1 \/ d = 2 \/ d = 3 \/ d = 4 \/ d = 5 \/ d = 6 \/
               d = 7 \/ d = 8 \/ d = 9)%Z) by lia.
  repeat (destruct H as [-> | H]); [.. | subst d];
    eexists; (split; [reflexivity | split; reflexivity]).
Qed.

Lemma digit_is_digit_dot (c : ascii) : is_digit c = true -> Re.cls_digit_dot c = true.
Proof. intros H. unfold Re.cls_digit_dot. rewrite H. reflexivity. Qed.

Lemma sign_of_run (g : string) :
  all_chars Re.cls_digit_dot g = true -> sign_of g = (1%Z, g).
Proof.
  destruct g as [| c r]; [reflexivity |].
  cbn [all_chars]. rewrite andb_true_iff. intros [Hc _].
  destruct (digit_dot_is_plain c Hc) as (_ & Hp & Hm & _).
  cbn [sign_of]. rewrite Hp, Hm. reflexivity.
Qed.

(** The text of a natural number, a dot and two digits is read by [float]
    as that many hundredths. *)
Lemma float_of_fixed2 (a d1 d2 : Z) :
  (0 <= a)%Z -> (0 <= d1 <= 9)%Z -> (0 <= d2 <= 9)%Z ->
  let s := (Py.str_of_Z a ++ "." ++ Py.digit_char d1 ++ Py.digit_char d2)%string in
  all_chars Re.cls_digit_dot s = true /\ s <> "" /\
  exists v, float_of_string s = Ok v /\ (v == (100 * a + 10 * d1 + d2) # 100)%Q.
Proof.
  intros Ha H1 H2. cbv zeta.
  destruct (digit_char_digit d1 H1) as (c1 & -> & Hc1 & V1).
  destruct (digit_char_digit d2 H2) as (c2 & -> & Hc2 & V2).
  rewrite !append_cons, !append_empty.
  set (rest := String "." (String c1 (String c2 ""))).
  assert (Hall : all_chars Re.cls_digit_dot (Py.str_of_Z a ++ rest) = true).
  { rewrite all_chars_app.
    rewrite (all_chars_impl is_digit Re.cls_digit_dot _ digit_is_digit_dot
               (str_of_Z_digits a Ha)).
    unfold rest. cbn [all_chars andb].
    rewrite (digit_is_digit_dot c1 Hc1), (digit_is_digit_dot c2 Hc2). reflexivity. }
  split; [exact Hall |]. split.
  { unfold rest. destruct (Py.str_of_Z a); discriminate. }
  destruct (digit_dot_run_plain _ Hall) as [Hstrip _].
  unfold float_of_string. rewrite Hstrip, (sign_of_run _ Hall).
  destruct (digitpart_of_printed a rest Ha eq_refl) as (ds & -> & Hds & Hval).
  unfold rest. cbn [ascii_eqb Ascii.eqb Bool.eqb andb].
  rewrite (digitpart_digit c1 _ Hc1), (digits_tail_digit c1 _ Hc1),
    (digits_tail_digit c2 _ Hc2).
  cbn [digits_tail fst snd].
  destruct (digit_is_plain c1 Hc1) as (_ & _ & _ & _ & Hus).
  rewrite Hus.
  destruct ds as [| d ds]; [contradiction |].
  cbn [exponent length].
  eexists. split; [reflexivity |].
  unfold Z_of_digits. rewrite Z_of_digits_acc_app, Hval.
  cbn [Z_of_digits_acc]. rewrite V1, V2.
  unfold scale10.
  change (0 <=? 0 - Z.of_nat 2)%Z with false.
  change (Z.to_pos (10 ^ (- (0 - Z.of_nat 2)))) with 100%positive.
  cbv iota. rewrite Qred_correct.
  replace (1 * (10 * (10 * a + d1) + d2))%Z with (100 * a + 10 * d1 + d2)%Z by lia.
  reflexivity.
Qed.

Lemma round_half_even_close (q : Q) :
  (Qabs (inject_Z (round_half_even q) - q) <= 1 # 2)%Q.
Proof.
  unfold round_half_even. cbv zeta.
  pose proof (Qround.Qfloor_le q) as Hlo.
  pose proof (Qround.Qlt_floor q) as Hhi.
  rewrite inject_Z_plus in Hhi.
  set (f := Qround.Qfloor q) in *.
  change (inject_Z 1) with 1%Q in Hhi.
  assert (Hup : (inject_Z (f + 1) == inject_Z f + 1)%Q)
    by (rewrite inject_Z_plus; reflexivity).
  clearbody f.
  apply Qabs_Qle_condition.
  destruct (q - inject_Z f ?= 1 # 2)%Q eqn:E.
  - apply Qeq_alt in E.
    destruct (Z.even f); [| rewrite Hup]; split; lra.
  - apply Qlt_alt in E. split; lra.
  - apply Qgt_alt in E. rewrite Hup. split; lra.
Qed.

Lemma round_half_even_nonneg (q : Q) :
  (0 <= q)%Q -> (0 <= round_half_even q)%Z.
Proof.
  intros Hq. unfold round_half_even. cbv zeta.
  pose proof (Qround.Qfloor_resp_le 0 q Hq) as Hf.
  change (Qround.Qfloor 0) with 0%Z in Hf.
  destruct (q - inject_Z (Qround.Qfloor q) ?= 1 # 2)%Q; [destruct (Z.even _) | |]; lia.
Qed.

(** What [f"{x:.2f}"] prints for an [x] that is not negative is a text of
    digits and one dot that [float] reads back, at most half a hundredth
    away from [x]. *)
Lemma format_2f_reads (x : Q) :
  (0 <= x)%Q ->
  all_chars Re.cls_digit_dot (format_2f x) = true /\ format_2f x <> "" /\
  exists v, float_of_string (format_2f x) = Ok v /\ (Qabs (v - x) <= 1 # 200)%Q.
Proof.
  intros Hx. unfold format_2f. cbv zeta.
  assert (Hsign : flt x 0 = false) by (apply flt_false; exact Hx).
  rewrite Hsign, append_empty.
  set (n := round_half_even (Qabs x * 100)).
  assert (Hn : (0 <= n)%Z).
  { apply round_half_even_nonneg.
    apply Qmult_le_0_compat; [apply Qabs_nonneg | discriminate]. }
  pose proof (round_half_even_close (Qabs x * 100)) as Hclose. fold n in Hclose.
  rewrite (Qabs_pos x Hx) in Hclose.
  pose proof (Z.div_pos n 100 Hn ltac:(lia)) as Ha.
  pose proof (Z.mod_pos_bound n 100 ltac:(lia)) as Hm.
  pose proof (Z.mod_pos_bound n 10 ltac:(lia)) as H2.
  assert (H1 : (0 <= (n mod 100) / 10 <= 9)%Z).
  { split; [apply Z.div_pos; lia |].
    apply Z.lt_succ_r. apply Z.div_lt_upper_bound; lia. }
  assert (Hsum : (100 * (n / 100) + 10 * ((n mod 100) / 10) + n mod 10 = n)%Z).
  { pose proof (Z.div_mod n 100 ltac:(lia)).
    pose proof (Z.div_mod (n mod 100) 10 ltac:(lia)).
    assert ((n mod 100) mod 10 = n mod 10)%Z.
    { symmetry. rewrite (Z.div_mod n 100) at 1 by lia.
      rewrite Z.add_comm, Z.mul_comm.
      replace (n / 100 * 100)%Z with ((n / 100 * 10) * 10)%Z by lia.
      apply Z.mod_add. lia. }
    lia. }
  destruct (float_of_fixed2 (n / 100) ((n mod 100) / 10) (n mod 10) Ha H1 ltac:(lia))
    as (Hall & Hne & v & Hv & Hval).
  split; [exact Hall |]. split; [exact Hne |].
  exists v. split; [exact Hv |].
  rewrite Hsum in Hval.
  apply Qabs_Qle_condition in Hclose. apply Qabs_Qle_condition.
  assert (En : (n # 100 == inject_Z n / 100)%Q).
  { unfold Qeq, Qdiv, Qmult, Qinv, inject_Z. cbn. lia. }
  rewrite Hval, En. clear - Hclose.
  destruct Hclose as [Hlo Hhi]. generalize dependent (inject_Z n). intros y Hlo Hhi.
  unfold Qdiv. change (/ 100)%Q with (1 # 100)%Q.
  split; lra.
Qed.

End Printed.

(** ** Formatted numbers parse back *)

Section RoundTrips.
Import PyStr PyNum PyFormat.

Lemma formatted_is_text (x : Q) (rest : string) :
  (0 <= x)%Q -> String.eqb (format_2f x ++ rest) "" = false.
Proof.
  intros Hx. destruct (format_2f_reads x Hx) as (_ & Hne & _).
  destruct (format_2f x); [contradiction | reflexivity].
Qed.

(** The difficulty parser on a formatted number, a space and a unit. *)
Lemma parse_difficulty_of_formatted (x : Q) (u : ascii) :
  (0 <= x)%Q -> Re.is_unit u = true ->
  exists v,
    BitAxeParse._parse_difficulty (VStr (format_2f x ++ String " " (String u "")))
    = Ok (fmul v (BitAxeParse.multiplier (Some u))) /\
    (Qabs (v - x) <= 1 # 200)%Q.
Proof.
  intros Hx Hu.
  destruct (format_2f_reads x Hx) as (Hall & Hne & v & Hv & Hclose).
  exists v. split; [| exact Hclose].
  unfold BitAxeParse._parse_difficulty. cbn [Py.truthy Py.str].
  rewrite (formatted_is_text x _ Hx). cbn [negb].
  unfold Re.match_difficulty.
  rewrite (span_all Re.cls_digit_dot (format_2f x) _ Hall) by reflexivity.
  destruct (unit_is_no_digit u Hu) as [_ Hsp].
  destruct (format_2f x) as [| c g]; [contradiction |].
  cbn [span]. change (is_space " ") with true. cbn [span]. rewrite Hsp.
  cbn [snd]. rewrite Hu, Hv. reflexivity.
Qed.

Lemma parse_difficulty_of_formatted_plain (x : Q) :
  (0 <= x)%Q ->
  exists v,
    BitAxeParse._parse_difficulty (VStr (format_2f x))
    = Ok (fmul v (BitAxeParse.multiplier None)) /\
    (Qabs (v - x) <= 1 # 200)%Q.
Proof.
  intros Hx.
  destruct (format_2f_reads x Hx) as (Hall & Hne & v & Hv & Hclose).
  exists v. split; [| exact Hclose].
  unfold BitAxeParse._parse_difficulty. cbn [Py.truthy Py.str].
  pose proof (formatted_is_text x "" Hx) as Ht.
  pose proof (span_all Re.cls_digit_dot (format_2f x) "" Hall I) as Hspan.
  assert (E : (format_2f x ++ "")%string = format_2f x).
  { clear. induction (format_2f x) as [| c s IH]; [reflexivity |].
    rewrite append_cons, IH. reflexivity. }
  rewrite E in Ht, Hspan. rewrite Ht. cbn [negb].
  unfold Re.match_difficulty. rewrite Hspan.
  destruct (format_2f x) as [| c g]; [contradiction |].
  cbn [span snd]. rewrite Hv. reflexivity.
Qed.

Ltac constants :=
  unfold fdiv, fmul in *;
  repeat match goal with
         | H : context [Qred _] |- _ => setoid_rewrite Qred_correct in H
         | |- context [Qred _] => setoid_rewrite Qred_correct
         end;
  unfold Qdiv in *; cbn [Qinv Qnum Qden] in *.

(** X15. What the notifier prints for a difficulty, the collector's
    parser reads back: for a difficulty that is not negative,
    [_parse_difficulty] returns on the text of [_format_difficulty], with
    the unit the notifier chose, and the value it returns differs from the
    difficulty by at most half a percent of it plus half a hundredth (the
    rounding to two decimals). *)
Theorem format_difficulty_parses_back (difficulty : Q) :
  (0 <= difficulty)%Q ->
  exists parsed,
    BitAxeParse._parse_difficulty (VStr (Telegram._format_difficulty difficulty))
    = Ok parsed /\
    (Qabs (parsed - difficulty) <= difficulty * (1 # 200) + (1 # 200))%Q.
Proof.
  intros Hd. unfold Telegram._format_difficulty.
  destruct (fle 1000000000000 difficulty) eqn:E12;
    [| destruct (fle 1000000000 difficulty) eqn:E9;
       [| destruct (fle 1000000 difficulty) eqn:E6;
          [| destruct (fle 1000 difficulty) eqn:E3 ] ] ].
  - apply fle_true in E12.
    assert (Hx : (0 <= fdiv difficulty 1000000000000)%Q) by (constants; lra).
    destruct (parse_difficulty_of_formatted _ "T" Hx eq_refl) as (v & -> & Hv).
    eexists. split; [reflexivity |].
    apply Qabs_Qle_condition in Hv. apply Qabs_Qle_condition.
    cbn [BitAxeParse.multiplier ascii_eqb Ascii.eqb Bool.eqb andb].
    constants. split; lra.
  - apply fle_true in E9.
    assert (Hx : (0 <= fdiv difficulty 1000000000)%Q) by (constants; lra).
    destruct (parse_difficulty_of_formatted _ "G" Hx eq_refl) as (v & -> & Hv).
    eexists. split; [reflexivity |].
    apply Qabs_Qle_condition in Hv. apply Qabs_Qle_condition.
    cbn [BitAxeParse.multiplier ascii_eqb Ascii.eqb Bool.eqb andb].
    constants. split; lra.
  - apply fle_true in E6.
    assert (Hx : (0 <= fdiv difficulty 1000000)%Q) by (constants; lra).
    destruct (parse_difficulty_of_formatted _ "M" Hx eq_refl) as (v & -> & Hv).
    eexists. split; [reflexivity |].
    apply Qabs_Qle_condition in Hv. apply Qabs_Qle_condition.
    cbn [BitAxeParse.multiplier ascii_eqb Ascii.eqb Bool.eqb andb].
    constants. split; lra.
  - apply fle_true in E3.
    assert (Hx : (0 <= fdiv difficulty 1000)%Q) by (constants; lra).
    destruct (parse_difficulty_of_formatted _ "K" Hx eq_refl) as (v & -> & Hv).
    eexists. split; [reflexivity |].
    apply Qabs_Qle_condition in Hv. apply Qabs_Qle_condition.
    cbn [BitAxeParse.multiplier ascii_eqb Ascii.eqb Bool.eqb andb].
    constants. split; lra.
  - destruct (parse_difficulty_of_formatted_plain _ Hd) as (v & -> & Hv).
    eexists. split; [reflexivity |].
    apply Qabs_Qle_condition in Hv. apply Qabs_Qle_condition.
    cbn [BitAxeParse.multiplier].
    constants. split; lra.
Qed.

Lemma format_difficulty_parses_back_witness :
  (0 <= 22230000)%Q /\
  Telegram._format_difficulty 22230000 = "22.23 M" /\
  exists parsed,
    BitAxeParse._parse_difficulty (VStr (Telegram._format_difficulty 22230000))
    = Ok parsed.
Proof.
  split; [discriminate |]. split; [vm_compute; reflexivity |].
  destruct (format_difficulty_parses_back 22230000 ltac:(discriminate))
    as (parsed & H & _).
  exists parsed. exact H.
Defined.

(** The unit letters the formatter of the pool statistics appends. *)
Lemma pool_unit_facts (u : ascii) :
  In u ["P"; "T"; "G"; "M"; "K"]%char ->
  CKPool.is_unit u = true /\ CKPool.upper u = u /\
  Re.cls_digit_dot u = false /\ is_space u = false.
Proof.
  intros [<- | [<- | [<- | [<- | [<- | []]]]]]; repeat split; reflexivity.
Qed.

Lemma strip_of_run_and_unit (g : string) (rest : string) :
  all_chars Re.cls_digit_dot g = true -> g <> "" ->
  all_chars (fun c => negb (is_space c)) rest = true ->
  strip (g ++ rest) = (g ++ rest)%string.
Proof.
  intros Hg Hne Hrest. unfold strip.
  assert (Hplain : all_chars (fun c => negb (is_space c)) (g ++ rest) = true).
  { rewrite all_chars_app, Hrest, andb_true_r.
    apply (all_chars_impl Re.cls_digit_dot); [| exact Hg].
    intros c Hc. destruct (digit_dot_is_plain c Hc) as [-> _]. reflexivity. }
  destruct g as [| c g]; [contradiction |].
  rewrite append_cons in *.
  cbn [all_chars] in Hplain. apply andb_true_iff in Hplain.
  destruct Hplain as [Hc Hplain]. apply negb_true_iff in Hc.
  rewrite (lstrip_plain c _ Hc).
  apply rstrip_plain. cbn [all_chars]. rewrite Hc, Hplain. reflexivity.
Qed.

(** The converter of the pool statistics on a formatted number and a
    unit. *)
Lemma convert_hashrate_of_formatted (x : Q) (unit : option ascii) :
  (0 <= x)%Q ->
  (forall u, unit = Some u -> In u ["P"; "T"; "G"; "M"; "K"]%char) ->
  exists v,
    CKPool.convert_hashrate_to_ghs (VStr (format_2f x ++ unit_text unit))
    = Ok (fmul v (CKPool.multiplier unit)) /\
    (Qabs (v - x) <= 1 # 200)%Q.
Proof.
  intros Hx Hunit.
  destruct (format_2f_reads x Hx) as (Hall & Hne & v & Hv & Hclose).
  exists v. split; [| exact Hclose].
  unfold CKPool.convert_hashrate_to_ghs. cbn [Py.truthy].
  rewrite (formatted_is_text x _ Hx). cbn [negb]. cbv zeta.
  assert (Hrest : all_chars (fun c => negb (is_space c)) (unit_text unit) = true
                  /\ match unit_text unit with
                     | String c _ => Re.cls_digit_dot c = false
                     | EmptyString => True
                     end).
  { destruct unit as [u |]; [| split; [reflexivity | exact I]].
    destruct (pool_unit_facts u (Hunit u eq_refl)) as (_ & _ & Hd & Hs).
    cbn [unit_text all_chars]. rewrite Hs. split; [reflexivity | exact Hd]. }
  destruct Hrest as [Hplain Hstop].
  rewrite (strip_of_run_and_unit _ _ Hall Hne Hplain).
  rewrite (span_all Re.cls_digit_dot (format_2f x) _ Hall Hstop).
  destruct (format_2f x) as [| c g]; [contradiction |].
  rewrite Hv. cbn [rbind].
  destruct unit as [u |]; [| reflexivity].
  destruct (pool_unit_facts u (Hunit u eq_refl)) as (Hu & Hup & _ & _).
  cbn [unit_text]. rewrite Hu, Hup. reflexivity.
Qed.

Ltac pool_branch u Hcond :=
  apply fle_true in Hcond;
  match goal with
  | |- context [format_2f ?x] =>
      let Hx := fresh "Hx" in
      assert (Hx : (0 <= x)%Q) by (constants; lra);
      let v := fresh "v" in
      let Hrun := fresh "Hrun" in
      let Hv := fresh "Hv" in
      destruct (convert_hashrate_of_formatted x (Some u) Hx
                  ltac:(intros ? [= <-]; cbn; tauto)) as (v & Hrun & Hv);
      eexists _, _, _; split; [reflexivity |]; split; [reflexivity |];
      split; [exact Hrun |];
      apply Qabs_Qle_condition in Hv; apply Qabs_Qle_condition;
      cbn [CKPool.multiplier ascii_eqb Ascii.eqb Bool.eqb andb];
      constants; split; lra
  end.

(** X16. The two hashrate columns the PublicPool collector stores in one
    row agree: for a total hashrate that is not negative, the text of
    [format_hashrate] is read by the converter of the pool statistics
    ([convert_hashrate_to_ghs] of the CKPool collector, also used by the
    backend when it saves the row) as the GH/s value that
    [PublicPoolCollector.convert_hashrate_to_ghs] computes, up to half a
    percent of it plus 5e-12 (the rounding to two decimals). *)
Theorem publicpool_hashrate_columns_agree (total_hashrate : Q) :
  (0 <= total_hashrate)%Q ->
  exists hashrate_formatted hashrate_ghs read_back,
    PublicPool.format_hashrate (VFloat total_hashrate) = Ok hashrate_formatted /\
    PublicPool.convert_hashrate_to_ghs (VFloat total_hashrate) = Ok hashrate_ghs /\
    CKPool.convert_hashrate_to_ghs (VStr hashrate_formatted) = Ok read_back /\
    (Qabs (read_back - hashrate_ghs)
     <= hashrate_ghs * (1 # 200) + (5 # 1000000000000))%Q.
Proof.
  intros Hpos.
  unfold PublicPool.format_hashrate, PublicPool.convert_hashrate_to_ghs.
  cbn [Py.truthy Py.float rbind try_except].
  destruct (Qeq_bool total_hashrate 0) eqn:Ez; cbn [negb].
  { exists "0", 0%Q, 0%Q.
    split; [reflexivity |]. split; [reflexivity |].
    split; [vm_compute; reflexivity | discriminate]. }
  assert (Hvalue : (Qred total_hashrate == total_hashrate)%Q) by apply Qred_correct.
  assert (Hpos' : (0 <= Qred total_hashrate)%Q) by (rewrite Hvalue; exact Hpos).
  generalize dependent (Qred total_hashrate). intros value Hvalue Hpos'.
  clear Hvalue Ez.
  destruct (fle 1000000000000000 value) eqn:E15; [pool_branch "P"%char E15 |].
  destruct (fle 1000000000000 value) eqn:E12; [pool_branch "T"%char E12 |].
  destruct (fle 1000000000 value) eqn:E9; [pool_branch "G"%char E9 |].
  destruct (fle 1000000 value) eqn:E6; [pool_branch "M"%char E6 |].
  destruct (fle 1000 value) eqn:E3; [pool_branch "K"%char E3 |].
  destruct (convert_hashrate_of_formatted value None Hpos' ltac:(discriminate))
    as (v & Hrun & Hv).
  cbn [unit_text] in Hrun.
  assert (E : (format_2f value ++ "")%string = format_2f value).
  { clear. induction (format_2f value) as [| c s IH]; [reflexivity |].
    rewrite append_cons, IH. reflexivity. }
  rewrite E in Hrun.
  eexists _, _, _. split; [reflexivity |]. split; [reflexivity |].
  split; [exact Hrun |].
  apply Qabs_Qle_condition in Hv. apply Qabs_Qle_condition.
  cbn [CKPool.multiplier]. constants. split; lra.
Qed.

Lemma publicpool_hashrate_columns_agree_witness :
  (0 <= 466123456789)%Q /\
  PublicPool.format_hashrate (VFloat 466123456789) = Ok "466.12G" /\
  exists hashrate_formatted read_back,
    PublicPool.format_hashrate (VFloat 466123456789) = Ok hashrate_formatted /\
    CKPool.convert_hashrate_to_ghs (VStr hashrate_formatted) = Ok read_back.
Proof.
  split; [discriminate |]. split; [vm_compute; reflexivity |].
  destruct (publicpool_hashrate_columns_agree 466123456789 ltac:(discriminate))
    as (s & g & r & H1 & _ & H3 & _).
  exists s, r. split; [exact H1 | exact H3].
Defined.

End RoundTrips.

(** ** Active devices never come "back online" *)

Section BackOnline.
Variable net : network.
Variable ids : list string.
Import Sql.
Local Open Scope M_scope.

#[local] Instance no_back_online_preorder : PreOrder (no_back_online ids).
Proof.
  split.
  - intros w H. split; [exact H | apply extended_within_refl].
  - intros a b c Hab Hbc Ha.
    destruct (Hab Ha) as [Hb E1]. destruct (Hbc Hb) as [Hc E2].
    split; [exact Hc | exact (extended_within_trans _ _ _ _ E1 E2)].
Qed.

Lemma update_status_row_device_id device_id is_online msg t (d : device_row) :
  d_device_id (update_status_row device_id is_online msg t d) = d_device_id d.
Proof.
  unfold update_status_row.
  destruct (String.eqb (d_device_id d) device_id); reflexivity.
Qed.

Lemma listed_rows_active_after_update device_id is_online msg t (w : world) :
  listed_rows_active ids w ->
  listed_rows_active ids (update_status device_id is_online msg t w).
Proof.
  intros H id row Hin Hsel.
  unfold select_device, update_status in Hsel. cbn [devices set_devices] in Hsel.
  rewrite find_map_same in Hsel
    by (intros d; rewrite update_status_row_device_id; reflexivity).
  destruct (List.find _ (devices w)) as [row0 |] eqn:E; [| discriminate].
  injection Hsel as <-. rewrite update_status_row_is_active.
  apply (H id row0 Hin). exact E.
Qed.

Ltac quiet_leaf :=
  let H := fresh in
  intros H; split;
  [ exact H
  | cbn; first [ apply extended_within_refl
               | apply extended_within_one; reflexivity ] ].

(** The status update of a listed device: its row is active, so the
    branch of the back-online alert is not taken. *)
Lemma update_device_status_no_back_online
    (device_id device_ip : string) (is_online : bool) (error_message : string) :
  In device_id ids ->
  keeps (no_back_online ids)
        (Collector.update_device_status device_id device_ip is_online error_message).
Proof.
  intros Hin.
  unfold Collector.update_device_status.
  apply (keeps_bind (no_back_online ids)); [| intros _].
  { apply (keeps_connection (no_back_online ids)). intros w cs. quiet_leaf. }
  intros w Hact. unfold mtry, mbind, gets.
  destruct (select_device device_id w) as [row |] eqn:Hsel; cbn [fst].
  2:{ split; [exact Hact | apply extended_within_refl]. }
  pose proof (Hact device_id row Hin Hsel) as Hrow.
  cbv zeta. rewrite Hrow. unfold clock, modify, notify, mret. cbn [fst snd].
  assert (Hafter : forall t w0,
             devices w0 = devices w ->
             listed_rows_active ids
               (update_status device_id is_online error_message t w0)).
  { intros t w0 E. apply listed_rows_active_after_update.
    intros id r Hi Hs. apply (Hact id r Hi).
    unfold select_device in *. rewrite <- E. exact Hs. }
  destruct is_online; cbn [negb andb fst].
  - split; [apply Hafter; reflexivity | apply extended_within_refl].
  - split.
    + intros id r Hi Hs.
      apply (Hafter (now w) (set_now (now w + 1) w) eq_refl id r Hi). exact Hs.
    + cbn. apply extended_within_one. reflexivity.
Qed.

Lemma collect_device_data_no_back_online (device_id device_ip : string) :
  In device_id ids ->
  keeps (no_back_online ids)
        (BitAxeCollector.collect_device_data net device_id device_ip) /\
  keeps (no_back_online ids)
        (AvalonCollector.collect_device_data net device_id device_ip).
Proof.
  intros Hin. split.
  - unfold BitAxeCollector.collect_device_data, BitAxeCollector.collect_body,
      BitAxeCollector.update_device_status,
      BitAxeCollector.check_hashrate_stagnation,
      BitAxeCollector.check_best_difficulty_improvement,
      Collector.check_hashrate_stagnation,
      Collector.check_best_difficulty_improvement, Collector.restart_device,
      Collector._api_request, Collector._socket_request, Sql.commit, notify.
    repeat first [ apply (update_device_status_no_back_online _ _ _ _ Hin)
                 | keeps_step ltac:(quiet_leaf) ].
  - unfold AvalonCollector.collect_device_data, AvalonCollector.collect_body,
      AvalonCollector.update_device_status,
      AvalonCollector.check_hashrate_stagnation,
      AvalonCollector.check_best_difficulty_improvement,
      Collector.check_hashrate_stagnation,
      Collector.check_best_difficulty_improvement, Collector.restart_device,
      Collector._api_request, Collector._socket_request, Sql.commit, notify.
    repeat first [ apply (update_device_status_no_back_online _ _ _ _ Hin)
                 | keeps_step ltac:(quiet_leaf) ].
Qed.

Lemma loop_no_back_online (step : string -> string -> M unit)
    (each : list device_entry -> M unit) :
  (forall ds w, each ds w
                = match ds with
                  | [] => mret tt w
                  | d :: rest =>
                      mbind (step (e_device_id d) (e_ip_address d))
                            (fun _ => each rest) w
                  end) ->
  (forall id ip, In id ids -> keeps (no_back_online ids) (step id ip)) ->
  forall ds, (forall d, In d ds -> In (e_device_id d) ids) ->
             keeps (no_back_online ids) (each ds).
Proof.
  intros Heach Hstep ds.
  induction ds as [| d rest IH]; intros Hds w; rewrite Heach.
  - reflexivity.
  - apply (keeps_bind (no_back_online ids)).
    + apply Hstep. apply Hds. left. reflexivity.
    + intros _. apply IH. intros d' Hd'. apply Hds. right. exact Hd'.
Qed.

End BackOnline.

(** X17. A collector whose listed devices are active in the registry, as
    the devices that [load_active_devices] selects are, never sends a
    back-online alert: the status update compares the outcome of the poll
    with the column [is_active], which it never writes, so for these
    devices the branch of [send_device_online_alert] is not taken, whatever
    the devices answer and however often polls fail and succeed again. *)
Theorem active_devices_never_come_back_online
    (net : network) (entries : list device_entry) (w : world) :
  listed_rows_active (map e_device_id entries) w ->
  extended_within (fun a => is_back_online a = false) (alerts w)
    (alerts (fst (BitAxeCollector.collect_all_devices net entries w))) /\
  extended_within (fun a => is_back_online a = false) (alerts w)
    (alerts (fst (AvalonCollector.collect_all_devices net entries w))).
Proof.
  intros Hact.
  assert (Hin : forall d, In d entries -> In (e_device_id d) (map e_device_id entries))
    by (intros d Hd; apply in_map; exact Hd).
  split.
  - assert (E : BitAxeCollector.collect_all_devices net entries w
                = BitAxeCollector.collect_each net entries w)
      by (destruct entries; reflexivity).
    rewrite E.
    apply (loop_no_back_online (map e_device_id entries)
             (BitAxeCollector.collect_device_data net)
             (BitAxeCollector.collect_each net)
             (fun ds w0 => match ds with [] => eq_refl | _ :: _ => eq_refl end)
             (fun id ip H => proj1 (collect_device_data_no_back_online net _ id ip H))
             entries Hin w Hact).
  - assert (E : AvalonCollector.collect_all_devices net entries w
                = AvalonCollector.collect_each net entries w)
      by (destruct entries; reflexivity).
    rewrite E.
    apply (loop_no_back_online (map e_device_id entries)
             (AvalonCollector.collect_device_data net)
             (AvalonCollector.collect_each net)
             (fun ds w0 => match ds with [] => eq_refl | _ :: _ => eq_refl end)
             (fun id ip H => proj2 (collect_device_data_no_back_online net _ id ip H))
             entries Hin w Hact).
Qed.

Lemma active_devices_never_come_back_online_witness :
  listed_rows_active (map e_device_id two_entries) two_devices /\
  extended_within (fun a => is_back_online a = false) (alerts two_devices)
    (alerts (fst (BitAxeCollector.collect_all_devices answering_net two_entries
                    two_devices))).
Proof.
  assert (H : listed_rows_active (map e_device_id two_entries) two_devices).
  { intros id row Hin. cbn in Hin.
    destruct Hin as [<- | [<- | []]]; vm_compute; intros [= <-]; reflexivity. }
  split; [exact H |].
  apply (active_devices_never_come_back_online answering_net two_entries
           two_devices H).
Defined.

(** ** The power extractor: the array of seven and the fallbacks *)

Section Power.
Import PyStr PyNum AvalonParse.




End Power.


(** ** The previous best the Bitaxe poll compares with *)

Section PreviousBest.
Variable net : network.
Import PyNum Sql.
Local Open Scope M_scope.

#[local] Instance before_commit_preorder : PreOrder before_commit.
Proof.
  split.
  - intros w. split; [auto |]. split; [reflexivity |]. split; [reflexivity |].
    split; [lia | apply extended_within_refl].
  - intros a b c (C1 & S1 & D1 & N1 & A1) (C2 & S2 & D2 & N2 & A2).
    split; [auto |]. split; [transitivity b; assumption |].
    split; [intros i; rewrite D2; apply D1 |].
    split; [lia | exact (extended_within_trans _ _ _ _ A1 A2)].
Qed.

Lemma get_db_connection_before_commit : keeps before_commit get_db_connection.
Proof.
  intros w. unfold get_db_connection.
  destruct (connects w) as [| [|] cs] eqn:E; cbn [fst];
    (split; [cbn; rewrite ?E; auto; discriminate |]);
    (split; [repeat split |]); (split; [reflexivity |]);
    (split; [cbn; lia | apply extended_within_refl]).
Qed.

Lemma clock_before_commit : keeps before_commit clock.
Proof.
  intros w. unfold clock. cbn [fst].
  split; [auto |]. split; [repeat split |]. split; [reflexivity |].
  split; [cbn; lia | apply extended_within_refl].
Qed.

Lemma update_status_row_same_name device_id is_online msg t (d : device_row) :
  d_device_name (update_status_row device_id is_online msg t d) = d_device_name d /\
  d_device_id (update_status_row device_id is_online msg t d) = d_device_id d.
Proof.
  unfold update_status_row.
  destruct (String.eqb (d_device_id d) device_id); split; reflexivity.
Qed.

Lemma update_status_keeps_names device_id is_online msg t (w : world) (i : string) :
  registered_name i (update_status device_id is_online msg t w) = registered_name i w.
Proof.
  unfold registered_name, select_device, update_status.
  change (devices (set_devices ?l w)) with l.
  rewrite find_map_same.
  - destruct (List.find _ (devices w)) as [d |]; cbn [option_map]; [| reflexivity].
    apply update_status_row_same_name.
  - intros d.
    rewrite (proj2 (update_status_row_same_name device_id is_online msg t d)).
    reflexivity.
Qed.

Ltac commit_leaf :=
  split; [ cbn; auto
         | split; [ repeat split
                  | split; [ first [ reflexivity | intros ?; apply update_status_keeps_names ]
                           | split; [ cbn; lia
                                    | cbn; first [ apply extended_within_refl
                                                 | apply extended_within_one; reflexivity ] ] ] ] ].

Ltac before_commit_step :=
  first [ apply get_db_connection_before_commit
        | apply clock_before_commit
        | keeps_step ltac:(commit_leaf) ].


Lemma api_request_before_commit (ip endpoint : string) :
  keeps before_commit (Collector._api_request net ip endpoint).
Proof.
  unfold Collector._api_request. repeat before_commit_step.
Qed.















End PreviousBest.

